(** * News-to-Json: the extraction pipeline of the RSS scrapers

    A shallow embedding of the four scraper variants of the repository
    ([check.py], [jsonCURR.py], [app.py], [jsonDEPRE.py]) and the properties
    of their gazetteer, date normaliser, disaster classifier, location
    resolver and feed loop.

    Conventions of the embedding.
    - A Python [str] is a [string]; its characters are read as ASCII code
      points, and [str.lower], [str.strip], the [in] operator and the
      classes [\s] and [\d] are the ASCII restrictions of the Python ones.
    - A Python [set] of strings is a [gset string]; turning a set into a
      list ([list(s)], [', '.join(s)]) goes through a [PySetOrder], an
      arbitrary enumeration of the set, since Python fixes no order.
    - An exception is a value of [exn]; code that may raise returns a
      [result], and a [try]/[except] is a [match] on it.
    - The collaborators ([spacy], [requests], [BeautifulSoup], [pandas],
      the file system) appear through what the scrapers observe of them:
      the entities of a document, the items of a response, the columns of
      a data frame, the state of a file. *)

From Stdlib Require Import Ascii ZArith Lia.
From stdpp Require Import gmap strings list.

Local Open Scope string_scope.

(** ** Python strings *)

Module PyStr.

Definition is_upper (c : ascii) : bool :=
  (65 <=? nat_of_ascii c)%nat && (nat_of_ascii c <=? 90)%nat.

Definition chr_lower (c : ascii) : ascii :=
  if is_upper c then ascii_of_nat (nat_of_ascii c + 32) else c.

(** [s.lower()] *)
Fixpoint lower (s : string) : string :=
  match s with
  | EmptyString => EmptyString
  | String c s' => String (chr_lower c) (lower s')
  end.

(** [c.isspace()]: tab, line feed, vertical tab, form feed, carriage
    return, the four separators 0x1c-0x1f and the space. *)
Definition isspace (c : ascii) : bool :=
  let n := nat_of_ascii c in
  ((9 <=? n)%nat && (n <=? 13)%nat) || ((28 <=? n)%nat && (n <=? 32)%nat).

Fixpoint lstrip (s : string) : string :=
  match s with
  | EmptyString => EmptyString
  | String c s' => if isspace c then lstrip s' else s
  end.

Fixpoint rstrip (s : string) : string :=
  match s with
  | EmptyString => EmptyString
  | String c s' =>
      match rstrip s' with
      | EmptyString => if isspace c then EmptyString else String c EmptyString
      | r => String c r
      end
  end.

(** [s.strip()] *)
Definition strip (s : string) : string := rstrip (lstrip s).

(** [s.startswith(p)] *)
Fixpoint startswith (p s : string) : bool :=
  match p, s with
  | EmptyString, _ => true
  | String _ _, EmptyString => false
  | String a p', String b s' => Ascii.eqb a b && startswith p' s'
  end.

(** [k in s] on strings: [k] occurs in [s] as a contiguous substring. *)
Fixpoint contains (k s : string) : bool :=
  startswith k s ||
  match s with
  | EmptyString => false
  | String _ s' => contains k s'
  end.

(** [sep.join(l)] *)
Fixpoint join (sep : string) (l : list string) : string :=
  match l with
  | [] => EmptyString
  | [x] => x
  | x :: l' => x +:+ sep +:+ join sep l'
  end.

End PyStr.

(** ** Exceptions and results *)

Inductive exn : Type :=
  | AttributeError
  | ValueError
  | FileNotFoundError
  | EmptyDataError
  | OSError
  | RequestException.

Inductive result (A : Type) : Type :=
  | Ok (a : A)
  | Raise (e : exn).
Arguments Ok {A} a.
Arguments Raise {A} e.

#[global] Instance result_ret : MRet result := fun A a => Ok a.

#[global] Instance result_bind : MBind result := fun A B k r =>
  match r with
  | Ok a => k a
  | Raise e => Raise e
  end.

(** ** Python sets turned into lists *)

Class PySetOrder := {
  list_of_set : gset string → list string;
  list_of_set_perm : ∀ X, list_of_set X ≡ₚ elements X
}.

(** One enumeration: the order [elements] happens to produce. *)
Definition elements_order : PySetOrder :=
  {| list_of_set := elements; list_of_set_perm := fun X => reflexivity _ |}.

(** The reverse enumeration, a second order to compare with. *)
Definition reverse_order : PySetOrder :=
  {| list_of_set := fun X => reverse (elements X);
     list_of_set_perm := fun X => reverse_Permutation (elements X) |}.

(** ** [datetime.strptime] and [datetime.strftime]

    The part of CPython's [_strptime] and [datetime] that the scrapers
    reach.  A format is kept as the list of its directives; each directive
    is matched the way its regular expression in [_strptime.TimeRE] does,
    taking the first alternative that applies.  For the feed format every
    numeric field is followed by a separator that is no digit, so this
    first-match reading and the backtracking one accept the same strings
    with the same groups.  Names are those of the C locale. *)

Module PyDatetime.
Import PyStr.

Local Open Scope Z_scope.

Definition isdigit (c : ascii) : bool :=
  (48 <=? nat_of_ascii c)%nat && (nat_of_ascii c <=? 57)%nat.

Definition digit_value (c : ascii) : Z := Z.of_nat (nat_of_ascii c) - 48.

(** [lo <= c <= hi] on characters, for classes such as [[0-5]]. *)
Definition between (lo hi c : ascii) : bool :=
  (nat_of_ascii lo <=? nat_of_ascii c)%nat &&
  (nat_of_ascii c <=? nat_of_ascii hi)%nat.

Inductive directive : Type :=
  | Dir_a               (* %a: abbreviated weekday name *)
  | Dir_d               (* %d: day of the month *)
  | Dir_b               (* %b: abbreviated month name *)
  | Dir_Y               (* %Y: year with century *)
  | Dir_H               (* %H: hour *)
  | Dir_M               (* %M: minute *)
  | Dir_S               (* %S: second *)
  | Dir_z               (* %z: UTC offset *)
  | Whitespace          (* a run of blanks in the format: \s+ *)
  | Literal (c : ascii) (* any other character *).

Definition a_weekday : list string :=
  ["mon"; "tue"; "wed"; "thu"; "fri"; "sat"; "sun"].

Definition a_month : list string :=
  [""; "jan"; "feb"; "mar"; "apr"; "may"; "jun";
   "jul"; "aug"; "sep"; "oct"; "nov"; "dec"].

(** The local variables of [_strptime]. *)
Record tm : Type := mk_tm {
  tm_year : option Z;
  tm_month : Z;
  tm_day : Z;
  tm_hour : Z;
  tm_minute : Z;
  tm_second : Z;
  tm_weekday : option Z;
  tm_gmtoff : option Z   (* microseconds east of UTC *)
}.

Definition tm_init : tm := mk_tm None 1 1 0 0 0 None None.

Fixpoint drop_chars (n : nat) (s : string) : string :=
  match n, s with
  | O, _ => s
  | S n', String _ s' => drop_chars n' s'
  | S _, EmptyString => EmptyString
  end.

(** An alternation of names under IGNORECASE: the first name, from index
    [i] on, that the input starts with once lower-cased. *)
Fixpoint match_name (names : list string) (i : Z) (s : string)
    : option (Z * string) :=
  match names with
  | [] => None
  | n :: names' =>
      if negb (String.eqb n EmptyString) && startswith n (lower s)
      then Some (i, drop_chars (String.length n) s)
      else match_name names' (i + 1) s
  end.

(** [\s+] *)
Definition match_whitespace (s : string) : option string :=
  match s with
  | String c s' => if isspace c then Some (lstrip s') else None
  | EmptyString => None
  end.

(** A literal character, compared without case. *)
Definition match_literal (c : ascii) (s : string) : option string :=
  match s with
  | String c' s' =>
      if Ascii.eqb (chr_lower c) (chr_lower c') then Some s' else None
  | EmptyString => None
  end.

(** A numeric field of one or two digits: the two-digit alternatives
    [ok2] come first in the expression, then the one-digit one [ok1]. *)
Definition match_number (ok2 : ascii → ascii → bool) (ok1 : ascii → bool)
    (s : string) : option (Z * string) :=
  match s with
  | String c1 (String c2 s') =>
      if ok2 c1 c2 then Some (10 * digit_value c1 + digit_value c2, s')
      else if ok1 c1 then Some (digit_value c1, String c2 s')
      else None
  | String c1 EmptyString =>
      if ok1 c1 then Some (digit_value c1, EmptyString) else None
  | EmptyString => None
  end.

(** %d is [3[0-1]|[1-2]\d|0[1-9]|[1-9]| [1-9]]. *)
Definition match_d (s : string) : option (Z * string) :=
  match
    match_number
      (fun c1 c2 =>
         (Ascii.eqb c1 "3" && between "0" "1" c2) ||
         (between "1" "2" c1 && isdigit c2) ||
         (Ascii.eqb c1 "0" && between "1" "9" c2))
      (between "1" "9") s
  with
  | Some r => Some r
  | None =>
      match s with
      | String " " (String c2 s') =>
          if between "1" "9" c2 then Some (digit_value c2, s') else None
      | _ => None
      end
  end.

(** %H is [2[0-3]|[0-1]\d|\d]. *)
Definition match_H : string → option (Z * string) :=
  match_number
    (fun c1 c2 =>
       (Ascii.eqb c1 "2" && between "0" "3" c2) ||
       (between "0" "1" c1 && isdigit c2))
    isdigit.

(** %M is [[0-5]\d|\d]. *)
Definition match_M : string → option (Z * string) :=
  match_number (fun c1 c2 => between "0" "5" c1 && isdigit c2) isdigit.

(** %S is [6[0-1]|[0-5]\d|\d]. *)
Definition match_S : string → option (Z * string) :=
  match_number
    (fun c1 c2 =>
       (Ascii.eqb c1 "6" && between "0" "1" c2) ||
       (between "0" "5" c1 && isdigit c2))
    isdigit.

(** %Y is [\d\d\d\d]. *)
Definition match_Y (s : string) : option (Z * string) :=
  match s with
  | String c1 (String c2 (String c3 (String c4 s'))) =>
      if isdigit c1 && isdigit c2 && isdigit c3 && isdigit c4
      then Some (1000 * digit_value c1 + 100 * digit_value c2 +
                 10 * digit_value c3 + digit_value c4, s')
      else None
  | _ => None
  end.

(** Up to [n] digits, read as a fraction of a second padded to
    microseconds: the pair is the value so far and the digits still
    allowed. *)
Fixpoint match_fraction (n : nat) (acc : Z) (s : string) : Z * string :=
  match n, s with
  | S n', String c s' =>
      if isdigit c
      then match_fraction n' (acc + digit_value c * 10 ^ Z.of_nat n') s'
      else (acc, s)
  | _, _ => (acc, s)
  end.

(** What the group [z] captured: the sign, the hours, whether a colon
    followed them, the minutes, and the optional seconds with whether a
    colon preceded them and their fraction in microseconds. *)
Record z_group : Type := mk_z {
  z_negative : bool;
  z_hours : Z;
  z_colon1 : bool;
  z_minutes : Z;
  z_seconds : option (bool * Z * Z)
}.

Definition two_digits (ok1 : ascii → bool) (s : string)
    : option (Z * string) :=
  match s with
  | String c1 (String c2 s') =>
      if ok1 c1 && isdigit c2
      then Some (10 * digit_value c1 + digit_value c2, s')
      else None
  | _ => None
  end.

Definition skip_colon (s : string) : bool * string :=
  match s with
  | String ":" s' => (true, s')
  | _ => (false, s)
  end.

(** The optional tail [(:?[0-5]\d(\.\d{1,6})?)?] of the offset. *)
Definition match_z_seconds (s : string)
    : option (bool * Z * Z) * string :=
  let '(colon2, s1) := skip_colon s in
  match two_digits (between "0" "5") s1 with
  | Some (ss, s2) =>
      match s2 with
      | String "." (String c s3) =>
          if isdigit c
          then let '(frac, s4) := match_fraction 6 0 (String c s3) in
               (Some (colon2, ss, frac), s4)
          else (Some (colon2, ss, 0), s2)
      | _ => (Some (colon2, ss, 0), s2)
      end
  | None => (None, s)
  end.

(** %z is [[+-]\d\d:?[0-5]\d(:?[0-5]\d(\.\d{1,6})?)?|(?-i:Z)];
    [None] in the result stands for the alternative [Z]. *)
Definition match_z (s : string) : option (option z_group * string) :=
  match s with
  | String "Z" s' => Some (None, s')
  | String sign s0 =>
      if Ascii.eqb sign "+" || Ascii.eqb sign "-" then
        match two_digits isdigit s0 with
        | Some (hh, s1) =>
            let '(colon1, s2) := skip_colon s1 in
            match two_digits (between "0" "5") s2 with
            | Some (mm, s3) =>
                let '(secs, s4) := match_z_seconds s3 in
                Some (Some (mk_z (Ascii.eqb sign "-") hh colon1 mm secs), s4)
            | None => None
            end
        | None => None
        end
      else None
  | EmptyString => None
  end.

(** The conversion of the group [z] to an offset.  A colon after the
    hours must come with a colon before the seconds and the other way
    round: [_strptime] raises [ValueError] itself in the first case and
    [int] does in the second. *)
Definition gmtoff_of (z : option z_group) : result Z :=
  match z with
  | None => Ok 0
  | Some g =>
      let sign := if z_negative g then -1 else 1 in
      match z_seconds g with
      | None =>
          Ok (sign * ((z_hours g * 3600 + z_minutes g * 60) * 1000000))
      | Some (colon2, ss, frac) =>
          if Bool.eqb (z_colon1 g) colon2
          then Ok (sign * ((z_hours g * 3600 + z_minutes g * 60 + ss)
                           * 1000000 + frac))
          else Raise ValueError
      end
  end.

Definition match_directive (d : directive) (s : string) (t : tm)
    : result (tm * string) :=
  let found {A} (o : option A) : result A :=
    match o with Some a => Ok a | None => Raise ValueError end in
  match d with
  | Dir_a =>
      '(v, s') ← found (match_name a_weekday 0 s);
      Ok (mk_tm (tm_year t) (tm_month t) (tm_day t) (tm_hour t)
            (tm_minute t) (tm_second t) (Some v) (tm_gmtoff t), s')
  | Dir_d =>
      '(v, s') ← found (match_d s);
      Ok (mk_tm (tm_year t) (tm_month t) v (tm_hour t)
            (tm_minute t) (tm_second t) (tm_weekday t) (tm_gmtoff t), s')
  | Dir_b =>
      '(v, s') ← found (match_name (tail a_month) 1 s);
      Ok (mk_tm (tm_year t) v (tm_day t) (tm_hour t)
            (tm_minute t) (tm_second t) (tm_weekday t) (tm_gmtoff t), s')
  | Dir_Y =>
      '(v, s') ← found (match_Y s);
      Ok (mk_tm (Some v) (tm_month t) (tm_day t) (tm_hour t)
            (tm_minute t) (tm_second t) (tm_weekday t) (tm_gmtoff t), s')
  | Dir_H =>
      '(v, s') ← found (match_H s);
      Ok (mk_tm (tm_year t) (tm_month t) (tm_day t) v
            (tm_minute t) (tm_second t) (tm_weekday t) (tm_gmtoff t), s')
  | Dir_M =>
      '(v, s') ← found (match_M s);
      Ok (mk_tm (tm_year t) (tm_month t) (tm_day t) (tm_hour t)
            v (tm_second t) (tm_weekday t) (tm_gmtoff t), s')
  | Dir_S =>
      '(v, s') ← found (match_S s);
      Ok (mk_tm (tm_year t) (tm_month t) (tm_day t) (tm_hour t)
            (tm_minute t) v (tm_weekday t) (tm_gmtoff t), s')
  | Dir_z =>
      '(z, s') ← found (match_z s);
      off ← gmtoff_of z;
      Ok (mk_tm (tm_year t) (tm_month t) (tm_day t) (tm_hour t)
            (tm_minute t) (tm_second t) (tm_weekday t) (Some off), s')
  | Whitespace => s' ← found (match_whitespace s); Ok (t, s')
  | Literal c => s' ← found (match_literal c s); Ok (t, s')
  end.

Fixpoint match_format (format : list directive) (s : string) (t : tm)
    : result (tm * string) :=
  match format with
  | [] => Ok (t, s)
  | d :: format' =>
      '(t', s') ← match_directive d s t;
      match_format format' s' t'
  end.

Record datetime : Type := mk_datetime {
  year : Z; month : Z; day : Z;
  hour : Z; minute : Z; second : Z;
  utcoffset : option Z   (* microseconds east of UTC; [None]: naive *)
}.

Definition is_leap (y : Z) : bool :=
  (y mod 4 =? 0) && (negb (y mod 100 =? 0) || (y mod 400 =? 0)).

Definition days_in_month (y m : Z) : Z :=
  if m =? 2 then (if is_leap y then 29 else 28)
  else if (m =? 4) || (m =? 6) || (m =? 9) || (m =? 11) then 30
  else 31.

(** [timezone(timedelta(...))]: the offset lies strictly between minus
    and plus 24 hours. *)
Definition timezone (offset : Z) : result Z :=
  if (-86400000000 <? offset) && (offset <? 86400000000)
  then Ok offset else Raise ValueError.

(** The constructor [datetime(year, month, day, hour, minute, second,
    tzinfo)] with its range checks. *)
Definition new_datetime (y mo d h mi s : Z) (tz : option Z)
    : result datetime :=
  if (1 <=? y) && (y <=? 9999) && (1 <=? mo) && (mo <=? 12) &&
     (1 <=? d) && (d <=? days_in_month y mo) &&
     (0 <=? h) && (h <=? 23) && (0 <=? mi) && (mi <=? 59) &&
     (0 <=? s) && (s <=? 59)
  then Ok (mk_datetime y mo d h mi s tz)
  else Raise ValueError.

(** [datetime.strptime(data_string, format)]: the whole string has to be
    consumed, the offset has to make a [timezone] and the fields a
    [datetime]; every failure is a [ValueError]. *)
Definition strptime (data_string : string) (format : list directive)
    : result datetime :=
  '(t, rest) ← match_format format data_string tm_init;
  match rest with
  | EmptyString =>
      tz ← match tm_gmtoff t with
           | Some off => off' ← timezone off; Ok (Some off')
           | None => Ok None
           end;
      new_datetime (default 1900 (tm_year t)) (tm_month t) (tm_day t)
        (tm_hour t) (tm_minute t) (tm_second t) tz
  | String _ _ => Raise ValueError
  end.

(** ** Formatting *)

Definition digit_char (k : Z) : ascii := ascii_of_nat (48 + Z.to_nat k).

(** [%02d] of a value in 0..99 *)
Definition fmt_02d (n : Z) : string :=
  String (digit_char (n / 10)) (String (digit_char (n mod 10)) EmptyString).

(** [%04d] of a value in 0..9999 *)
Definition fmt_04d (n : Z) : string :=
  String (digit_char (n / 1000))
    (String (digit_char (n / 100 mod 10))
       (String (digit_char (n / 10 mod 10))
          (String (digit_char (n mod 10)) EmptyString))).

Inductive fdirective : Type :=
  | Fmt_Y | Fmt_m | Fmt_d | Fmt_H | Fmt_M | Fmt_S
  | Fmt_lit (c : ascii).

(** [dt.strftime(format)]; the year is written with four digits, as the
    library documents [%Y]. *)
Fixpoint strftime (dt : datetime) (format : list fdirective) : string :=
  match format with
  | [] => EmptyString
  | f :: format' =>
      (match f with
       | Fmt_Y => fmt_04d (year dt)
       | Fmt_m => fmt_02d (month dt)
       | Fmt_d => fmt_02d (day dt)
       | Fmt_H => fmt_02d (hour dt)
       | Fmt_M => fmt_02d (minute dt)
       | Fmt_S => fmt_02d (second dt)
       | Fmt_lit c => String c EmptyString
       end) +:+ strftime dt format'
  end.

(** ['%a, %d %b %Y %H:%M:%S %z'] *)
Definition RSS_FORMAT : list directive :=
  [Dir_a; Literal ","; Whitespace; Dir_d; Whitespace; Dir_b; Whitespace;
   Dir_Y; Whitespace; Dir_H; Literal ":"; Dir_M; Literal ":"; Dir_S;
   Whitespace; Dir_z].

(** ['%Y-%m-%d %H:%M:%S'] *)
Definition ISO_FORMAT : list fdirective :=
  [Fmt_Y; Fmt_lit "-"; Fmt_m; Fmt_lit "-"; Fmt_d; Fmt_lit " ";
   Fmt_H; Fmt_lit ":"; Fmt_M; Fmt_lit ":"; Fmt_S].

End PyDatetime.

(** ** The collaborators *)

(** spaCy: a document carries its entities, each with a text and a label. *)
Module Spacy.
Record Span : Type := mk_span { text : string; label_ : string }.
Record Doc : Type := mk_doc { ents : list Span }.
Definition Language : Type := string → Doc.
End Spacy.

(** BeautifulSoup: an [<item>] is seen through [find], which yields the
    first descendant with the given name, or [None]. *)
Module Bs4.
Record Tag : Type := mk_tag { name : string; text : string }.
Definition Item : Type := list Tag.

Fixpoint find (n : string) (entry : Item) : option Tag :=
  match entry with
  | [] => None
  | t :: entry' => if String.eqb (name t) n then Some t else find n entry'
  end.

(** [tag.text] where [tag] may be [None]: the attribute access on
    [None] raises [AttributeError]. *)
Definition text_of (tag : option Tag) : result string :=
  match tag with
  | Some t => Ok (text t)
  | None => Raise AttributeError
  end.
End Bs4.

(** requests: a response with its status and, of its body, the items that
    [BeautifulSoup(body, 'xml').find_all('item')] yields. *)
Module Requests.
Record Response : Type := mk_response {
  status_ok : bool;
  items : list Bs4.Item
}.

(** [response.raise_for_status()] *)
Definition raise_for_status (r : Response) : result unit :=
  if status_ok r then Ok tt else Raise RequestException.
End Requests.

(** pandas: a column either holds text, with missing cells, or has a
    dtype on which the [.str] accessor raises [AttributeError]. *)
Module Pandas.
Inductive Series : Type :=
  | TextSeries (values : list (option string))
  | OtherSeries.

Definition DataFrame : Type := gmap string Series.

Definition notna (v : option string) : bool :=
  match v with
  | Some _ => true
  | None => false
  end.

(** [series.dropna()] *)
Definition dropna (s : Series) : Series :=
  match s with
  | TextSeries values => TextSeries (List.filter notna values)
  | OtherSeries => OtherSeries
  end.

(** [series.str.f()] for a string method [f] *)
Definition str_map (f : string → string) (s : Series) : result Series :=
  match s with
  | TextSeries values => Ok (TextSeries (map (option_map f) values))
  | OtherSeries => Raise AttributeError
  end.

(** The values a set takes from a series of text without missing
    cells. *)
Definition to_list (s : Series) : list string :=
  match s with
  | TextSeries values => omap id values
  | OtherSeries => []
  end.

(** What a path holds. *)
Inductive File : Type :=
  | NoFile
  | Unreadable
  | EmptyFile
  | Csv (df : DataFrame).

(** [pd.read_csv(path)] on such a path *)
Definition read_csv (f : File) : result DataFrame :=
  match f with
  | NoFile => Raise FileNotFoundError
  | Unreadable => Raise OSError
  | EmptyFile => Raise EmptyDataError
  | Csv df => Ok df
  end.

(** [os.path.exists(path)] *)
Definition exists_ (f : File) : bool :=
  match f with
  | NoFile => false
  | _ => true
  end.
End Pandas.

(** The world a scraper runs in: the files, the network and the language
    models that can be loaded. *)
Class World := {
  file_at : string → Pandas.File;
  requests_get : string → result Requests.Response;
  spacy_load : string → Spacy.Language
}.

(** The clock: what [datetime.now()] returns when a run asks. *)
Class Clock := { now : PyDatetime.datetime }.

(** [for x in l: s = body(s, x)], where the body may raise *)
Fixpoint for_in {A S : Type} (l : list A) (body : S → A → result S) (s : S)
    : result S :=
  match l with
  | [] => Ok s
  | x :: l' => s' ← body s x; for_in l' body s'
  end.

(** The named entities of [text] labelled GPE, lower-cased, as a set *)
Definition ner_locations (nlp : Spacy.Language) (text : string)
    : gset string :=
  list_to_set
    (map (fun ent => PyStr.lower (Spacy.text ent))
       (List.filter (fun ent => String.eqb (Spacy.label_ ent) "GPE")
          (Spacy.ents (nlp text)))).

(** The body of [_parse_date], the same in the four variants up to the
    logging: [Raise] stands for the [except] branch being taken. *)
Definition parse_rss_date (date_str : string) : result string :=
  dt ← PyDatetime.strptime (PyStr.strip date_str) PyDatetime.RSS_FORMAT;
  Ok (PyDatetime.strftime dt PyDatetime.ISO_FORMAT).

(** ** check.py *)

Module check.
Section Scraper.
Context `{O : PySetOrder} `{W : World}.

Definition DISASTER_KEYWORDS : list string :=
  ["earthquake"; "tsunami"; "hurricane"; "tornado";
   "flood"; "cyclone"; "landslide"; "volcanic eruption";
   "wildfire"; "storm"; "avalanche"; "drought";
   "natural disaster"; "emergency"; "rescue"; "evacuation"].

Record DisasterRSSNewsScraper : Type := mk_scraper {
  feeds : list string;
  nlp : Spacy.Language;
  cities : gset string
}.

Record Article : Type := mk_article {
  title : string;
  date : string;
  description : string;
  link : string;
  locations : list string;
  source : string;
  disaster_keywords : list string
}.

Definition load_column (cities_df : Pandas.DataFrame)
    (cities : gset string) (column : string) : result (gset string) :=
  match cities_df !! column with
  | Some series =>
      lowered ← Pandas.str_map PyStr.lower (Pandas.dropna series);
      Ok (cities ∪ list_to_set (Pandas.to_list lowered))
  | None => Ok cities
  end.

(** Both [except] clauses return a fresh empty set. *)
Definition _load_cities (cities_file : string) : gset string :=
  match
    cities_df ← Pandas.read_csv (file_at cities_file);
    for_in ["name"; "country"; "subcountry"] (load_column cities_df) ∅
  with
  | Ok cities => cities
  | Raise FileNotFoundError => ∅
  | Raise _ => ∅
  end.

Definition __init__ (feeds : list string) (cities_file : string)
    : DisasterRSSNewsScraper :=
  mk_scraper feeds (spacy_load "en_core_web_sm") (_load_cities cities_file).

Definition _is_disaster_related (text : string) : bool :=
  existsb (fun keyword => PyStr.contains keyword (PyStr.lower text))
    DISASTER_KEYWORDS.

Definition _parse_date (date_str : string) : string :=
  match parse_rss_date date_str with
  | Ok s => s
  | Raise _ => date_str
  end.

Definition _extract_locations (self : DisasterRSSNewsScraper)
    (text : string) : list string :=
  let ner_locations := ner_locations (nlp self) text in
  let matched_locations := cities self ∩ ner_locations in
  if decide (matched_locations = ∅) then ["Unknown"]
  else list_of_set matched_locations.

(** [entry.find(n).text.strip() if entry.find(n) else ''] *)
Definition field_or_empty (entry : Bs4.Item) (n : string) : string :=
  match Bs4.find n entry with
  | Some tag => PyStr.strip (Bs4.text tag)
  | None => EmptyString
  end.

(** The list comprehension under the key ['disaster_keywords']. *)
Definition matched_keywords (combined_text : string) : list string :=
  List.filter
    (fun keyword => PyStr.contains keyword (PyStr.lower combined_text))
    DISASTER_KEYWORDS.

(** One turn of the loop over the items. *)
Definition fetch_entry (self : DisasterRSSNewsScraper) (url : string)
    (disaster_items : list Article) (entry : Bs4.Item) : list Article :=
  let title := field_or_empty entry "title" in
  let description := field_or_empty entry "description" in
  let pub_date := field_or_empty entry "pubDate" in
  let link := field_or_empty entry "link" in
  let combined_text := title +:+ " " +:+ description in
  if _is_disaster_related combined_text then
    (disaster_items ++
       [mk_article title (_parse_date pub_date) description link
          (_extract_locations self combined_text) url
          (matched_keywords combined_text)])%list
  else disaster_items.

(** Nothing in the loop raises; a failed request leaves the list
    empty. *)
Definition _fetch_feed (self : DisasterRSSNewsScraper) (url : string)
    : list Article :=
  match
    response ← requests_get url;
    _ ← Requests.raise_for_status response;
    Ok (fold_left (fetch_entry self url) (Requests.items response) [])
  with
  | Ok disaster_items => disaster_items
  | Raise _ => []
  end.

End Scraper.

Section Scrape.
Context `{O : PySetOrder} `{W : World} `{C : Clock}.

(** The dictionary [scrape_disasters] returns: its ['metadata'] and its
    ['disaster_articles']. *)
Record Metadata : Type := mk_metadata {
  timestamp : string;
  metadata_feeds : list string;
  total_locations : nat;
  total_disaster_articles : nat
}.

Record Output : Type := mk_output {
  metadata : Metadata;
  disaster_articles : list Article
}.

Definition scrape_disasters (self : DisasterRSSNewsScraper) : Output :=
  let timestamp := PyDatetime.strftime now PyDatetime.ISO_FORMAT in
  let disaster_articles :=
    fold_left (fun articles feed => (articles ++ _fetch_feed self feed)%list)
      (feeds self) [] in
  mk_output
    (mk_metadata timestamp (feeds self) (size (cities self))
       (length disaster_articles))
    disaster_articles.

End Scrape.
End check.

(** ** jsonCURR.py *)

Module jsonCURR.
Section Scraper.
Context `{O : PySetOrder} `{W : World}.

Definition DISASTER_KEYWORDS : list string :=
  ["earthquake"; "seismic"; "tremor";
   "tsunami"; "tidal wave";
   "hurricane"; "cyclone"; "typhoon"; "tropical storm";
   "tornado"; "twister";
   "flood"; "flooding"; "river overflow";
   "landslide"; "mudslide"; "debris flow";
   "volcanic eruption"; "lava flow"; "ash cloud";
   "wildfire"; "bushfire"; "forest fire";
   "avalanche"; "snow slide";
   "drought"; "water scarcity";
   "heatwave"; "extreme heat";
   "blizzard"; "snowstorm"; "ice storm";
   "emergency"; "state of emergency";
   "rescue"; "evacuation"; "displacement";
   "relief efforts"; "humanitarian aid";
   "damage assessment";
   "warning"; "alert"; "advisory";
   "widespread damage"; "destruction"; "casualties";
   "missing persons"; "search and rescue"].

Record DisasterRSSNewsScraper : Type := mk_scraper {
  feeds : list string;
  nlp : Spacy.Language;
  cities : gset string
}.

Record Article : Type := mk_article {
  title : string;
  date : string;
  description : string;
  link : string;
  locations : list string;
  source : string;
  disaster_keywords : list string
}.

(** [cities.update(df[column].dropna().str.strip().str.lower())] under
    [if column in df.columns] *)
Definition load_column (cities_df : Pandas.DataFrame)
    (cities : gset string) (column : string) : result (gset string) :=
  match cities_df !! column with
  | Some series =>
      stripped ← Pandas.str_map PyStr.strip (Pandas.dropna series);
      lowered ← Pandas.str_map PyStr.lower stripped;
      Ok (cities ∪ list_to_set (Pandas.to_list lowered))
  | None => Ok cities
  end.

(** No [try] here: what [read_csv] or [.str] raise reaches the caller. *)
Definition _load_cities (cities_file : string) : result (gset string) :=
  cities_df ← Pandas.read_csv (file_at cities_file);
  cities ← load_column cities_df ∅ "City";
  cities ← load_column cities_df cities "State";
  Ok cities.

Definition __init__ (feeds : list string) (cities_file : string)
    : result DisasterRSSNewsScraper :=
  cities ← _load_cities cities_file;
  Ok (mk_scraper feeds (spacy_load "en_core_web_sm") cities).

Definition _is_disaster_related (text : string) : bool :=
  let text_lower := PyStr.lower text in
  existsb (fun keyword => PyStr.contains keyword text_lower)
    DISASTER_KEYWORDS.

Definition _parse_date (date_str : string) : string :=
  match parse_rss_date date_str with
  | Ok s => s
  | Raise _ => date_str
  end.

Definition _extract_locations (self : DisasterRSSNewsScraper)
    (text : string) : list string :=
  let ner_locations := ner_locations (nlp self) text in
  let matched_cities := cities self ∩ ner_locations in
  let matched_states : gset string :=
    filter (fun state => state ∈ cities self) ner_locations in
  let matched_countries : gset string :=
    filter (fun country => country ∈ cities self) ner_locations in
  let all_matches :=
    list_of_set (matched_cities ∪ matched_states ∪ matched_countries) in
  match all_matches with
  | _ :: _ => all_matches
  | [] => ["Unknown"]
  end.

(** [entry.find(n).text.strip()] *)
Definition stripped_text (entry : Bs4.Item) (n : string) : result string :=
  t ← Bs4.text_of (Bs4.find n entry);
  Ok (PyStr.strip t).

Definition matched_keywords (combined_text : string) : list string :=
  List.filter
    (fun keyword => PyStr.contains keyword (PyStr.lower combined_text))
    DISASTER_KEYWORDS.

(** The body of the inner [try]: the article to append, if any. *)
Definition parse_entry (self : DisasterRSSNewsScraper) (url : string)
    (entry : Bs4.Item) : result (option Article) :=
  title ← stripped_text entry "title";
  description ← stripped_text entry "description";
  let combined_text := title +:+ " " +:+ description in
  if _is_disaster_related combined_text then
    pub_date ← Bs4.text_of (Bs4.find "pubDate" entry);
    link ← stripped_text entry "link";
    Ok (Some (mk_article title (_parse_date pub_date) description link
                (_extract_locations self combined_text) url
                (matched_keywords combined_text)))
  else Ok None.

(** One turn of the loop: [except AttributeError: continue]. *)
Definition fetch_entry (self : DisasterRSSNewsScraper) (url : string)
    (disaster_items : list Article) (entry : Bs4.Item)
    : result (list Article) :=
  match parse_entry self url entry with
  | Ok (Some item) => Ok (disaster_items ++ [item])%list
  | Ok None => Ok disaster_items
  | Raise AttributeError => Ok disaster_items
  | Raise e => Raise e
  end.

(** [except RequestException: pass]; the status is not looked at. *)
Definition _fetch_feed (self : DisasterRSSNewsScraper) (url : string)
    : result (list Article) :=
  match
    response ← requests_get url;
    for_in (Requests.items response) (fetch_entry self url) []
  with
  | Ok disaster_items => Ok disaster_items
  | Raise RequestException => Ok []
  | Raise e => Raise e
  end.

End Scraper.

Section Scrape.
Context `{O : PySetOrder} `{W : World} `{C : Clock}.

Record Metadata : Type := mk_metadata {
  timestamp : string;
  metadata_feeds : list string;
  total_locations : nat;
  total_disaster_articles : nat
}.

Record Output : Type := mk_output {
  metadata : Metadata;
  disaster_articles : list Article
}.

(** What [_fetch_feed] lets through reaches the caller. *)
Definition scrape_disasters (self : DisasterRSSNewsScraper)
    : result Output :=
  let timestamp := PyDatetime.strftime now PyDatetime.ISO_FORMAT in
  disaster_articles ←
    for_in (feeds self)
      (fun articles feed =>
         items ← _fetch_feed self feed; Ok (articles ++ items)%list) [];
  Ok (mk_output
        (mk_metadata timestamp (feeds self) (size (cities self))
           (length disaster_articles))
        disaster_articles).

End Scrape.
End jsonCURR.

(** ** Logging

    A record keeps its level and its text up to the rendering of numbers
    and exception messages, which are left out. *)

Inductive Level : Type := INFO | WARNING | ERROR.

Record LogRecord : Type := Log { level : Level; message : string }.

(** ** app.py *)

Module app.
Section Scraper.
Context `{O : PySetOrder} `{W : World}.

Record RSSNewsScraper : Type := mk_scraper {
  feeds : list string;
  nlp : Spacy.Language;
  cities : gset string
}.

Record Article : Type := mk_article {
  Title : string;
  Date : string;
  Description : string;
  Link : string;
  Location : string;
  Source : string
}.

Definition load_column (cities_df : Pandas.DataFrame)
    (cities : gset string) (column : string) : result (gset string) :=
  match cities_df !! column with
  | Some series =>
      lowered ← Pandas.str_map PyStr.lower (Pandas.dropna series);
      Ok (cities ∪ list_to_set (Pandas.to_list lowered))
  | None => Ok cities
  end.

Definition _load_cities (cities_file : string)
    : gset string * list LogRecord :=
  match
    cities_df ← Pandas.read_csv (file_at cities_file);
    cities ← load_column cities_df ∅ "name";
    cities ← load_column cities_df cities "subcountry";
    Ok cities
  with
  | Ok cities =>
      (cities, [Log INFO ("Loaded unique locations from " +:+ cities_file)])
  | Raise _ => (∅, [Log ERROR "Error loading cities file"])
  end.

Definition __init__ (feeds : list string) (cities_file : string)
    : RSSNewsScraper * list LogRecord :=
  let '(cities, log) := _load_cities cities_file in
  (mk_scraper feeds (spacy_load "en_core_web_sm") cities, log).

Definition _parse_date (date_str : string) : string * list LogRecord :=
  match parse_rss_date date_str with
  | Ok s => (s, [])
  | Raise _ => (date_str, [Log WARNING ("Error parsing date " +:+ date_str)])
  end.

Definition _extract_locations (self : RSSNewsScraper) (text : string)
    : string :=
  let ner_locations := ner_locations (nlp self) text in
  let matched_locations := cities self ∩ ner_locations in
  if decide (matched_locations = ∅) then "Unknown"
  else PyStr.join ", " (list_of_set matched_locations).

Definition stripped_text (entry : Bs4.Item) (n : string) : result string :=
  t ← Bs4.text_of (Bs4.find n entry);
  Ok (PyStr.strip t).

(** The body of the inner [try], up to the call of [append]. *)
Definition parse_entry (self : RSSNewsScraper) (url : string)
    (entry : Bs4.Item) : result (Article * list LogRecord) :=
  title ← stripped_text entry "title";
  description ← stripped_text entry "description";
  link ← stripped_text entry "link";
  pub_date ← Bs4.text_of (Bs4.find "pubDate" entry);
  let '(date, log) := _parse_date pub_date in
  let combined_text := title +:+ " " +:+ description in
  let location := _extract_locations self combined_text in
  Ok (mk_article title date description link location url, log).

(** One turn of the loop, on the items and the log so far:
    [except AttributeError] logs a warning and goes on. *)
Definition fetch_entry (self : RSSNewsScraper) (url : string)
    (state : list Article * list LogRecord) (entry : Bs4.Item)
    : result (list Article * list LogRecord) :=
  let '(items, log) := state in
  match parse_entry self url entry with
  | Ok (item, log') => Ok ((items ++ [item])%list, (log ++ log')%list)
  | Raise AttributeError =>
      Ok (items,
          (log ++ [Log WARNING ("Error parsing entry in " +:+ url)])%list)
  | Raise e => Raise e
  end.

Definition _fetch_feed (self : RSSNewsScraper) (url : string)
    : result (list Article) * list LogRecord :=
  match
    response ← requests_get url;
    _ ← Requests.raise_for_status response;
    for_in (Requests.items response) (fetch_entry self url) ([], [])
  with
  | Ok (items, log) => (Ok items, log)
  | Raise RequestException =>
      (Ok [], [Log ERROR ("Error fetching feed " +:+ url)])
  | Raise e => (Raise e, [])
  end.

(** The loop of [scrape], on the items and the log so far; the data
    frame it returns is seen as the list of its rows. *)
Fixpoint scrape_loop (self : RSSNewsScraper) (feeds : list string)
    (all_items : list Article) (log : list LogRecord)
    : result (list Article) * list LogRecord :=
  match feeds with
  | [] => (Ok all_items, log)
  | feed :: feeds' =>
      let log := (log ++ [Log INFO ("Scraping feed: " +:+ feed)])%list in
      let '(r, log') := _fetch_feed self feed in
      match r with
      | Ok items =>
          scrape_loop self feeds' (all_items ++ items)%list
            (log ++ log')%list
      | Raise e => (Raise e, (log ++ log')%list)
      end
  end.

Definition scrape (self : RSSNewsScraper)
    : result (list Article) * list LogRecord :=
  scrape_loop self (feeds self) [] [].

End Scraper.
End app.

(** ** jsonDEPRE.py *)

Module jsonDEPRE.
Section Scraper.
Context `{O : PySetOrder} `{W : World}.

Record RSSNewsScraper : Type := mk_scraper {
  feeds : list string;
  nlp : Spacy.Language;
  cities : gset string
}.

Record Article : Type := mk_article {
  title : string;
  date : string;
  description : string;
  link : string;
  locations : list string;
  source : string
}.

Definition required_columns : list string :=
  ["name"; "country"; "subcountry"].

Definition load_column (cities_df : Pandas.DataFrame)
    (cities : gset string) (col : string) : result (gset string) :=
  match cities_df !! col with
  | Some series =>
      lowered ← Pandas.str_map PyStr.lower (Pandas.dropna series);
      Ok (cities ∪ list_to_set (Pandas.to_list lowered))
  | None => Ok cities
  end.

Definition _load_cities (cities_file : string)
    : gset string * list LogRecord :=
  match Pandas.read_csv (file_at cities_file) with
  | Ok cities_df =>
      let missing_columns :=
        List.filter (fun col => bool_decide (cities_df !! col = None))
          required_columns in
      let warned :=
        match missing_columns with
        | _ :: _ => [Log WARNING "Missing columns in cities file"]
        | [] => []
        end in
      match for_in required_columns (load_column cities_df) ∅ with
      | Ok cities =>
          (cities,
           (warned ++
            [Log INFO ("Loaded unique locations from " +:+ cities_file)])
           %list)
      | Raise _ => (∅, (warned ++ [Log ERROR "Error loading cities file"])%list)
      end
  | Raise EmptyDataError => (∅, [Log ERROR "Cities file is empty"])
  | Raise _ => (∅, [Log ERROR "Error loading cities file"])
  end.

(** The constructor refuses a path that does not exist. *)
Definition __init__ (feeds : list string) (cities_file : string)
    : result (RSSNewsScraper * list LogRecord) :=
  if negb (Pandas.exists_ (file_at cities_file))
  then Raise FileNotFoundError
  else
    let '(cities, log) := _load_cities cities_file in
    Ok (mk_scraper feeds (spacy_load "en_core_web_sm") cities, log).

Definition _parse_date (date_str : string) : string * list LogRecord :=
  match parse_rss_date date_str with
  | Ok s => (s, [])
  | Raise _ => (date_str, [Log WARNING ("Error parsing date " +:+ date_str)])
  end.

Definition _extract_locations (self : RSSNewsScraper) (text : string)
    : list string :=
  let ner_locations := ner_locations (nlp self) text in
  let matched_locations := cities self ∩ ner_locations in
  if decide (matched_locations = ∅) then ["Unknown"]
  else list_of_set matched_locations.

Definition stripped_text (entry : Bs4.Item) (n : string) : result string :=
  t ← Bs4.text_of (Bs4.find n entry);
  Ok (PyStr.strip t).

Definition parse_entry (self : RSSNewsScraper) (url : string)
    (entry : Bs4.Item) : result (Article * list LogRecord) :=
  title ← stripped_text entry "title";
  description ← stripped_text entry "description";
  link ← stripped_text entry "link";
  pub_date ← Bs4.text_of (Bs4.find "pubDate" entry);
  let '(date, log) := _parse_date pub_date in
  let combined_text := title +:+ " " +:+ description in
  let locations := _extract_locations self combined_text in
  Ok (mk_article title date description link locations url, log).

Definition fetch_entry (self : RSSNewsScraper) (url : string)
    (state : list Article * list LogRecord) (entry : Bs4.Item)
    : result (list Article * list LogRecord) :=
  let '(items, log) := state in
  match parse_entry self url entry with
  | Ok (item, log') => Ok ((items ++ [item])%list, (log ++ log')%list)
  | Raise AttributeError =>
      Ok (items,
          (log ++ [Log WARNING ("Error parsing entry in " +:+ url)])%list)
  | Raise e => Raise e
  end.

Definition _fetch_feed (self : RSSNewsScraper) (url : string)
    : result (list Article) * list LogRecord :=
  match
    response ← requests_get url;
    _ ← Requests.raise_for_status response;
    for_in (Requests.items response) (fetch_entry self url) ([], [])
  with
  | Ok (items, log) => (Ok items, log)
  | Raise RequestException =>
      (Ok [], [Log ERROR ("Error fetching feed " +:+ url)])
  | Raise e => (Raise e, [])
  end.

(** The class defines no method [scrape]: looking it up on a scraper
    raises [AttributeError]. *)
Definition scrape (self : RSSNewsScraper) : result (list Article) :=
  Raise AttributeError.

(** [main]: the file written, if any, with its content, and the log.
    The whole body is under [except Exception]. *)
Definition main : option (string * list Article) * list LogRecord :=
  let feeds :=
    ["https://www.thehindu.com/news/national/feeder/default.rss";
     "https://ddnews.gov.in/en/tag/rss/"] in
  let cities_file := "world-cities.csv" in
  let output_file := "scraped_rss_feed.json" in
  match __init__ feeds cities_file with
  | Ok (scraper, log) =>
      match scrape scraper with
      | Ok data =>
          (Some (output_file, data),
           (log ++ [Log INFO ("Successfully saved entries to "
                              +:+ output_file)])%list)
      | Raise _ => (None, (log ++ [Log ERROR "Scraping failed"])%list)
      end
  | Raise _ => (None, [Log ERROR "Scraping failed"])
  end.

End Scraper.
End jsonDEPRE.

(** * The vocabulary of the properties *)

(** *** Occurrences *)

(** [k] occurs in [s] as a contiguous substring. *)
Definition occurs_in (k s : string) : Prop :=
  ∃ pre post, s = pre +:+ k +:+ post.

(** [k] occurs in [text] up to the case of the letters: some substring of
    [text] lower-cases to the same string as [k]. *)
Definition occurs_ignoring_case (k text : string) : Prop :=
  ∃ pre mid post,
    text = pre +:+ mid +:+ post ∧ PyStr.lower mid = PyStr.lower k.

(** *** Tables and worlds *)

(** The values of a column that are not missing; none when the column is
    absent or holds no text. *)
Definition values_of (df : Pandas.DataFrame) (col : string) : list string :=
  match df !! col with
  | Some (Pandas.TextSeries values) => omap id values
  | _ => []
  end.

(** Every column of [cols] that the table has holds text. *)
Definition text_columns (df : Pandas.DataFrame) (cols : list string) : Prop :=
  ∀ col, col ∈ cols → df !! col ≠ Some Pandas.OtherSeries.

(** The members of a gazetteer: the values of the columns [cols] of [df],
    each normalised by [norm]. *)
Definition gazetteer_of (norm : string → string) (df : Pandas.DataFrame)
    (cols : list string) (G : gset string) : Prop :=
  ∀ x, x ∈ G ↔ ∃ col v, col ∈ cols ∧ v ∈ values_of df col ∧ x = norm v.

(** A world with one file, one response and one language model. *)
Definition world_with (f : Pandas.File) (r : result Requests.Response)
    (nlp : Spacy.Language) : World :=
  {| file_at := fun _ => f; requests_get := fun _ => r;
     spacy_load := fun _ => nlp |}.

Definition no_entities : Spacy.Language := fun _ => Spacy.mk_doc [].

(** A string that [lstrip] leaves alone. *)
Definition starts_clean (s : string) : Prop :=
  match s with
  | EmptyString => True
  | String c _ => PyStr.isspace c = false
  end.

(** A table whose cells carry surrounding blanks and capitals, with a
    missing cell and a numeric column beside the recognised ones. *)
Definition sample_table : Pandas.DataFrame :=
  <["City" := Pandas.TextSeries [Some " Mumbai "; None; Some "Pune"]]>
  (<["State" := Pandas.TextSeries [Some "Odisha "; Some "odisha"]]>
  (<["name" := Pandas.TextSeries [Some " Paris "; Some "Lyon"]]>
  (<["country" := Pandas.TextSeries [Some "France"; Some "France"]]>
  (<["subcountry" := Pandas.TextSeries [None; Some "Rhone"]]>
  (<["geonameid" := Pandas.OtherSeries]> ∅))))).

Definition sample_world : World :=
  world_with (Pandas.Csv sample_table) (Raise RequestException) no_entities.

(** The file is missing, cannot be read, or is empty. *)
Definition unusable (f : Pandas.File) : Prop :=
  f = Pandas.NoFile ∨ f = Pandas.Unreadable ∨ f = Pandas.EmptyFile.

(** *** Dates *)

(** The feed format written out, following the words of the
    specification: [<weekday>, <day> <month> <year> <HH:MM:SS> <offset>],
    with English abbreviations, two-digit fields, a four-digit year and an
    offset of a sign, two digits of hours and two of minutes. *)
Definition weekday_abbr : list string :=
  ["Mon"; "Tue"; "Wed"; "Thu"; "Fri"; "Sat"; "Sun"].

Definition month_abbr : list string :=
  ["Jan"; "Feb"; "Mar"; "Apr"; "May"; "Jun";
   "Jul"; "Aug"; "Sep"; "Oct"; "Nov"; "Dec"].

Definition rfc822_date (wd : nat) (d mo y h mi s : Z)
    (west : bool) (oh om : Z) : string :=
  nth wd weekday_abbr "" +:+ ", " +:+
  PyDatetime.fmt_02d d +:+ " " +:+
  nth (Z.to_nat (mo - 1)) month_abbr "" +:+ " " +:+
  PyDatetime.fmt_04d y +:+ " " +:+
  PyDatetime.fmt_02d h +:+ ":" +:+
  PyDatetime.fmt_02d mi +:+ ":" +:+
  PyDatetime.fmt_02d s +:+ " " +:+
  (if west then "-" else "+") +:+
  PyDatetime.fmt_02d oh +:+ PyDatetime.fmt_02d om.

(** [YYYY-MM-DD HH:MM:SS] *)
Definition iso_date (y mo d h mi s : Z) : string :=
  PyDatetime.fmt_04d y +:+ "-" +:+ PyDatetime.fmt_02d mo +:+ "-" +:+
  PyDatetime.fmt_02d d +:+ " " +:+ PyDatetime.fmt_02d h +:+ ":" +:+
  PyDatetime.fmt_02d mi +:+ ":" +:+ PyDatetime.fmt_02d s.

(** The fields denote a date and a time of day, and an offset of less
    than a day.  The year has four significant digits, as the years of
    feed dates have; for earlier years the width [strftime] gives [%Y]
    depends on the platform. *)
Definition valid_fields (wd : nat) (d mo y h mi s oh om : Z) : Prop :=
  (wd < 7)%nat ∧ (1000 ≤ y ≤ 9999)%Z ∧ (1 ≤ mo ≤ 12)%Z ∧
  (1 ≤ d ≤ PyDatetime.days_in_month y mo)%Z ∧
  (0 ≤ h ≤ 23)%Z ∧ (0 ≤ mi ≤ 59)%Z ∧ (0 ≤ s ≤ 59)%Z ∧
  (0 ≤ oh ≤ 23)%Z ∧ (0 ≤ om ≤ 59)%Z.

(** A string that [rstrip] leaves alone and that is not empty. *)
Definition ends_clean (s : string) : Prop := PyStr.rstrip s = s ∧ s ≠ "".

(** *** Items and records *)

(** The entry has a descendant of each of the given names. *)
Definition has_fields (entry : Bs4.Item) (names : list string) : Prop :=
  Forall (fun n => is_Some (Bs4.find n entry)) names.

Definition entry_fields : list string :=
  ["title"; "description"; "link"; "pubDate"].

(** The text the classifier and the entity extractor see: the trimmed
    title, a space, the trimmed description, an absent field counting as
    empty. *)
Definition combined_text (entry : Bs4.Item) : string :=
  check.field_or_empty entry "title" +:+ " " +:+
  check.field_or_empty entry "description".

(** Some keyword of the vocabulary occurs in the text up to case. *)
Definition keyword_matches (vocabulary : list string) (text : string) : Prop :=
  ∃ k, k ∈ vocabulary ∧ occurs_ignoring_case k text.

Section Records.
Context `{O : PySetOrder}.

(** What one turn of each loop adds to the output, if anything. *)
Definition check_record (self : check.DisasterRSSNewsScraper)
    (url : string) (entry : Bs4.Item) : option check.Article :=
  head (check.fetch_entry self url [] entry).

Definition jsonCURR_record (self : jsonCURR.DisasterRSSNewsScraper)
    (url : string) (entry : Bs4.Item) : option jsonCURR.Article :=
  match jsonCURR.parse_entry self url entry with
  | Ok o => o
  | Raise _ => None
  end.

Definition app_record (self : app.RSSNewsScraper) (url : string)
    (entry : Bs4.Item) : option app.Article :=
  match app.parse_entry self url entry with
  | Ok (item, _) => Some item
  | Raise _ => None
  end.

Definition jsonDEPRE_record (self : jsonDEPRE.RSSNewsScraper)
    (url : string) (entry : Bs4.Item) : option jsonDEPRE.Article :=
  match jsonDEPRE.parse_entry self url entry with
  | Ok (item, _) => Some item
  | Raise _ => None
  end.

(** What one turn of the logging loops adds to the log. *)
Definition app_entry_log (self : app.RSSNewsScraper) (url : string)
    (entry : Bs4.Item) : list LogRecord :=
  match app.parse_entry self url entry with
  | Ok (_, log) => log
  | Raise _ => [Log WARNING ("Error parsing entry in " +:+ url)]
  end.

Definition jsonDEPRE_entry_log (self : jsonDEPRE.RSSNewsScraper)
    (url : string) (entry : Bs4.Item) : list LogRecord :=
  match jsonDEPRE.parse_entry self url entry with
  | Ok (_, log) => log
  | Raise _ => [Log WARNING ("Error parsing entry in " +:+ url)]
  end.

End Records.

(** *** Sample feeds

    A complete item on a cyclone, an item without a title, an item that
    names no disaster, and a language model that finds Odisha where it is
    written. *)
Definition cyclone_entry : Bs4.Item :=
  [Bs4.mk_tag "title" "Cyclone hits Odisha";
   Bs4.mk_tag "description" "  Officials began evacuation in Odisha state ";
   Bs4.mk_tag "link" "https://example.org/cyclone";
   Bs4.mk_tag "pubDate" "Tue, 10 Oct 2023 08:00:00 +0000"].

Definition untitled_entry : Bs4.Item :=
  [Bs4.mk_tag "description" "Flood waters rise";
   Bs4.mk_tag "link" "https://example.org/flood";
   Bs4.mk_tag "pubDate" "yesterday"].

Definition bakery_entry : Bs4.Item :=
  [Bs4.mk_tag "title" "Local bakery wins award";
   Bs4.mk_tag "description" "Bread";
   Bs4.mk_tag "link" "https://example.org/bakery";
   Bs4.mk_tag "pubDate" "Tue, 10 Oct 2023 09:00:00 +0000"].

Definition odisha_nlp : Spacy.Language := fun text =>
  if PyStr.contains "Odisha" text
  then Spacy.mk_doc [Spacy.mk_span "Odisha" "GPE";
                     Spacy.mk_span "Officials" "ORG"]
  else Spacy.mk_doc [].

(** A language model that finds two places in every text. *)
Definition two_places_nlp : Spacy.Language := fun _ =>
  Spacy.mk_doc [Spacy.mk_span "Odisha" "GPE"; Spacy.mk_span "Delhi" "GPE";
                Spacy.mk_span "Modi" "PERSON"].

Definition sample_feed : Requests.Response :=
  Requests.mk_response true [cyclone_entry; untitled_entry; bakery_entry].

Definition feed_world : World :=
  world_with (Pandas.Csv sample_table) (Ok sample_feed) odisha_nlp.

Definition mixed_world : World :=
  world_with (Pandas.Csv sample_table)
    (Ok (Requests.mk_response true [cyclone_entry; untitled_entry]))
    odisha_nlp.

(** *** Further vocabulary *)

(** The language model finds in [text] an entity labelled GPE that
    lower-cases to [x]. *)
Definition named_in (nlp : Spacy.Language) (text x : string) : Prop :=
  ∃ ent, ent ∈ Spacy.ents (nlp text) ∧ Spacy.label_ ent = "GPE" ∧
         x = PyStr.lower (Spacy.text ent).

(** Some non-missing cell of the columns [cols] normalises to [x]. *)
Definition cell_of (norm : string → string) (df : Pandas.DataFrame)
    (cols : list string) (x : string) : Prop :=
  ∃ col v, col ∈ cols ∧ v ∈ values_of df col ∧ x = norm v.

(** The tables agree on the columns [cols]. *)
Definition same_columns (df1 df2 : Pandas.DataFrame) (cols : list string)
    : Prop :=
  Forall (fun col => df1 !! col = df2 !! col) cols.

(** Some column of [cols] is there and holds no text. *)
Definition other_column (df : Pandas.DataFrame) (cols : list string) : Prop :=
  Exists (fun col => df !! col = Some Pandas.OtherSeries) cols.

(** A string of blanks only. *)
Definition blank (s : string) : Prop := PyStr.lstrip s = "".

(** The fields fit the widths of the feed format, whether or not they
    denote a date. *)
Definition printable_fields (wd : nat) (d mo y h mi s oh om : Z) : Prop :=
  (wd < 7)%nat ∧ (0 ≤ y ≤ 9999)%Z ∧ (1 ≤ mo ≤ 12)%Z ∧ (1 ≤ d ≤ 31)%Z ∧
  (0 ≤ h ≤ 23)%Z ∧ (0 ≤ mi ≤ 59)%Z ∧ (0 ≤ s ≤ 59)%Z ∧
  (0 ≤ oh ≤ 99)%Z ∧ (0 ≤ om ≤ 59)%Z.

(** The fields of a [datetime] are those of a date and a time of day. *)
Definition datetime_fields (y mo d h mi s : Z) : Prop :=
  (1 ≤ y ≤ 9999)%Z ∧ (1 ≤ mo ≤ 12)%Z ∧
  (1 ≤ d ≤ PyDatetime.days_in_month y mo)%Z ∧
  (0 ≤ h ≤ 23)%Z ∧ (0 ≤ mi ≤ 59)%Z ∧ (0 ≤ s ≤ 59)%Z.

(** A clock stopped on New Year's Day 2024, at noon. *)
Definition sample_clock : Clock :=
  {| now := PyDatetime.mk_datetime 2024 1 1 12 0 0 None |}.

(** * Properties *)

(** ** Strings *)

Section StringFacts.
Import PyStr.

Lemma startswith_spec (p s : string) :
  startswith p s = true ↔ ∃ t, s = p +:+ t.
Proof.
  revert s. induction p as [|a p IH]; intros s; simpl.
  - split; [intros _; by exists s | done].
  - destruct s as [|b s].
    + split; [done | intros [t Ht]; discriminate].
    + rewrite andb_true_iff, IH. split.
      * intros [Hab [t ->]]. apply Ascii.eqb_eq in Hab as ->. by exists t.
      * intros [t Ht]. injection Ht as -> ->.
        split; [apply Ascii.eqb_refl | by exists t].
Qed.

Lemma contains_spec (k s : string) : contains k s = true ↔ occurs_in k s.
Proof.
  unfold occurs_in. induction s as [|c s IH]; simpl.
  - rewrite orb_false_r, startswith_spec. split.
    + intros [t Ht]. by exists "", t.
    + intros (pre & post & H). destruct pre; simpl in H; [by exists post|].
      discriminate.
  - rewrite orb_true_iff, startswith_spec, IH. split.
    + intros [[t Ht] | (pre & post & ->)].
      * by exists "", t.
      * by exists (String c pre), post.
    + intros (pre & post & H). destruct pre as [|x pre]; simpl in H.
      * left. by exists post.
      * right. injection H as _ ->. by exists pre, post.
Qed.

Lemma lower_app (a b : string) : lower (a +:+ b) = lower a +:+ lower b.
Proof. induction a as [|x a IH]; simpl; [done | by rewrite IH]. Qed.

Lemma chr_lower_idemp (c : ascii) : chr_lower (chr_lower c) = chr_lower c.
Proof. by destruct c as [[] [] [] [] [] [] [] []]. Qed.

Lemma lower_idemp (s : string) : lower (lower s) = lower s.
Proof.
  induction s as [|c s IH]; simpl; [done|].
  by rewrite chr_lower_idemp, IH.
Qed.

(** A split of the lower-cased string comes from a split of the
    string. *)
Lemma lower_split (s a b : string) :
  lower s = a +:+ b → ∃ a' b', s = a' +:+ b' ∧ lower a' = a ∧ lower b' = b.
Proof.
  revert s. induction a as [|x a IH]; intros s H; simpl in H.
  - by exists "", s.
  - destruct s as [|c s]; simpl in H; [done|].
    injection H as Hx H. destruct (IH _ H) as (a' & b' & -> & Ha & Hb).
    exists (String c a'), b'. simpl. by rewrite Hx, Ha.
Qed.

(** The test the classifier runs, for a keyword written in lower case,
    is the occurrence of the keyword up to case. *)
Lemma contains_lower_spec (k text : string) :
  lower k = k →
  contains k (lower text) = true ↔ occurs_ignoring_case k text.
Proof.
  intros Hk. rewrite contains_spec. unfold occurs_in, occurs_ignoring_case.
  rewrite Hk. split.
  - intros (pre & post & H).
    apply lower_split in H as (pre' & r & -> & Hpre & Hr).
    apply lower_split in Hr as (mid & post' & -> & Hmid & Hpost).
    by exists pre', mid, post'.
  - intros (pre & mid & post & -> & Hmid).
    exists (lower pre), (lower post). by rewrite !lower_app, Hmid.
Qed.

(** No upper-case letter survives [lower]. *)
Lemma chr_lower_not_upper (c : ascii) : is_upper (chr_lower c) = false.
Proof. by destruct c as [[] [] [] [] [] [] [] []]. Qed.

Lemma lower_not_Unknown (s : string) : lower s ≠ "Unknown".
Proof.
  destruct s as [|c s]; simpl; [done|]. intros H. injection H as H _.
  pose proof (chr_lower_not_upper c) as Hc. by rewrite H in Hc.
Qed.

End StringFacts.

(** ** The classifier *)

Section Classifier.
Variable vocabulary : list string.

Lemma existsb_filter_nonempty (p : string → bool) :
  existsb p vocabulary = true ↔ List.filter p vocabulary ≠ [].
Proof.
  induction vocabulary as [|k l IH]; simpl; [done|].
  destruct (p k); simpl; [done | exact IH].
Qed.

Lemma filter_sublist (p : string → bool) :
  sublist (List.filter p vocabulary) vocabulary.
Proof.
  induction vocabulary as [|k l IH]; simpl; [constructor|].
  destruct (p k); by constructor.
Qed.

Lemma filter_NoDup (p : string → bool) :
  NoDup vocabulary → NoDup (List.filter p vocabulary).
Proof.
  induction 1 as [|k l Hk Hl IH]; simpl; [constructor|].
  destruct (p k); [|done]. constructor; [|done].
  rewrite list_elem_of_In, filter_In, <- list_elem_of_In. tauto.
Qed.

Lemma filter_keywords_spec (text k : string) :
  Forall (fun k => PyStr.lower k = k) vocabulary →
  k ∈ List.filter (fun k => PyStr.contains k (PyStr.lower text)) vocabulary
  ↔ k ∈ vocabulary ∧ occurs_ignoring_case k text.
Proof.
  intros Hlow. rewrite !list_elem_of_In, filter_In, <- list_elem_of_In.
  rewrite Forall_forall in Hlow. split.
  - intros [Hin H]. split; [done|].
    by apply contains_lower_spec; [apply Hlow|].
  - intros [Hin H]. split; [done|].
    by apply contains_lower_spec; [apply Hlow|].
Qed.

End Classifier.

Lemma check_keywords_lower :
  Forall (fun k => PyStr.lower k = k) check.DISASTER_KEYWORDS.
Proof. repeat constructor. Qed.

Lemma jsonCURR_keywords_lower :
  Forall (fun k => PyStr.lower k = k) jsonCURR.DISASTER_KEYWORDS.
Proof. repeat constructor. Qed.

Lemma check_keywords_NoDup : NoDup check.DISASTER_KEYWORDS.
Proof. compute_done. Qed.

Lemma jsonCURR_keywords_NoDup : NoDup jsonCURR.DISASTER_KEYWORDS.
Proof. compute_done. Qed.

(** C2: in both disaster scrapers the relevance verdict on a text is true
    exactly when the list of matched keywords of that text is not empty. *)
Theorem C2_relevant_iff_keywords_matched (text : string) :
  (check._is_disaster_related text = true
   ↔ check.matched_keywords text ≠ []) ∧
  (jsonCURR._is_disaster_related text = true
   ↔ jsonCURR.matched_keywords text ≠ []).
Proof. split; apply existsb_filter_nonempty. Qed.

(** C3: the matched keywords are the subsequence of the vocabulary, in
    its order and without repetition, made of the entries that occur in
    the text up to case. *)
Theorem C3_matched_keywords_exact (text : string) :
  (sublist (check.matched_keywords text) check.DISASTER_KEYWORDS ∧
   NoDup (check.matched_keywords text) ∧
   ∀ k, k ∈ check.matched_keywords text
        ↔ k ∈ check.DISASTER_KEYWORDS ∧ occurs_ignoring_case k text) ∧
  (sublist (jsonCURR.matched_keywords text) jsonCURR.DISASTER_KEYWORDS ∧
   NoDup (jsonCURR.matched_keywords text) ∧
   ∀ k, k ∈ jsonCURR.matched_keywords text
        ↔ k ∈ jsonCURR.DISASTER_KEYWORDS ∧ occurs_ignoring_case k text).
Proof.
  split; (split; [apply filter_sublist | split]).
  - apply filter_NoDup, check_keywords_NoDup.
  - intros k. apply filter_keywords_spec, check_keywords_lower.
  - apply filter_NoDup, jsonCURR_keywords_NoDup.
  - intros k. apply filter_keywords_spec, jsonCURR_keywords_lower.
Qed.

(** The examples of the specification. *)
Example flood_is_relevant :
  check._is_disaster_related "A flood hit the region" = true ∧
  check.matched_keywords "A flood hit the region" = ["flood"] ∧
  jsonCURR.matched_keywords "A flood hit the region" = ["flood"].
Proof. by vm_compute. Qed.

Example bakery_is_not_relevant :
  check._is_disaster_related "Local bakery wins award" = false ∧
  check.matched_keywords "Local bakery wins award" = [] ∧
  jsonCURR.matched_keywords "Local bakery wins award" = [].
Proof. by vm_compute. Qed.

(** A keyword matches inside a longer word and whatever the case, and is
    listed once, in the order of the vocabulary and not of the text. *)
Example rainstorm_rescue :
  check.matched_keywords "RESCUE after the Rainstorm: flood, flood, flood"
  = ["flood"; "storm"; "rescue"].
Proof. by vm_compute. Qed.

(** ** The location resolver *)

Section Resolver.
Context `{O : PySetOrder}.

Lemma ner_locations_lower nlp text x :
  x ∈ ner_locations nlp text → ∃ s, x = PyStr.lower s.
Proof.
  unfold ner_locations. rewrite elem_of_list_to_set, list_elem_of_In.
  rewrite in_map_iff. intros (ent & <- & _). by eexists.
Qed.

Lemma Unknown_not_candidate nlp text : "Unknown" ∉ ner_locations nlp text.
Proof.
  intros [s Hs]%ner_locations_lower. by apply (lower_not_Unknown s).
Qed.

Lemma list_of_set_elem (X : gset string) x : x ∈ list_of_set X ↔ x ∈ X.
Proof. by rewrite (list_of_set_perm X), elem_of_elements. Qed.

Lemma list_of_set_NoDup (X : gset string) : NoDup (list_of_set X).
Proof. rewrite (list_of_set_perm X). apply NoDup_elements. Qed.

Lemma list_of_set_nil (X : gset string) : list_of_set X = [] ↔ X = ∅.
Proof.
  split.
  - intros H. apply leibniz_equiv, elem_of_equiv_empty. intros x Hx.
    apply list_of_set_elem in Hx. rewrite H in Hx. by apply elem_of_nil in Hx.
  - intros ->. apply Permutation_nil_r. by rewrite list_of_set_perm, elements_empty.
Qed.

(** What the plain resolver returns, on a gazetteer [G] and the
    candidates of a text. *)
Lemma resolve_spec (G : gset string) nlp text (r : list string) :
  r = (if decide (G ∩ ner_locations nlp text = ∅) then ["Unknown"]
       else list_of_set (G ∩ ner_locations nlp text)) →
  (r = ["Unknown"] ↔ G ∩ ner_locations nlp text = ∅) ∧
  (G ∩ ner_locations nlp text ≠ ∅ →
   NoDup r ∧ ∀ x, x ∈ r ↔ x ∈ G ∩ ner_locations nlp text) ∧
  r ≠ [].
Proof.
  intros ->. destruct (decide (G ∩ ner_locations nlp text = ∅)) as [He|Hne].
  - split; [done | split; done].
  - split; [|split].
    + split; [|done]. intros Hr. exfalso.
      apply (Unknown_not_candidate nlp text).
      assert ("Unknown" ∈ G ∩ ner_locations nlp text) as Hin.
      { apply list_of_set_elem. rewrite Hr. apply list_elem_of_here. }
      by apply elem_of_intersection in Hin as [_ Hin].
    + intros _. split; [apply list_of_set_NoDup|].
      intros x. apply list_of_set_elem.
    + by rewrite list_of_set_nil.
Qed.

(** The comprehension [{s for s in C if s in G}] is the intersection. *)
Lemma filter_member_intersection (G C : gset string) :
  filter (fun s => s ∈ G) C = G ∩ C.
Proof.
  apply leibniz_equiv. intros x.
  rewrite elem_of_filter, elem_of_intersection. tauto.
Qed.

Lemma jsonCURR_all_matches (G C : gset string) :
  G ∩ C ∪ filter (fun state => state ∈ G) C
        ∪ filter (fun country => country ∈ G) C = G ∩ C.
Proof.
  rewrite !filter_member_intersection. by rewrite !(idemp_L (∪) (G ∩ C)).
Qed.

End Resolver.

(** C1: in check.py and jsonDEPRE.py the resolver returns ["Unknown"]
    exactly when the gazetteer and the lower-cased GPE entities of the
    text share no member; otherwise it returns the members of that
    intersection, each once, in the order of the enumeration; it never
    returns the empty list. *)
Theorem C1_resolver_unknown_iff_no_match (O : PySetOrder)
    (feeds : list string) (nlp : Spacy.Language) (G : gset string)
    (text : string) :
  let C := ner_locations nlp text in
  let r1 := check._extract_locations (check.mk_scraper feeds nlp G) text in
  let r2 :=
    jsonDEPRE._extract_locations (jsonDEPRE.mk_scraper feeds nlp G) text in
  ((r1 = ["Unknown"] ↔ G ∩ C = ∅) ∧
   (G ∩ C ≠ ∅ → NoDup r1 ∧ ∀ x, x ∈ r1 ↔ x ∈ G ∩ C) ∧
   r1 ≠ []) ∧
  ((r2 = ["Unknown"] ↔ G ∩ C = ∅) ∧
   (G ∩ C ≠ ∅ → NoDup r2 ∧ ∀ x, x ∈ r2 ↔ x ∈ G ∩ C) ∧
   r2 ≠ []).
Proof. split; by apply resolve_spec. Qed.

(** C10: the three match sets of jsonCURR.py are each the intersection of
    the gazetteer with the candidates, so is their union, and the result
    of jsonCURR.py is the result of check.py up to the order in which the
    two runs enumerate the set, with the same ["Unknown"] fallback. *)
Theorem C10_jsonCURR_resolver_is_intersection (O1 O2 : PySetOrder)
    (feeds1 feeds2 : list string) (nlp : Spacy.Language) (G : gset string)
    (text : string) :
  let C := ner_locations nlp text in
  let curr :=
    @jsonCURR._extract_locations O1 (jsonCURR.mk_scraper feeds1 nlp G) text in
  let plain :=
    @check._extract_locations O2 (check.mk_scraper feeds2 nlp G) text in
  filter (fun state => state ∈ G) C = G ∩ C ∧
  G ∩ C ∪ filter (fun state => state ∈ G) C
        ∪ filter (fun country => country ∈ G) C = G ∩ C ∧
  curr ≡ₚ plain ∧
  (list_to_set curr : gset string) = list_to_set plain ∧
  (curr = ["Unknown"] ↔ plain = ["Unknown"]).
Proof.
  intros C curr plain.
  assert (curr ≡ₚ plain) as Hperm.
  { unfold curr, plain, jsonCURR._extract_locations, check._extract_locations.
    simpl. fold C. rewrite jsonCURR_all_matches.
    destruct (decide (G ∩ C = ∅)) as [He|Hne].
    - rewrite He. by rewrite (proj2 (list_of_set_nil ∅)).
    - destruct (@list_of_set O1 (G ∩ C)) as [|x l] eqn:Hl.
      + by apply list_of_set_nil in Hl.
      + by rewrite <- Hl, !list_of_set_perm. }
  split; [apply filter_member_intersection|].
  split; [apply jsonCURR_all_matches|].
  split; [done|]. split.
  - apply leibniz_equiv. intros x. by rewrite !elem_of_list_to_set, Hperm.
  - split; intros H; rewrite H in Hperm.
    + symmetry. by apply Permutation_singleton_l.
    + by apply Permutation_singleton_r.
Qed.

(** Two runs may list the same matches in different orders. *)
Example resolver_order_not_fixed :
  @check._extract_locations elements_order
    (check.mk_scraper [] two_places_nlp {["odisha"; "delhi"; "pune"]}) "text"
  = ["odisha"; "delhi"] ∧
  @jsonCURR._extract_locations reverse_order
    (jsonCURR.mk_scraper [] two_places_nlp {["odisha"; "delhi"; "pune"]})
    "text"
  = ["delhi"; "odisha"].
Proof. by vm_compute. Qed.

(** ** The gazetteer *)

Section StripFacts.
Import PyStr.

Lemma isspace_chr_lower (c : ascii) : isspace (chr_lower c) = isspace c.
Proof. by destruct c as [[] [] [] [] [] [] [] []]. Qed.

Lemma lstrip_lower (s : string) : lstrip (lower s) = lower (lstrip s).
Proof.
  induction s as [|c s IH]; simpl; [done|].
  rewrite isspace_chr_lower. by destruct (isspace c).
Qed.

Lemma rstrip_lower (s : string) : rstrip (lower s) = lower (rstrip s).
Proof.
  induction s as [|c s IH]; simpl; [done|].
  rewrite IH, isspace_chr_lower.
  destruct (rstrip s); simpl; [by destruct (isspace c) | done].
Qed.

Lemma strip_lower (s : string) : strip (lower s) = lower (strip s).
Proof. unfold strip. by rewrite lstrip_lower, rstrip_lower. Qed.

Lemma lstrip_starts_clean (s : string) : starts_clean (lstrip s).
Proof.
  induction s as [|c s IH]; simpl; [done|].
  by destruct (isspace c) eqn:Hc.
Qed.

Lemma lstrip_clean (s : string) : starts_clean s → lstrip s = s.
Proof. destruct s as [|c s]; simpl; [done | by intros ->]. Qed.

Lemma rstrip_starts_clean (s : string) :
  starts_clean s → starts_clean (rstrip s).
Proof.
  destruct s as [|c s]; simpl; [done|]. intros Hc.
  destruct (rstrip s); simpl; [by rewrite Hc | done].
Qed.

Lemma rstrip_idemp (s : string) : rstrip (rstrip s) = rstrip s.
Proof.
  induction s as [|c s IH]; simpl; [done|].
  destruct (rstrip s) as [|d r] eqn:Hr.
  - destruct (isspace c) eqn:Hc; simpl; [done | by rewrite Hc].
  - change (rstrip (String c (String d r))) with
      (match rstrip (String d r) with
       | EmptyString =>
           if isspace c then EmptyString else String c EmptyString
       | r' => String c r'
       end).
    by rewrite IH.
Qed.

Lemma strip_idemp (s : string) : strip (strip s) = strip s.
Proof.
  unfold strip. rewrite (lstrip_clean (rstrip (lstrip s))).
  - apply rstrip_idemp.
  - apply rstrip_starts_clean, lstrip_starts_clean.
Qed.

End StripFacts.

Section Gazetteer.

Lemma to_list_lowered (values : list (option string)) :
  Pandas.to_list
    (Pandas.TextSeries
       (map (option_map PyStr.lower)
          (List.filter Pandas.notna values)))
  = map PyStr.lower (omap id values).
Proof.
  induction values as [|[v|] values IH]; simpl in *; [done | | done].
  f_equal. exact IH.
Qed.

Lemma to_list_stripped_lowered (values : list (option string)) :
  Pandas.to_list
    (Pandas.TextSeries
       (map (option_map PyStr.lower)
          (map (option_map PyStr.strip)
             (List.filter Pandas.notna values))))
  = map (fun v => PyStr.lower (PyStr.strip v)) (omap id values).
Proof.
  induction values as [|[v|] values IH]; simpl in *; [done | | done].
  f_equal. exact IH.
Qed.

Lemma check_load_column df cities col :
  df !! col ≠ Some Pandas.OtherSeries →
  check.load_column df cities col
  = Ok (cities ∪ list_to_set (map PyStr.lower (values_of df col))).
Proof.
  unfold check.load_column, values_of. intros H.
  destruct (df !! col) as [[values|]|]; cbn -[Pandas.to_list].
  - by rewrite to_list_lowered.
  - done.
  - simpl. by rewrite (right_id_L ∅ (∪)).
Qed.

Lemma jsonCURR_load_column df cities col :
  df !! col ≠ Some Pandas.OtherSeries →
  jsonCURR.load_column df cities col
  = Ok (cities ∪ list_to_set
          (map (fun v => PyStr.lower (PyStr.strip v)) (values_of df col))).
Proof.
  unfold jsonCURR.load_column, values_of. intros H.
  destruct (df !! col) as [[values|]|]; cbn -[Pandas.to_list].
  - by rewrite to_list_stripped_lowered.
  - done.
  - simpl. by rewrite (right_id_L ∅ (∪)).
Qed.

Lemma elem_of_map_values (norm : string → string) df col x :
  x ∈ (list_to_set (map norm (values_of df col)) : gset string)
  ↔ ∃ v, v ∈ values_of df col ∧ x = norm v.
Proof.
  rewrite elem_of_list_to_set, list_elem_of_In, in_map_iff.
  split; intros (v & H1 & H2).
  - exists v. by rewrite list_elem_of_In.
  - exists v. by rewrite <- list_elem_of_In.
Qed.

Lemma gazetteer_of_two norm df c1 c2 :
  gazetteer_of norm df [c1; c2]
    (∅ ∪ list_to_set (map norm (values_of df c1))
       ∪ list_to_set (map norm (values_of df c2))).
Proof.
  intros x. rewrite !elem_of_union, !elem_of_map_values. split.
  - intros [[H | (v & Hv & ->)] | (v & Hv & ->)].
    + by apply elem_of_empty in H.
    + exists c1, v. split; [apply list_elem_of_here | done].
    + exists c2, v.
      split; [apply list_elem_of_further, list_elem_of_here | done].
  - intros (col & v & Hcol & Hv & ->).
    apply elem_of_cons in Hcol as [-> | Hcol]; [left; right; by exists v|].
    apply elem_of_cons in Hcol as [-> | Hcol]; [right; by exists v|].
    by apply elem_of_nil in Hcol.
Qed.

Lemma gazetteer_of_three norm df c1 c2 c3 :
  gazetteer_of norm df [c1; c2; c3]
    (∅ ∪ list_to_set (map norm (values_of df c1))
       ∪ list_to_set (map norm (values_of df c2))
       ∪ list_to_set (map norm (values_of df c3))).
Proof.
  intros x. rewrite !elem_of_union, !elem_of_map_values. split.
  - intros [[[H | (v & Hv & ->)] | (v & Hv & ->)] | (v & Hv & ->)].
    + by apply elem_of_empty in H.
    + exists c1, v. split; [apply list_elem_of_here | done].
    + exists c2, v.
      split; [apply list_elem_of_further, list_elem_of_here | done].
    + exists c3, v. split; [|done].
      apply list_elem_of_further, list_elem_of_further, list_elem_of_here.
  - intros (col & v & Hcol & Hv & ->).
    apply elem_of_cons in Hcol as [-> | Hcol];
      [left; left; right; by exists v|].
    apply elem_of_cons in Hcol as [-> | Hcol]; [left; right; by exists v|].
    apply elem_of_cons in Hcol as [-> | Hcol]; [right; by exists v|].
    by apply elem_of_nil in Hcol.
Qed.

Context `{W : World}.

Lemma jsonCURR_load_cities path df :
  file_at path = Pandas.Csv df →
  text_columns df ["City"; "State"] →
  ∃ G, jsonCURR._load_cities path = Ok G ∧
       gazetteer_of (fun v => PyStr.lower (PyStr.strip v)) df
         ["City"; "State"] G.
Proof.
  intros Hf Ht. unfold jsonCURR._load_cities. rewrite Hf. simpl.
  rewrite jsonCURR_load_column by (apply Ht; repeat constructor). simpl.
  rewrite jsonCURR_load_column by (apply Ht; repeat constructor). simpl.
  eexists. split; [done|]. apply gazetteer_of_two.
Qed.

Lemma app_load_cities path df :
  file_at path = Pandas.Csv df →
  text_columns df ["name"; "subcountry"] →
  gazetteer_of PyStr.lower df ["name"; "subcountry"]
    (app._load_cities path).1.
Proof.
  intros Hf Ht. unfold app._load_cities. rewrite Hf. simpl.
  change app.load_column with check.load_column.
  rewrite check_load_column by (apply Ht; repeat constructor). simpl.
  rewrite check_load_column by (apply Ht; repeat constructor). simpl.
  apply gazetteer_of_two.
Qed.

Lemma check_load_cities path df :
  file_at path = Pandas.Csv df →
  text_columns df ["name"; "country"; "subcountry"] →
  gazetteer_of PyStr.lower df ["name"; "country"; "subcountry"]
    (check._load_cities path).
Proof.
  intros Hf Ht. unfold check._load_cities. rewrite Hf. simpl.
  rewrite check_load_column by (apply Ht; repeat constructor). simpl.
  rewrite check_load_column by (apply Ht; repeat constructor). simpl.
  rewrite check_load_column by (apply Ht; repeat constructor). simpl.
  apply gazetteer_of_three.
Qed.

Lemma jsonDEPRE_load_cities path df :
  file_at path = Pandas.Csv df →
  text_columns df ["name"; "country"; "subcountry"] →
  gazetteer_of PyStr.lower df ["name"; "country"; "subcountry"]
    (jsonDEPRE._load_cities path).1.
Proof.
  intros Hf Ht. unfold jsonDEPRE._load_cities. rewrite Hf. simpl.
  change jsonDEPRE.load_column with check.load_column.
  rewrite check_load_column by (apply Ht; repeat constructor). simpl.
  rewrite check_load_column by (apply Ht; repeat constructor). simpl.
  rewrite check_load_column by (apply Ht; repeat constructor). simpl.
  apply gazetteer_of_three.
Qed.

End Gazetteer.

Lemma text_columns_Forall df cols :
  Forall (fun col => df !! col ≠ Some Pandas.OtherSeries) cols →
  text_columns df cols.
Proof. intros H col Hcol. by apply (proj1 (Forall_forall _ _) H). Qed.

(** C6, as stated, fails on app.py: the cell [" Paris "] enters the
    gazetteer lower-cased but with its blanks, so a member is not trimmed
    and the trimmed name is no member. *)
Lemma C6_counterexample_app_keeps_blanks :
  let G := (@app._load_cities sample_world "world-cities.csv").1 in
  " paris " ∈ G ∧ PyStr.strip " paris " ≠ " paris " ∧ "paris" ∉ G.
Proof. vm_compute. split; [|split]; [compute_done | done | compute_done]. Qed.

(** C6, amended: on a table whose recognised columns hold text,
    jsonCURR.py builds the set of the non-missing values of [City] and
    [State], each trimmed and then lower-cased, so every member is trimmed
    and lower-cased; app.py (columns [name], [subcountry]), check.py and
    jsonDEPRE.py (columns [name], [country], [subcountry]) build the set
    of the non-missing values lower-cased only, so every member is
    lower-cased. *)
Theorem C6_gazetteer_contents (W : World) (path : string)
    (df : Pandas.DataFrame) :
  file_at path = Pandas.Csv df →
  (text_columns df ["City"; "State"] →
   ∃ G, jsonCURR._load_cities path = Ok G ∧
        gazetteer_of (fun v => PyStr.lower (PyStr.strip v)) df
          ["City"; "State"] G ∧
        ∀ x, x ∈ G → PyStr.strip x = x ∧ PyStr.lower x = x) ∧
  (text_columns df ["name"; "subcountry"] →
   gazetteer_of PyStr.lower df ["name"; "subcountry"]
     (app._load_cities path).1 ∧
   ∀ x, x ∈ (app._load_cities path).1 → PyStr.lower x = x) ∧
  (text_columns df ["name"; "country"; "subcountry"] →
   gazetteer_of PyStr.lower df ["name"; "country"; "subcountry"]
     (check._load_cities path) ∧
   gazetteer_of PyStr.lower df ["name"; "country"; "subcountry"]
     (jsonDEPRE._load_cities path).1 ∧
   ∀ x, x ∈ check._load_cities path ∨ x ∈ (jsonDEPRE._load_cities path).1 →
        PyStr.lower x = x).
Proof.
  intros Hf. split; [|split].
  - intros Ht. destruct (jsonCURR_load_cities path df Hf Ht) as (G & HG & Hspec).
    exists G. split; [done|]. split; [done|].
    intros x (col & v & _ & _ & ->)%Hspec.
    by rewrite <- strip_lower, strip_idemp, strip_lower, lower_idemp.
  - intros Ht. pose proof (app_load_cities path df Hf Ht) as Hspec.
    split; [done|]. intros x (col & v & _ & _ & ->)%Hspec. apply lower_idemp.
  - intros Ht. pose proof (check_load_cities path df Hf Ht) as Hc.
    pose proof (jsonDEPRE_load_cities path df Hf Ht) as Hd.
    split; [done|]. split; [done|].
    intros x [(col & v & _ & _ & ->)%Hc | (col & v & _ & _ & ->)%Hd];
      apply lower_idemp.
Qed.

Lemma C6_gazetteer_contents_witness :
  @file_at sample_world "states.csv" = Pandas.Csv sample_table ∧
  (∃ G, @jsonCURR._load_cities sample_world "states.csv" = Ok G ∧
        gazetteer_of (fun v => PyStr.lower (PyStr.strip v)) sample_table
          ["City"; "State"] G ∧
        ∀ x, x ∈ G → PyStr.strip x = x ∧ PyStr.lower x = x) ∧
  gazetteer_of PyStr.lower sample_table ["name"; "subcountry"]
    (@app._load_cities sample_world "states.csv").1.
Proof.
  split; [reflexivity|].
  destruct (C6_gazetteer_contents sample_world "states.csv" sample_table)
    as (Hcurr & Happ & _); [reflexivity|].
  split.
  - apply Hcurr, text_columns_Forall.
    repeat constructor; vm_compute; discriminate.
  - apply Happ, text_columns_Forall.
    repeat constructor; vm_compute; discriminate.
Defined.

(** ** Reference sources that cannot be used *)

(** C7, as stated, fails on jsonDEPRE.py: with the cities file missing
    the constructor raises [FileNotFoundError]; no scraper and no
    gazetteer come out. *)
Lemma C7_counterexample_jsonDEPRE_missing_file :
  let W := world_with Pandas.NoFile (Raise RequestException) no_entities in
  unusable (@file_at W "world-cities.csv") ∧
  @jsonDEPRE.__init__ W [] "world-cities.csv" = Raise FileNotFoundError ∧
  ¬ ∃ r, @jsonDEPRE.__init__ W [] "world-cities.csv" = Ok r.
Proof.
  split; [by left|]. split; [done|]. by intros [r Hr].
Qed.

Section EmptyGazetteer.
Context `{O : PySetOrder}.

Lemma no_match_in_empty (C : gset string) : (∅ : gset string) ∩ C = ∅.
Proof. apply leibniz_equiv, (left_absorb _ _). Qed.

Lemma check_empty_Unknown (self : check.DisasterRSSNewsScraper) text :
  check.cities self = ∅ → check._extract_locations self text = ["Unknown"].
Proof.
  intros H. unfold check._extract_locations. rewrite H, no_match_in_empty.
  by rewrite decide_True.
Qed.

Lemma app_empty_Unknown (self : app.RSSNewsScraper) text :
  app.cities self = ∅ → app._extract_locations self text = "Unknown".
Proof.
  intros H. unfold app._extract_locations. rewrite H, no_match_in_empty.
  by rewrite decide_True.
Qed.

Lemma jsonDEPRE_empty_Unknown (self : jsonDEPRE.RSSNewsScraper) text :
  jsonDEPRE.cities self = ∅ →
  jsonDEPRE._extract_locations self text = ["Unknown"].
Proof.
  intros H. unfold jsonDEPRE._extract_locations.
  rewrite H, no_match_in_empty. by rewrite decide_True.
Qed.

End EmptyGazetteer.

(** C7, amended: when the reference file is missing, unreadable or
    empty, check.py and app.py build the empty gazetteer and their
    constructors return; jsonDEPRE.py builds the empty gazetteer too when
    the file is unreadable or empty, but its constructor raises
    [FileNotFoundError] when the file is missing; and a scraper whose
    gazetteer is empty resolves every text to ["Unknown"] (to the string
    "Unknown" in app.py). *)
Theorem C7_unusable_source_empty_gazetteer (O : PySetOrder) (W : World)
    (feeds : list string) (path : string) :
  unusable (file_at path) →
  (check._load_cities path = ∅ ∧
   check.cities (check.__init__ feeds path) = ∅) ∧
  ((app._load_cities path).1 = ∅ ∧
   app.cities (app.__init__ feeds path).1 = ∅) ∧
  ((jsonDEPRE._load_cities path).1 = ∅ ∧
   (file_at path = Pandas.NoFile →
    jsonDEPRE.__init__ feeds path = Raise FileNotFoundError) ∧
   (file_at path ≠ Pandas.NoFile →
    ∃ self log, jsonDEPRE.__init__ feeds path = Ok (self, log) ∧
                jsonDEPRE.cities self = ∅)) ∧
  (∀ self text, check.cities self = ∅ →
                check._extract_locations self text = ["Unknown"]) ∧
  (∀ self text, app.cities self = ∅ →
                app._extract_locations self text = "Unknown") ∧
  (∀ self text, jsonDEPRE.cities self = ∅ →
                jsonDEPRE._extract_locations self text = ["Unknown"]).
Proof.
  intros Hf.
  assert (check._load_cities path = ∅) as Hc.
  { unfold check._load_cities. by destruct Hf as [-> | [-> | ->]]. }
  assert ((app._load_cities path).1 = ∅) as Ha.
  { unfold app._load_cities. by destruct Hf as [-> | [-> | ->]]. }
  assert ((jsonDEPRE._load_cities path).1 = ∅) as Hd.
  { unfold jsonDEPRE._load_cities. by destruct Hf as [-> | [-> | ->]]. }
  repeat split.
  - done.
  - done.
  - done.
  - unfold app.__init__. by destruct (app._load_cities path).
  - done.
  - intros Hno. unfold jsonDEPRE.__init__. by rewrite Hno.
  - intros Hsome. unfold jsonDEPRE.__init__.
    destruct (jsonDEPRE._load_cities path) as [cities log].
    destruct (Pandas.exists_ (file_at path)) eqn:He.
    + by eexists _, _.
    + by destruct (file_at path).
  - apply check_empty_Unknown.
  - apply app_empty_Unknown.
  - apply jsonDEPRE_empty_Unknown.
Qed.

Lemma C7_unusable_source_empty_gazetteer_witness :
  let W := world_with Pandas.EmptyFile (Raise RequestException) no_entities in
  unusable (@file_at W "world-cities.csv") ∧
  @check._load_cities W "world-cities.csv" = ∅ ∧
  (∃ self log, @jsonDEPRE.__init__ W [] "world-cities.csv" = Ok (self, log) ∧
               jsonDEPRE.cities self = ∅).
Proof.
  intros W.
  assert (unusable (@file_at W "world-cities.csv")) as Hf
    by (right; right; reflexivity).
  split; [exact Hf|].
  destruct (C7_unusable_source_empty_gazetteer elements_order W []
              "world-cities.csv" Hf) as ((Hc & _) & _ & (_ & _ & Hd) & _).
  split; [exact Hc|]. apply Hd. discriminate.
Defined.

(** ** The date normaliser *)

Section DateFacts.
Import PyStr PyDatetime.
Local Open Scope Z_scope.

(** A property of the integers of a range holds when it holds of each,
    counted from the lower end. *)
Lemma Z_range_cases (P : Z → Prop) (lo hi : Z) :
  (∀ i : nat, (i < Z.to_nat (hi - lo + 1))%nat → P (lo + Z.of_nat i)) →
  ∀ n, lo ≤ n ≤ hi → P n.
Proof.
  intros H n Hn. replace n with (lo + Z.of_nat (Z.to_nat (n - lo))) by lia.
  apply H. lia.
Qed.

Ltac range_cases n lo hi :=
  let i := fresh "i" in
  let Hi := fresh "Hi" in
  pattern n; apply (Z_range_cases _ lo hi); [|lia];
  intros i Hi;
  repeat (destruct i as [|i]; [vm_compute; reflexivity|]);
  exfalso; vm_compute in Hi; lia.

Lemma append_cons c (a b : string) : String c a +:+ b = String c (a +:+ b).
Proof. reflexivity. Qed.

Lemma append_nil (b : string) : "" +:+ b = b.
Proof. reflexivity. Qed.

Lemma digit_value_char k : 0 ≤ k ≤ 9 → digit_value (digit_char k) = k.
Proof. intros Hk. range_cases k 0 9. Qed.

Lemma isdigit_char k : 0 ≤ k ≤ 9 → isdigit (digit_char k) = true.
Proof. intros Hk. range_cases k 0 9. Qed.

Lemma isspace_digit_char k : 0 ≤ k ≤ 9 → isspace (digit_char k) = false.
Proof. intros Hk. range_cases k 0 9. Qed.

Lemma match_d_fmt d rest :
  1 ≤ d ≤ 31 → match_d (fmt_02d d +:+ rest) = Some (d, rest).
Proof. intros Hd. range_cases d 1 31. Qed.

Lemma match_H_fmt h rest :
  0 ≤ h ≤ 23 → match_H (fmt_02d h +:+ rest) = Some (h, rest).
Proof. intros Hh. range_cases h 0 23. Qed.

Lemma match_M_fmt m rest :
  0 ≤ m ≤ 59 → match_M (fmt_02d m +:+ rest) = Some (m, rest).
Proof. intros Hm. range_cases m 0 59. Qed.

Lemma match_S_fmt s rest :
  0 ≤ s ≤ 59 → match_S (fmt_02d s +:+ rest) = Some (s, rest).
Proof. intros Hs. range_cases s 0 59. Qed.

Lemma match_Y_fmt y rest :
  0 ≤ y ≤ 9999 → match_Y (fmt_04d y +:+ rest) = Some (y, rest).
Proof.
  intros Hy. unfold match_Y, fmt_04d. rewrite !append_cons, append_nil.
  rewrite !isdigit_char by (Z.div_mod_to_equations; lia). cbn [andb].
  rewrite !digit_value_char by (Z.div_mod_to_equations; lia).
  do 2 f_equal. Z.div_mod_to_equations. lia.
Qed.

Lemma match_weekday_abbr wd rest :
  (wd < 7)%nat →
  match_name a_weekday 0 (nth wd weekday_abbr "" +:+ rest)
  = Some (Z.of_nat wd, rest).
Proof.
  intros Hwd. do 7 (destruct wd as [|wd]; [reflexivity|]). lia.
Qed.

Lemma match_month_abbr mo rest :
  1 ≤ mo ≤ 12 →
  match_name (tail a_month) 1
    (nth (Z.to_nat (mo - 1)) month_abbr "" +:+ rest)
  = Some (mo, rest).
Proof. intros Hmo. range_cases mo 1 12. Qed.

End DateFacts.

Section DateParsing.
Import PyStr PyDatetime.
Local Open Scope Z_scope.

Lemma ends_clean_cons c s : ends_clean s → ends_clean (String c s).
Proof.
  intros [Hs Hne]. split; [|done]. simpl. rewrite Hs.
  by destruct s.
Qed.

Lemma ends_clean_app a s : ends_clean s → ends_clean (a +:+ s).
Proof.
  intros Hs. induction a as [|c a IH]; [done|].
  rewrite append_cons. by apply ends_clean_cons.
Qed.

Lemma ends_clean_fmt_02d n : 0 ≤ n ≤ 99 → ends_clean (fmt_02d n).
Proof.
  intros Hn. unfold fmt_02d. apply ends_clean_cons. split; [|done].
  change (rstrip (String (digit_char (n `mod` 10)) ""))
    with (if isspace (digit_char (n `mod` 10)) then ""
          else String (digit_char (n `mod` 10)) "").
  by rewrite isspace_digit_char by (Z.div_mod_to_equations; lia).
Qed.

Lemma starts_clean_fmt_02d n r :
  0 ≤ n ≤ 99 → starts_clean (fmt_02d n +:+ r).
Proof.
  intros Hn. unfold fmt_02d. rewrite append_cons.
  apply isspace_digit_char. Z.div_mod_to_equations. lia.
Qed.

Lemma starts_clean_fmt_04d y r :
  0 ≤ y ≤ 9999 → starts_clean (fmt_04d y +:+ r).
Proof.
  intros Hy. unfold fmt_04d. rewrite append_cons.
  apply isspace_digit_char. Z.div_mod_to_equations. lia.
Qed.

Lemma starts_clean_weekday wd r :
  (wd < 7)%nat → starts_clean (nth wd weekday_abbr "" +:+ r).
Proof. intros Hwd. do 7 (destruct wd as [|wd]; [reflexivity|]). lia. Qed.

Lemma starts_clean_month mo r :
  1 ≤ mo ≤ 12 →
  starts_clean (nth (Z.to_nat (mo - 1)) month_abbr "" +:+ r).
Proof.
  intros Hmo. pattern mo. apply (Z_range_cases _ 1 12); [|lia].
  intros i Hi. do 12 (destruct i as [|i]; [reflexivity|]).
  exfalso. vm_compute in Hi. lia.
Qed.

Lemma two_digits_any n r :
  0 ≤ n ≤ 99 → two_digits isdigit (fmt_02d n +:+ r) = Some (n, r).
Proof.
  intros Hn. unfold two_digits, fmt_02d. rewrite !append_cons, append_nil.
  rewrite !isdigit_char by (Z.div_mod_to_equations; lia). cbn [andb].
  rewrite !digit_value_char by (Z.div_mod_to_equations; lia).
  do 2 f_equal. Z.div_mod_to_equations. lia.
Qed.

Lemma two_digits_minutes n r :
  0 ≤ n ≤ 59 →
  two_digits (between "0" "5") (fmt_02d n +:+ r) = Some (n, r).
Proof.
  intros Hn. pattern n. apply (Z_range_cases _ 0 59); [|lia].
  intros i Hi. do 60 (destruct i as [|i]; [reflexivity|]).
  exfalso. vm_compute in Hi. lia.
Qed.

Lemma skip_colon_digits n r :
  0 ≤ n ≤ 99 → skip_colon (fmt_02d n +:+ r) = (false, fmt_02d n +:+ r).
Proof.
  intros Hn. unfold fmt_02d. rewrite !append_cons, append_nil.
  assert (0 ≤ n `div` 10 ≤ 9) as Hq by (Z.div_mod_to_equations; lia).
  revert Hq. generalize (n `div` 10). intros q Hq.
  pattern q. apply (Z_range_cases _ 0 9); [|lia].
  intros i Hi. do 10 (destruct i as [|i]; [reflexivity|]).
  exfalso. vm_compute in Hi. lia.
Qed.

(** The offset [+hhmm] or [-hhmm] is the first alternative of [%z],
    without colons and without seconds. *)
Lemma match_z_fmt (west : bool) oh om :
  0 ≤ oh ≤ 99 → 0 ≤ om ≤ 59 →
  match_z ((if west then "-" else "+") +:+ fmt_02d oh +:+ fmt_02d om)
  = Some (Some (mk_z west oh false om None), "").
Proof.
  intros Hoh Hom.
  replace (fmt_02d om) with (fmt_02d om +:+ "") by (by unfold fmt_02d).
  destruct west; rewrite append_cons, append_nil; unfold match_z;
    cbn [Ascii.eqb Bool.eqb orb andb];
    rewrite two_digits_any by done;
    rewrite skip_colon_digits by lia;
    by rewrite two_digits_minutes by done.
Qed.

Lemma bind_Ok {A B} (a : A) (k : A → result B) : (Ok a ≫= k) = k a.
Proof. reflexivity. Qed.

Lemma match_format_cons d ds s t :
  match_format (d :: ds) s t
  = match_directive d s t ≫= (fun '(t', s') => match_format ds s' t').
Proof. reflexivity. Qed.

Lemma directive_a wd r t :
  (wd < 7)%nat →
  match_directive Dir_a (nth wd weekday_abbr "" +:+ r) t
  = Ok (mk_tm (tm_year t) (tm_month t) (tm_day t) (tm_hour t)
          (tm_minute t) (tm_second t) (Some (Z.of_nat wd)) (tm_gmtoff t), r).
Proof. intros H. unfold match_directive. by rewrite match_weekday_abbr. Qed.

Lemma directive_d d r t :
  1 ≤ d ≤ 31 →
  match_directive Dir_d (fmt_02d d +:+ r) t
  = Ok (mk_tm (tm_year t) (tm_month t) d (tm_hour t)
          (tm_minute t) (tm_second t) (tm_weekday t) (tm_gmtoff t), r).
Proof. intros H. unfold match_directive. by rewrite match_d_fmt. Qed.

Lemma directive_b mo r t :
  1 ≤ mo ≤ 12 →
  match_directive Dir_b (nth (Z.to_nat (mo - 1)) month_abbr "" +:+ r) t
  = Ok (mk_tm (tm_year t) mo (tm_day t) (tm_hour t)
          (tm_minute t) (tm_second t) (tm_weekday t) (tm_gmtoff t), r).
Proof. intros H. unfold match_directive. by rewrite match_month_abbr. Qed.

Lemma directive_Y y r t :
  0 ≤ y ≤ 9999 →
  match_directive Dir_Y (fmt_04d y +:+ r) t
  = Ok (mk_tm (Some y) (tm_month t) (tm_day t) (tm_hour t)
          (tm_minute t) (tm_second t) (tm_weekday t) (tm_gmtoff t), r).
Proof. intros H. unfold match_directive. by rewrite match_Y_fmt. Qed.

Lemma directive_H h r t :
  0 ≤ h ≤ 23 →
  match_directive Dir_H (fmt_02d h +:+ r) t
  = Ok (mk_tm (tm_year t) (tm_month t) (tm_day t) h
          (tm_minute t) (tm_second t) (tm_weekday t) (tm_gmtoff t), r).
Proof. intros H. unfold match_directive. by rewrite match_H_fmt. Qed.

Lemma directive_M m r t :
  0 ≤ m ≤ 59 →
  match_directive Dir_M (fmt_02d m +:+ r) t
  = Ok (mk_tm (tm_year t) (tm_month t) (tm_day t) (tm_hour t)
          m (tm_second t) (tm_weekday t) (tm_gmtoff t), r).
Proof. intros H. unfold match_directive. by rewrite match_M_fmt. Qed.

Lemma directive_S s r t :
  0 ≤ s ≤ 59 →
  match_directive Dir_S (fmt_02d s +:+ r) t
  = Ok (mk_tm (tm_year t) (tm_month t) (tm_day t) (tm_hour t)
          (tm_minute t) s (tm_weekday t) (tm_gmtoff t), r).
Proof. intros H. unfold match_directive. by rewrite match_S_fmt. Qed.

Lemma directive_z (west : bool) oh om t :
  0 ≤ oh ≤ 99 → 0 ≤ om ≤ 59 →
  match_directive Dir_z
    ((if west then "-" else "+") +:+ fmt_02d oh +:+ fmt_02d om) t
  = Ok (mk_tm (tm_year t) (tm_month t) (tm_day t) (tm_hour t)
          (tm_minute t) (tm_second t) (tm_weekday t)
          (Some ((if west then -1 else 1)
                 * ((oh * 3600 + om * 60) * 1000000))), "").
Proof.
  intros Hoh Hom. unfold match_directive. by rewrite match_z_fmt.
Qed.

Lemma directive_literal c r t :
  match_directive (Literal c) (String c r) t = Ok (t, r).
Proof.
  unfold match_directive, match_literal. by rewrite Ascii.eqb_refl.
Qed.

Lemma directive_whitespace r t :
  starts_clean r → match_directive Whitespace (String " " r) t = Ok (t, r).
Proof.
  intros Hr. unfold match_directive.
  change (match_whitespace (String " " r)) with (Some (lstrip r)).
  by rewrite lstrip_clean.
Qed.

End DateParsing.

Section DateNormaliser.
Import PyStr PyDatetime.
Local Open Scope Z_scope.

Lemma days_in_month_le y mo : days_in_month y mo ≤ 31.
Proof.
  unfold days_in_month.
  destruct (mo =? 2); [by destruct (is_leap y)|].
  by destruct ((mo =? 4) || (mo =? 6) || (mo =? 9) || (mo =? 11)).
Qed.

Lemma strip_rfc822 wd d mo y h mi s west oh om :
  valid_fields wd d mo y h mi s oh om →
  strip (rfc822_date wd d mo y h mi s west oh om)
  = rfc822_date wd d mo y h mi s west oh om.
Proof.
  intros (Hwd & Hy & Hmo & Hd & Hh & Hmi & Hs & Hoh & Hom).
  unfold strip. rewrite lstrip_clean.
  - unfold rfc822_date.
    do 16 apply ends_clean_app.
    apply ends_clean_fmt_02d. lia.
  - by apply starts_clean_weekday.
Qed.

Ltac step L :=
  rewrite match_format_cons; rewrite L;
  [rewrite bind_Ok; cbv beta iota;
   cbn [tm_year tm_month tm_day tm_hour tm_minute tm_second tm_weekday
        tm_gmtoff]
  |..].

(** The directives of the feed format consume the whole of a date
    written in that format and read its fields back. *)
Lemma match_format_rfc822 wd d mo y h mi s west oh om :
  valid_fields wd d mo y h mi s oh om →
  match_format RSS_FORMAT (rfc822_date wd d mo y h mi s west oh om) tm_init
  = Ok (mk_tm (Some y) mo d h mi s (Some (Z.of_nat wd))
          (Some ((if west then -1 else 1)
                 * ((oh * 3600 + om * 60) * 1000000))), "").
Proof.
  intros (Hwd & Hy & Hmo & Hd & Hh & Hmi & Hs & Hoh & Hom).
  pose proof (days_in_month_le y mo) as Hdim.
  unfold RSS_FORMAT, rfc822_date.
  rewrite !append_cons, !append_nil.
  step directive_a; [|done].
  step directive_literal.
  step directive_whitespace; [|apply starts_clean_fmt_02d; lia].
  step directive_d; [|lia].
  step directive_whitespace; [|by apply starts_clean_month].
  step directive_b; [|done].
  step directive_whitespace; [|apply starts_clean_fmt_04d; lia].
  step directive_Y; [|lia].
  step directive_whitespace; [|apply starts_clean_fmt_02d; lia].
  step directive_H; [|done].
  step directive_literal.
  step directive_M; [|done].
  step directive_literal.
  step directive_S; [|done].
  step directive_whitespace; [|by destruct west].
  step directive_z; [|lia|done].
  reflexivity.
Qed.

Lemma strptime_rfc822 wd d mo y h mi s west oh om :
  valid_fields wd d mo y h mi s oh om →
  strptime (rfc822_date wd d mo y h mi s west oh om) RSS_FORMAT
  = Ok (mk_datetime y mo d h mi s
          (Some ((if west then -1 else 1)
                 * ((oh * 3600 + om * 60) * 1000000)))).
Proof.
  intros Hv. unfold strptime. rewrite match_format_rfc822 by done.
  destruct Hv as (Hwd & Hy & Hmo & Hd & Hh & Hmi & Hs & Hoh & Hom).
  rewrite bind_Ok. cbv beta iota.
  cbn [tm_gmtoff tm_year tm_month tm_day tm_hour tm_minute tm_second
       default].
  unfold timezone.
  replace ((-86400000000 <? (if west then -1 else 1)
                            * ((oh * 3600 + om * 60) * 1000000))
           && ((if west then -1 else 1)
               * ((oh * 3600 + om * 60) * 1000000) <? 86400000000))
    with true
    by (symmetry; apply andb_true_iff; split; apply Z.ltb_lt;
        destruct west; lia).
  rewrite !bind_Ok. unfold new_datetime, id.
  rewrite !(proj2 (Z.leb_le _ _)) by lia. reflexivity.
Qed.

Lemma parse_rss_date_rfc822 wd d mo y h mi s west oh om :
  valid_fields wd d mo y h mi s oh om →
  parse_rss_date (rfc822_date wd d mo y h mi s west oh om)
  = Ok (iso_date y mo d h mi s).
Proof.
  intros Hv. unfold parse_rss_date.
  rewrite strip_rfc822, strptime_rfc822 by done. reflexivity.
Qed.

End DateNormaliser.

(** C4: a date written in the feed format, with fields that denote a
    date (of a four-digit year), a time of day and an offset of less than
    a day, is normalised by
    the four variants to [YYYY-MM-DD HH:MM:SS] with the same year, month,
    day, hour, minute and second, whatever the weekday and the offset; in
    particular ["Mon, 02 Jan 2023 15:04:05 +0000"] becomes
    ["2023-01-02 15:04:05"]. *)
Theorem C4_normalize_feed_date (wd : nat) (d mo y h mi s : Z)
    (west : bool) (oh om : Z) :
  valid_fields wd d mo y h mi s oh om →
  let raw := rfc822_date wd d mo y h mi s west oh om in
  check._parse_date raw = iso_date y mo d h mi s ∧
  jsonCURR._parse_date raw = iso_date y mo d h mi s ∧
  app._parse_date raw = (iso_date y mo d h mi s, []) ∧
  jsonDEPRE._parse_date raw = (iso_date y mo d h mi s, []) ∧
  check._parse_date "Mon, 02 Jan 2023 15:04:05 +0000" = "2023-01-02 15:04:05".
Proof.
  intros Hv raw.
  unfold check._parse_date, jsonCURR._parse_date, app._parse_date,
    jsonDEPRE._parse_date.
  unfold raw. rewrite parse_rss_date_rfc822 by done.
  repeat split; reflexivity.
Qed.

Lemma C4_normalize_feed_date_witness :
  valid_fields 0 2 1 2023 15 4 5 0 0 ∧
  rfc822_date 0 2 1 2023 15 4 5 false 0 0 = "Mon, 02 Jan 2023 15:04:05 +0000" ∧
  check._parse_date (rfc822_date 0 2 1 2023 15 4 5 false 0 0)
  = "2023-01-02 15:04:05".
Proof.
  assert (valid_fields 0 2 1 2023 15 4 5 0 0) as Hv
    by (unfold valid_fields; vm_compute; intuition (lia || discriminate)).
  split; [exact Hv|]. split; [reflexivity|].
  exact (proj1 (C4_normalize_feed_date 0 2 1 2023 15 4 5 false 0 0 Hv)).
Defined.

(** C5: when parsing the trimmed date fails, whatever the reason, the
    four variants return the raw string as it came, blanks included (app.py
    and jsonDEPRE.py also log a warning); so do they on ["not-a-date"] and
    on the empty string.  [_parse_date] is a total function: no exception
    leaves it. *)
Theorem C5_unparsable_date_returned_verbatim (date_str : string) (e : exn) :
  PyDatetime.strptime (PyStr.strip date_str) PyDatetime.RSS_FORMAT = Raise e →
  check._parse_date date_str = date_str ∧
  jsonCURR._parse_date date_str = date_str ∧
  (app._parse_date date_str).1 = date_str ∧
  (jsonDEPRE._parse_date date_str).1 = date_str ∧
  check._parse_date "not-a-date" = "not-a-date" ∧
  check._parse_date "" = "".
Proof.
  intros H.
  unfold check._parse_date, jsonCURR._parse_date, app._parse_date,
    jsonDEPRE._parse_date, parse_rss_date.
  rewrite H. repeat split; reflexivity.
Qed.

Lemma C5_unparsable_date_returned_verbatim_witness :
  PyDatetime.strptime (PyStr.strip "  Mon, 31 Feb 2023 15:04:05 +0000 ")
    PyDatetime.RSS_FORMAT = Raise ValueError ∧
  check._parse_date "  Mon, 31 Feb 2023 15:04:05 +0000 "
  = "  Mon, 31 Feb 2023 15:04:05 +0000 ".
Proof.
  split; [reflexivity|].
  exact (proj1 (C5_unparsable_date_returned_verbatim
                  "  Mon, 31 Feb 2023 15:04:05 +0000 " ValueError
                  (eq_refl _))).
Defined.

(** ** The feed loop *)

Section FeedLoop.
Context `{O : PySetOrder}.

Lemma relevant_iff_keyword (vocabulary : list string) (text : string) :
  Forall (fun k => PyStr.lower k = k) vocabulary →
  existsb (fun k => PyStr.contains k (PyStr.lower text)) vocabulary = true
  ↔ keyword_matches vocabulary text.
Proof.
  intros Hlow. rewrite existsb_exists. rewrite Forall_forall in Hlow.
  split.
  - intros (k & Hin%list_elem_of_In & Hk). exists k. split; [done|].
    by apply contains_lower_spec; [apply Hlow|].
  - intros (k & Hin & Hk). exists k. split; [by apply list_elem_of_In|].
    by apply contains_lower_spec; [apply Hlow|].
Qed.

Lemma for_in_cons {A S} (x : A) l (body : S → A → result S) s :
  for_in (x :: l) body s = body s x ≫= for_in l body.
Proof. reflexivity. Qed.

Lemma omap_cons_list {A B} (f : A → option B) x l :
  omap f (x :: l) = (option_list (f x) ++ omap f l)%list.
Proof. simpl. by destruct (f x). Qed.

Lemma flat_map_cons_list {A B} (f : A → list B) x l :
  flat_map f (x :: l) = (f x ++ flat_map f l)%list.
Proof. reflexivity. Qed.

(** *** check.py *)

Lemma check_fetch_entry self url acc entry :
  check.fetch_entry self url acc entry
  = (acc ++ option_list (check_record self url entry))%list.
Proof.
  unfold check_record, check.fetch_entry.
  destruct (check._is_disaster_related _); simpl; [done|].
  by rewrite app_nil_r.
Qed.

Lemma check_loop self url entries acc :
  fold_left (check.fetch_entry self url) entries acc
  = (acc ++ omap (check_record self url) entries)%list.
Proof.
  revert acc. induction entries as [|e entries IH]; intros acc; simpl.
  - by rewrite app_nil_r.
  - rewrite IH, check_fetch_entry.
    destruct (check_record self url e); simpl; [|by rewrite app_nil_r].
    by rewrite <- app_assoc.
Qed.

Lemma check_record_relevant self url entry :
  is_Some (check_record self url entry)
  ↔ check._is_disaster_related (combined_text entry) = true.
Proof.
  unfold check_record, check.fetch_entry. fold (combined_text entry).
  destruct (check._is_disaster_related (combined_text entry)); simpl.
  - split; [done | by eexists].
  - split; [by intros [a Ha] | done].
Qed.

Lemma check_record_fields self url entry a :
  check_record self url entry = Some a →
  check.title a = check.field_or_empty entry "title" ∧
  check.disaster_keywords a = check.matched_keywords (combined_text entry).
Proof.
  unfold check_record, check.fetch_entry. fold (combined_text entry).
  destruct (check._is_disaster_related (combined_text entry)); simpl;
    [|done].
  by intros [= <-].
Qed.

(** *** jsonCURR.py *)

Lemma stripped_text_found (entry : Bs4.Item) n :
  (∃ tag, Bs4.find n entry = Some tag ∧
          jsonCURR.stripped_text entry n
          = Ok (check.field_or_empty entry n)) ∨
  (Bs4.find n entry = None ∧
   jsonCURR.stripped_text entry n = Raise AttributeError).
Proof.
  unfold jsonCURR.stripped_text, check.field_or_empty.
  destruct (Bs4.find n entry) as [tag|]; [left; by exists tag | by right].
Qed.

Lemma text_of_found (entry : Bs4.Item) n :
  (∃ tag, Bs4.find n entry = Some tag ∧
          Bs4.text_of (Bs4.find n entry) = Ok (Bs4.text tag)) ∨
  (Bs4.find n entry = None ∧
   Bs4.text_of (Bs4.find n entry) = Raise AttributeError).
Proof.
  destruct (Bs4.find n entry) as [tag|]; [left; by exists tag | by right].
Qed.

(** The inner [try] of jsonCURR.py ends in one of three ways. *)
Lemma jsonCURR_parse_entry_cases self url entry :
  (∃ a, jsonCURR.parse_entry self url entry = Ok (Some a) ∧
        has_fields entry entry_fields ∧
        jsonCURR._is_disaster_related (combined_text entry) = true ∧
        jsonCURR.disaster_keywords a
        = jsonCURR.matched_keywords (combined_text entry)) ∨
  (jsonCURR.parse_entry self url entry = Ok None ∧
   has_fields entry ["title"; "description"] ∧
   jsonCURR._is_disaster_related (combined_text entry) = false) ∨
  (jsonCURR.parse_entry self url entry = Raise AttributeError ∧
   ¬ has_fields entry entry_fields).
Proof.
  unfold jsonCURR.parse_entry, combined_text, has_fields, entry_fields.
  destruct (stripped_text_found entry "title") as [(t & Ht & ->)|[Ht ->]];
    [|right; right; split; [done|];
      rewrite !Forall_cons, Ht; by intros ([? ?] & _)].
  destruct (stripped_text_found entry "description")
    as [(de & Hde & ->)|[Hde ->]];
    [|right; right; split; [done|];
      rewrite !Forall_cons, Hde; by intros (_ & [? ?] & _)].
  cbn [mbind result_bind].
  destruct (jsonCURR._is_disaster_related _) eqn:Hrel;
    [|right; left; split; [done|]; split; [|done];
      rewrite !Forall_cons, Ht, Hde; by repeat split].
  destruct (text_of_found entry "pubDate") as [(p & Hp & ->)|[Hp ->]];
    [|right; right; split; [done|];
      rewrite !Forall_cons, Hp; by intros (_ & _ & _ & [? ?] & _)].
  destruct (stripped_text_found entry "link") as [(l & Hl & ->)|[Hl ->]];
    [|right; right; split; [done|];
      rewrite !Forall_cons, Hl; by intros (_ & _ & [? ?] & _)].
  left. eexists. split; [done|]. split; [|done].
  rewrite !Forall_cons, Ht, Hde, Hp, Hl. by repeat split.
Qed.

Lemma jsonCURR_fetch_entry self url acc entry :
  jsonCURR.fetch_entry self url acc entry
  = Ok (acc ++ option_list (jsonCURR_record self url entry))%list.
Proof.
  unfold jsonCURR.fetch_entry, jsonCURR_record.
  destruct (jsonCURR_parse_entry_cases self url entry)
    as [(a & -> & _)|[(-> & _)|(-> & _)]]; simpl;
    by rewrite ?app_nil_r.
Qed.

Lemma jsonCURR_loop self url entries acc :
  for_in entries (jsonCURR.fetch_entry self url) acc
  = Ok (acc ++ omap (jsonCURR_record self url) entries)%list.
Proof.
  revert acc. induction entries as [|e entries IH]; intros acc; simpl.
  - by rewrite app_nil_r.
  - rewrite jsonCURR_fetch_entry. cbn [mbind result_bind]. rewrite IH.
    destruct (jsonCURR_record self url e); simpl; [|by rewrite app_nil_r].
    by rewrite <- app_assoc.
Qed.

(** *** app.py and jsonDEPRE.py *)

Lemma has_fields_all (entry : Bs4.Item) :
  has_fields entry entry_fields
  ↔ is_Some (Bs4.find "title" entry) ∧
    is_Some (Bs4.find "description" entry) ∧
    is_Some (Bs4.find "link" entry) ∧ is_Some (Bs4.find "pubDate" entry).
Proof.
  unfold has_fields, entry_fields. rewrite !Forall_cons, Forall_nil. tauto.
Qed.

(** The inner [try] of app.py yields an article when the four fields
    are there and raises [AttributeError] otherwise. *)
Lemma app_parse_entry_cases self url entry :
  (∃ a log, app.parse_entry self url entry = Ok (a, log) ∧
            has_fields entry entry_fields) ∨
  (app.parse_entry self url entry = Raise AttributeError ∧
   ¬ has_fields entry entry_fields).
Proof.
  unfold app.parse_entry, app.stripped_text.
  generalize (has_fields_all entry).
  destruct (Bs4.find "title" entry);
    [|intros Hall; right; split; [done | by intros ([? ?] & _)%Hall]].
  destruct (Bs4.find "description" entry);
    [|intros Hall; right; split; [done | by intros (_ & [? ?] & _)%Hall]].
  destruct (Bs4.find "link" entry);
    [|intros Hall; right; split;
      [done | by intros (_ & _ & [? ?] & _)%Hall]].
  destruct (Bs4.find "pubDate" entry);
    [|intros Hall; right; split;
      [done | by intros (_ & _ & _ & [? ?])%Hall]].
  intros Hall.
  left. cbn [mbind result_bind Bs4.text_of].
  destruct (app._parse_date _) as [date log].
  eexists _, _. split; [reflexivity|]. apply Hall. split_and!; by eexists.
Qed.

Lemma jsonDEPRE_parse_entry_cases self url entry :
  (∃ a log, jsonDEPRE.parse_entry self url entry = Ok (a, log) ∧
            has_fields entry entry_fields) ∨
  (jsonDEPRE.parse_entry self url entry = Raise AttributeError ∧
   ¬ has_fields entry entry_fields).
Proof.
  unfold jsonDEPRE.parse_entry, jsonDEPRE.stripped_text.
  generalize (has_fields_all entry).
  destruct (Bs4.find "title" entry);
    [|intros Hall; right; split; [done | by intros ([? ?] & _)%Hall]].
  destruct (Bs4.find "description" entry);
    [|intros Hall; right; split; [done | by intros (_ & [? ?] & _)%Hall]].
  destruct (Bs4.find "link" entry);
    [|intros Hall; right; split;
      [done | by intros (_ & _ & [? ?] & _)%Hall]].
  destruct (Bs4.find "pubDate" entry);
    [|intros Hall; right; split;
      [done | by intros (_ & _ & _ & [? ?])%Hall]].
  intros Hall.
  left. cbn [mbind result_bind Bs4.text_of].
  destruct (jsonDEPRE._parse_date _) as [date log].
  eexists _, _. split; [reflexivity|]. apply Hall. split_and!; by eexists.
Qed.

Lemma app_loop self url entries items log :
  for_in entries (app.fetch_entry self url) (items, log)
  = Ok ((items ++ omap (app_record self url) entries)%list,
        (log ++ flat_map (app_entry_log self url) entries)%list).
Proof.
  revert items log.
  induction entries as [|e entries IH]; intros items log.
  - simpl. by rewrite !app_nil_r.
  - rewrite for_in_cons, omap_cons_list, flat_map_cons_list.
    unfold app.fetch_entry, app_record at 1, app_entry_log at 1.
    destruct (app_parse_entry_cases self url e)
      as [(a & l & -> & _)|(-> & _)]; cbn [mbind result_bind option_list];
      rewrite IH; by rewrite <- ?app_assoc.
Qed.

Lemma jsonDEPRE_loop self url entries items log :
  for_in entries (jsonDEPRE.fetch_entry self url) (items, log)
  = Ok ((items ++ omap (jsonDEPRE_record self url) entries)%list,
        (log ++ flat_map (jsonDEPRE_entry_log self url) entries)%list).
Proof.
  revert items log.
  induction entries as [|e entries IH]; intros items log.
  - simpl. by rewrite !app_nil_r.
  - rewrite for_in_cons, omap_cons_list, flat_map_cons_list.
    unfold jsonDEPRE.fetch_entry, jsonDEPRE_record at 1, jsonDEPRE_entry_log at 1.
    destruct (jsonDEPRE_parse_entry_cases self url e)
      as [(a & l & -> & _)|(-> & _)]; cbn [mbind result_bind option_list];
      rewrite IH; by rewrite <- ?app_assoc.
Qed.

End FeedLoop.

(** The end-to-end example of the specification, on jsonCURR.py. *)
Example cyclone_hits_odisha :
  @jsonCURR._fetch_feed elements_order feed_world
    (jsonCURR.mk_scraper [] odisha_nlp {["odisha"]}) "feed"
  = Ok [jsonCURR.mk_article "Cyclone hits Odisha" "2023-10-10 08:00:00"
          "Officials began evacuation in Odisha state"
          "https://example.org/cyclone" ["odisha"] "feed"
          ["cyclone"; "evacuation"]].
Proof. by vm_compute. Qed.

(** C8, as stated, fails on check.py: the item without a title is not
    skipped; its title is read as the empty string and, its description
    naming a flood, it yields a record, so the batch of one well-formed
    item and one untitled item yields two records. *)
Lemma C8_counterexample_check_keeps_untitled :
  let out :=
    @check._fetch_feed elements_order mixed_world
      (check.mk_scraper [] odisha_nlp {["odisha"]}) "feed" in
  has_fields cyclone_entry entry_fields ∧
  Bs4.find "title" untitled_entry = None ∧
  length out = 2%nat ∧
  map check.title out = ["Cyclone hits Odisha"; ""].
Proof.
  split; [|split; [done|split; by vm_compute]].
  repeat constructor; by eexists.
Qed.

Section FeedTheorems.
Context `{O : PySetOrder} `{W : World}.

Lemma app_fetch_feed self url response :
  requests_get url = Ok response →
  Requests.status_ok response = true →
  app._fetch_feed self url
  = (Ok (omap (app_record self url) (Requests.items response)),
     flat_map (app_entry_log self url) (Requests.items response)).
Proof.
  intros Hget Hok. unfold app._fetch_feed, Requests.raise_for_status.
  rewrite Hget. cbn [mbind result_bind]. rewrite Hok.
  cbn [mbind result_bind]. by rewrite app_loop.
Qed.

Lemma jsonDEPRE_fetch_feed self url response :
  requests_get url = Ok response →
  Requests.status_ok response = true →
  jsonDEPRE._fetch_feed self url
  = (Ok (omap (jsonDEPRE_record self url) (Requests.items response)),
     flat_map (jsonDEPRE_entry_log self url) (Requests.items response)).
Proof.
  intros Hget Hok. unfold jsonDEPRE._fetch_feed, Requests.raise_for_status.
  rewrite Hget. cbn [mbind result_bind]. rewrite Hok.
  cbn [mbind result_bind]. by rewrite jsonDEPRE_loop.
Qed.

Lemma check_fetch_feed self url response :
  requests_get url = Ok response →
  Requests.status_ok response = true →
  check._fetch_feed self url
  = omap (check_record self url) (Requests.items response).
Proof.
  intros Hget Hok. unfold check._fetch_feed, Requests.raise_for_status.
  rewrite Hget. cbn [mbind result_bind]. rewrite Hok.
  cbn [mbind result_bind]. by rewrite check_loop.
Qed.

Lemma jsonCURR_fetch_feed self url response :
  requests_get url = Ok response →
  jsonCURR._fetch_feed self url
  = Ok (omap (jsonCURR_record self url) (Requests.items response)).
Proof.
  intros Hget. unfold jsonCURR._fetch_feed.
  rewrite Hget. cbn [mbind result_bind]. by rewrite jsonCURR_loop.
Qed.

Lemma app_record_complete self url entry :
  is_Some (app_record self url entry) ↔ has_fields entry entry_fields.
Proof.
  unfold app_record.
  destruct (app_parse_entry_cases self url entry)
    as [(a & l & -> & H)|(-> & H)].
  - split; [done | by eexists].
  - split; [by intros [? ?] | done].
Qed.

Lemma jsonDEPRE_record_complete self url entry :
  is_Some (jsonDEPRE_record self url entry) ↔ has_fields entry entry_fields.
Proof.
  unfold jsonDEPRE_record.
  destruct (jsonDEPRE_parse_entry_cases self url entry)
    as [(a & l & -> & H)|(-> & H)].
  - split; [done | by eexists].
  - split; [by intros [? ?] | done].
Qed.

Lemma app_entry_log_incomplete self url entry :
  ¬ has_fields entry entry_fields →
  app_entry_log self url entry
  = [Log WARNING ("Error parsing entry in " +:+ url)].
Proof.
  intros Hno. unfold app_entry_log.
  by destruct (app_parse_entry_cases self url entry)
    as [(a & l & -> & H)|(-> & H)].
Qed.

Lemma jsonDEPRE_entry_log_incomplete self url entry :
  ¬ has_fields entry entry_fields →
  jsonDEPRE_entry_log self url entry
  = [Log WARNING ("Error parsing entry in " +:+ url)].
Proof.
  intros Hno. unfold jsonDEPRE_entry_log.
  by destruct (jsonDEPRE_parse_entry_cases self url entry)
    as [(a & l & -> & H)|(-> & H)].
Qed.

Lemma untitled_incomplete (entry : Bs4.Item) :
  Bs4.find "title" entry = None → ¬ has_fields entry entry_fields.
Proof. intros Hno ([? ?] & _)%has_fields_all. congruence. Qed.

End FeedTheorems.

(** C8, amended: in app.py and jsonDEPRE.py the loop goes through the
    items in feed order and returns normally; an item yields a record
    exactly when it has a title, a description, a link and a pubDate, and
    an item lacking one of them is skipped with one warning in the log, so
    a batch of one complete item and one untitled item, in either order,
    yields exactly one record, that of the complete item.  In check.py no
    item is skipped for a missing field: the field is read as the empty
    string and the item is kept exactly when its text is
    disaster-related. *)
Theorem C8_feed_loop_incomplete_entries (O : PySetOrder) (W : World)
    (url : string) (response : Requests.Response)
    (sa : app.RSSNewsScraper) (sd : jsonDEPRE.RSSNewsScraper)
    (sc : check.DisasterRSSNewsScraper) :
  requests_get url = Ok response →
  Requests.status_ok response = true →
  let entries := Requests.items response in
  let warning := Log WARNING ("Error parsing entry in " +:+ url) in
  (app._fetch_feed sa url
   = (Ok (omap (app_record sa url) entries),
      flat_map (app_entry_log sa url) entries) ∧
   jsonDEPRE._fetch_feed sd url
   = (Ok (omap (jsonDEPRE_record sd url) entries),
      flat_map (jsonDEPRE_entry_log sd url) entries)) ∧
  (∀ entry,
     (is_Some (app_record sa url entry) ↔ has_fields entry entry_fields) ∧
     (is_Some (jsonDEPRE_record sd url entry)
      ↔ has_fields entry entry_fields)) ∧
  (∀ entry, ¬ has_fields entry entry_fields →
     app_entry_log sa url entry = [warning] ∧
     jsonDEPRE_entry_log sd url entry = [warning]) ∧
  (∀ good bad,
     entries = [good; bad] ∨ entries = [bad; good] →
     has_fields good entry_fields → Bs4.find "title" bad = None →
     (∃ a log, app._fetch_feed sa url = (Ok [a], log) ∧
               app_record sa url good = Some a ∧ warning ∈ log) ∧
     (∃ a log, jsonDEPRE._fetch_feed sd url = (Ok [a], log) ∧
               jsonDEPRE_record sd url good = Some a ∧ warning ∈ log)) ∧
  (check._fetch_feed sc url = omap (check_record sc url) entries ∧
   (∀ entry, is_Some (check_record sc url entry)
             ↔ check._is_disaster_related (combined_text entry) = true) ∧
   (∀ entry a, Bs4.find "title" entry = None →
               check_record sc url entry = Some a → check.title a = "")).
Proof.
  intros Hget Hok entries warning.
  pose proof (app_fetch_feed sa url response Hget Hok) as Ha.
  pose proof (jsonDEPRE_fetch_feed sd url response Hget Hok) as Hd.
  split; [done|]. split.
  { intros entry.
    split; [apply app_record_complete | apply jsonDEPRE_record_complete]. }
  split.
  { intros entry Hno. split;
      [by apply app_entry_log_incomplete
      |by apply jsonDEPRE_entry_log_incomplete]. }
  split.
  { intros good bad Hbatch Hgood Hbad%untitled_incomplete.
    destruct (proj2 (app_record_complete sa url good) Hgood) as [a Hra].
    destruct (proj2 (jsonDEPRE_record_complete sd url good) Hgood)
      as [a' Hra'].
    assert (app_record sa url bad = None) as Hrb.
    { apply eq_None_not_Some. by rewrite app_record_complete. }
    assert (jsonDEPRE_record sd url bad = None) as Hrb'.
    { apply eq_None_not_Some. by rewrite jsonDEPRE_record_complete. }
    pose proof (app_entry_log_incomplete sa url bad Hbad) as Hl.
    pose proof (jsonDEPRE_entry_log_incomplete sd url bad Hbad) as Hl'.
    fold entries in Ha, Hd. rewrite Ha, Hd.
    split.
    - exists a. eexists. split; [|split; [done|]].
      + f_equal. destruct Hbatch as [-> | ->]; simpl; by rewrite Hra, Hrb.
      + destruct Hbatch as [-> | ->]; simpl; rewrite Hl; set_solver.
    - exists a'. eexists. split; [|split; [done|]].
      + f_equal. destruct Hbatch as [-> | ->]; simpl; by rewrite Hra', Hrb'.
      + destruct Hbatch as [-> | ->]; simpl; rewrite Hl'; set_solver. }
  split; [by apply check_fetch_feed|]. split.
  - intros entry. apply check_record_relevant.
  - intros entry a Hno [Ht _]%check_record_fields.
    rewrite Ht. unfold check.field_or_empty. by rewrite Hno.
Qed.

Lemma C8_feed_loop_incomplete_entries_witness :
  let sa := app.mk_scraper [] odisha_nlp {["odisha"]} in
  @requests_get mixed_world "feed"
  = Ok (Requests.mk_response true [cyclone_entry; untitled_entry]) ∧
  (∃ a log, @app._fetch_feed elements_order mixed_world sa "feed"
            = (Ok [a], log) ∧
            @app_record elements_order sa "feed" cyclone_entry = Some a ∧
            Log WARNING "Error parsing entry in feed" ∈ log).
Proof.
  intros sa. split; [reflexivity|].
  destruct (C8_feed_loop_incomplete_entries elements_order mixed_world "feed"
              (Requests.mk_response true [cyclone_entry; untitled_entry])
              sa (jsonDEPRE.mk_scraper [] odisha_nlp ∅)
              (check.mk_scraper [] odisha_nlp ∅) eq_refl eq_refl)
    as (_ & _ & _ & Hbatch & _).
  refine (proj1 (Hbatch cyclone_entry untitled_entry (or_introl eq_refl) _
                   eq_refl)).
  repeat constructor; by eexists.
Defined.

(** C9: in jsonCURR.py and check.py, where the disaster filter is in the
    loop, the output is the records of the items in feed order; an item
    whose title-plus-description text is not disaster-related yields no
    record; and an item whose fields are all there (any item, in check.py,
    which reads an absent field as empty) yields a record exactly when
    some keyword of the vocabulary occurs in that text. *)
Theorem C9_only_relevant_entries_recorded (O : PySetOrder) (W : World)
    (url : string) (response : Requests.Response)
    (sj : jsonCURR.DisasterRSSNewsScraper)
    (sc : check.DisasterRSSNewsScraper) :
  requests_get url = Ok response →
  let entries := Requests.items response in
  (jsonCURR._fetch_feed sj url
   = Ok (omap (jsonCURR_record sj url) entries) ∧
   (∀ entry, jsonCURR._is_disaster_related (combined_text entry) = false →
             jsonCURR_record sj url entry = None) ∧
   (∀ entry, has_fields entry entry_fields →
             (is_Some (jsonCURR_record sj url entry)
              ↔ keyword_matches jsonCURR.DISASTER_KEYWORDS
                  (combined_text entry)))) ∧
  ((Requests.status_ok response = true →
    check._fetch_feed sc url = omap (check_record sc url) entries) ∧
   (∀ entry, check._is_disaster_related (combined_text entry) = false →
             check_record sc url entry = None) ∧
   (∀ entry, is_Some (check_record sc url entry)
             ↔ keyword_matches check.DISASTER_KEYWORDS
                 (combined_text entry))).
Proof.
  intros Hget entries. split; split_and!.
  - by apply jsonCURR_fetch_feed.
  - intros entry Hrel. unfold jsonCURR_record.
    destruct (jsonCURR_parse_entry_cases sj url entry)
      as [(a & -> & _ & Hr & _)|[(-> & _)|(-> & _)]]; [congruence|done..].
  - intros entry Hall.
    rewrite <- (relevant_iff_keyword _ _ jsonCURR_keywords_lower).
    unfold jsonCURR_record.
    destruct (jsonCURR_parse_entry_cases sj url entry)
      as [(a & -> & _ & Hr & _)|[(-> & _ & Hr)|(-> & Hno)]].
    + split; [done | by eexists].
    + split; [by intros [? ?]|]. unfold jsonCURR._is_disaster_related in Hr.
      congruence.
    + done.
  - intros Hok. by apply check_fetch_feed.
  - intros entry Hrel. apply eq_None_not_Some.
    rewrite check_record_relevant. congruence.
  - intros entry.
    rewrite <- (relevant_iff_keyword _ _ check_keywords_lower).
    apply check_record_relevant.
Qed.

Lemma C9_only_relevant_entries_recorded_witness :
  let sj := jsonCURR.mk_scraper [] odisha_nlp {["odisha"]} in
  @requests_get feed_world "feed" = Ok sample_feed ∧
  @jsonCURR._fetch_feed elements_order feed_world sj "feed"
  = Ok (omap (@jsonCURR_record elements_order sj "feed")
          [cyclone_entry; untitled_entry; bakery_entry]) ∧
  @jsonCURR_record elements_order sj "feed" bakery_entry = None.
Proof.
  intros sj. split; [reflexivity|].
  destruct (C9_only_relevant_entries_recorded elements_order feed_world "feed"
              sample_feed sj (check.mk_scraper [] odisha_nlp ∅) eq_refl)
    as ((Hfeed & Hnone & _) & _).
  split; [exact Hfeed|]. apply Hnone. reflexivity.
Defined.

(** * Further properties

    Properties of the functions around those above: the resolver of
    app.py, the constructors, the error paths of the loaders and of the
    feed loops, the records, the runs over several feeds, and [main] of
    jsonDEPRE.py. *)

(** ** The resolver of app.py and the resolvers after the loaders *)

Section MoreResolver.
Context `{O : PySetOrder}.

Lemma ner_locations_spec nlp text x :
  x ∈ ner_locations nlp text ↔ named_in nlp text x.
Proof.
  unfold ner_locations, named_in.
  rewrite elem_of_list_to_set, list_elem_of_In, in_map_iff. split.
  - intros (ent & <- & [Hin Hl]%filter_In). exists ent.
    split; [by apply list_elem_of_In|]. split; [|done].
    by apply String.eqb_eq.
  - intros (ent & Hin & Hl & ->). exists ent. split; [done|].
    apply filter_In. split; [by apply list_elem_of_In|].
    by apply String.eqb_eq.
Qed.

Lemma lower_join (sep : string) (l : list string) :
  PyStr.lower sep = sep → Forall (fun x => PyStr.lower x = x) l →
  PyStr.lower (PyStr.join sep l) = PyStr.join sep l.
Proof.
  intros Hsep. induction 1 as [|x l Hx Hl IH]; [done|].
  destruct l as [|y l]; [done|].
  change (PyStr.join sep (x :: y :: l))
    with (x +:+ sep +:+ PyStr.join sep (y :: l)).
  by rewrite !lower_app, Hx, Hsep, IH.
Qed.

Lemma matches_lower (G : gset string) nlp text :
  Forall (fun x => PyStr.lower x = x)
    (list_of_set (G ∩ ner_locations nlp text)).
Proof.
  apply Forall_forall. intros x Hx%list_of_set_elem.
  apply elem_of_intersection in Hx as [_ [s ->]%ner_locations_lower].
  apply lower_idemp.
Qed.

Lemma list_of_set_singleton (x : string) : list_of_set {[x]} = [x].
Proof.
  apply Permutation_singleton_r.
  by rewrite (list_of_set_perm {[x]}), elements_singleton.
Qed.

(** What the resolver of jsonCURR.py returns, member by member. *)
Lemma jsonCURR_resolver_elem (self : jsonCURR.DisasterRSSNewsScraper)
    text x :
  x ∈ jsonCURR._extract_locations self text
  ↔ x ∈ jsonCURR.cities self ∩ ner_locations (jsonCURR.nlp self) text ∨
    (x = "Unknown" ∧
     jsonCURR.cities self ∩ ner_locations (jsonCURR.nlp self) text = ∅).
Proof.
  unfold jsonCURR._extract_locations. cbv zeta.
  rewrite jsonCURR_all_matches.
  set (X := jsonCURR.cities self ∩ ner_locations (jsonCURR.nlp self) text).
  destruct (list_of_set X) as [|y l] eqn:Hl.
  - apply list_of_set_nil in Hl. rewrite Hl, list_elem_of_singleton. split.
    + intros ->. by right.
    + intros [H%elem_of_empty | [-> _]]; done.
  - rewrite <- Hl, list_of_set_elem. split; [by left|].
    intros [H | [_ HX]]; [done|].
    apply list_of_set_nil in HX. congruence.
Qed.

Lemma check_resolver_elem (self : check.DisasterRSSNewsScraper) text x :
  x ∈ check._extract_locations self text
  ↔ x ∈ check.cities self ∩ ner_locations (check.nlp self) text ∨
    (x = "Unknown" ∧
     check.cities self ∩ ner_locations (check.nlp self) text = ∅).
Proof.
  unfold check._extract_locations. cbv zeta.
  set (X := check.cities self ∩ ner_locations (check.nlp self) text).
  destruct (decide (X = ∅)) as [He|Hne].
  - rewrite He, list_elem_of_singleton. split.
    + intros ->. by right.
    + intros [H%elem_of_empty | [-> _]]; done.
  - rewrite list_of_set_elem. split; [by left|].
    intros [H | [_ HX]]; done.
Qed.

End MoreResolver.

(** X1: the resolver of app.py returns the string "Unknown" exactly when
    the gazetteer and the lower-cased GPE entities of the text share no
    member; otherwise it returns the matches joined by a comma and a
    space, in the order of the enumeration, a string that lower-casing
    leaves alone; with a single match it returns that name. *)
Theorem X1_app_resolver_unknown_iff_no_match (O : PySetOrder)
    (feeds : list string) (nlp : Spacy.Language) (G : gset string)
    (text : string) :
  let C := ner_locations nlp text in
  let r := app._extract_locations (app.mk_scraper feeds nlp G) text in
  (r = "Unknown" ↔ G ∩ C = ∅) ∧
  (G ∩ C ≠ ∅ →
   r = PyStr.join ", " (list_of_set (G ∩ C)) ∧ PyStr.lower r = r) ∧
  (∀ x, G ∩ C = {[x]} → r = x).
Proof.
  intros C r. unfold r, app._extract_locations. cbv zeta. simpl. fold C.
  destruct (decide (G ∩ C = ∅)) as [He|Hne].
  - split; [done|]. split; [done|]. intros x Hx. rewrite Hx in He.
    exfalso. apply (not_elem_of_empty (C:=gset string) x).
    rewrite <- He. by apply elem_of_singleton.
  - assert (PyStr.lower (PyStr.join ", " (list_of_set (G ∩ C)))
            = PyStr.join ", " (list_of_set (G ∩ C))) as Hlow
      by (apply lower_join; [done | apply matches_lower]).
    split; [|split].
    + split; [|done]. intros Hr. exfalso.
      rewrite Hr in Hlow. by apply (lower_not_Unknown "Unknown").
    + done.
    + intros x ->. by rewrite list_of_set_singleton.
Qed.

(** X2: after the constructor of jsonCURR.py has loaded a table whose
    City and State columns hold text, a name other than "Unknown" is among
    the locations of a text exactly when it is the trimmed, lower-cased
    value of a cell of those columns and the lower-cased text of a GPE
    entity the language model finds; after the constructor of check.py the
    same holds with the columns name, country and subcountry and cells
    lower-cased without trimming. *)
Theorem X2_locations_are_cells_named_in_text (O : PySetOrder) (W : World)
    (feeds : list string) (path : string) (df : Pandas.DataFrame) :
  file_at path = Pandas.Csv df →
  (text_columns df ["City"; "State"] →
   ∃ self, jsonCURR.__init__ feeds path = Ok self ∧
     ∀ text x, x ≠ "Unknown" →
       (x ∈ jsonCURR._extract_locations self text
        ↔ cell_of (fun v => PyStr.lower (PyStr.strip v)) df
            ["City"; "State"] x ∧
          named_in (spacy_load "en_core_web_sm") text x)) ∧
  (text_columns df ["name"; "country"; "subcountry"] →
   ∀ text x, x ≠ "Unknown" →
     (x ∈ check._extract_locations (check.__init__ feeds path) text
      ↔ cell_of PyStr.lower df ["name"; "country"; "subcountry"] x ∧
        named_in (spacy_load "en_core_web_sm") text x)).
Proof.
  intros Hf. split.
  - intros Ht. destruct (jsonCURR_load_cities path df Hf Ht) as (G & HG & Hspec).
    exists (jsonCURR.mk_scraper feeds (spacy_load "en_core_web_sm") G).
    split; [unfold jsonCURR.__init__; by rewrite HG|].
    intros text x Hx. rewrite jsonCURR_resolver_elem. simpl.
    rewrite elem_of_intersection, ner_locations_spec, (Hspec x).
    unfold cell_of. split; [|by left]. by intros [H | [-> _]].
  - intros Ht text x Hx. pose proof (check_load_cities path df Hf Ht) as Hspec.
    rewrite check_resolver_elem. simpl.
    rewrite elem_of_intersection, ner_locations_spec, (Hspec x).
    unfold cell_of. split; [|by left]. by intros [H | [-> _]].
Qed.

Lemma X2_locations_are_cells_named_in_text_witness :
  @file_at sample_world "states.csv" = Pandas.Csv sample_table ∧
  ∃ self, @jsonCURR.__init__ sample_world [] "states.csv" = Ok self ∧
    ("mumbai" ∈ @jsonCURR._extract_locations elements_order self "text"
     ↔ cell_of (fun v => PyStr.lower (PyStr.strip v)) sample_table
         ["City"; "State"] "mumbai" ∧
       named_in (@spacy_load sample_world "en_core_web_sm") "text" "mumbai").
Proof.
  split; [reflexivity|].
  destruct (X2_locations_are_cells_named_in_text elements_order sample_world
              [] "states.csv" sample_table eq_refl) as [Hcurr _].
  destruct Hcurr as (self & Hinit & Hloc).
  { apply text_columns_Forall. repeat constructor; vm_compute; discriminate. }
  exists self. split; [exact Hinit|]. by apply Hloc.
Defined.

(** ** More on the loaders *)

Section MoreGazetteer.
Context `{W : World}.

Lemma lookup_no_table (col : string) :
  (∅ : Pandas.DataFrame) !! col = None.
Proof. reflexivity. Qed.

Lemma same_columns_two df1 df2 c1 c2 :
  same_columns df1 df2 [c1; c2] →
  df1 !! c1 = df2 !! c1 ∧ df1 !! c2 = df2 !! c2.
Proof.
  unfold same_columns. rewrite !Forall_cons. tauto.
Qed.

Lemma same_columns_three df1 df2 c1 c2 c3 :
  same_columns df1 df2 [c1; c2; c3] →
  df1 !! c1 = df2 !! c1 ∧ df1 !! c2 = df2 !! c2 ∧ df1 !! c3 = df2 !! c3.
Proof.
  unfold same_columns. rewrite !Forall_cons. tauto.
Qed.

Lemma check_load_column_ext df1 df2 cities col :
  df1 !! col = df2 !! col →
  check.load_column df1 cities col = check.load_column df2 cities col.
Proof. unfold check.load_column. by intros ->. Qed.

Lemma jsonCURR_load_column_ext df1 df2 cities col :
  df1 !! col = df2 !! col →
  jsonCURR.load_column df1 cities col = jsonCURR.load_column df2 cities col.
Proof. unfold jsonCURR.load_column. by intros ->. Qed.

Lemma check_load_column_other df cities col :
  df !! col = Some Pandas.OtherSeries →
  check.load_column df cities col = Raise AttributeError.
Proof. unfold check.load_column. by intros ->. Qed.

Lemma jsonCURR_load_column_other df cities col :
  df !! col = Some Pandas.OtherSeries →
  jsonCURR.load_column df cities col = Raise AttributeError.
Proof. unfold jsonCURR.load_column. by intros ->. Qed.

(** A column is loaded, or [.str] raises [AttributeError]. *)
Lemma check_load_column_cases df cities col :
  (∃ cities', check.load_column df cities col = Ok cities') ∨
  check.load_column df cities col = Raise AttributeError.
Proof.
  unfold check.load_column.
  destruct (df !! col) as [[values|]|]; [left|right|left]; by eexists.
Qed.

Lemma jsonCURR_load_column_cases df cities col :
  (∃ cities', jsonCURR.load_column df cities col = Ok cities') ∨
  jsonCURR.load_column df cities col = Raise AttributeError.
Proof.
  unfold jsonCURR.load_column.
  destruct (df !! col) as [[values|]|]; [left|right|left]; by eexists.
Qed.

Lemma check_load_column_absent df cities col :
  df !! col = None → check.load_column df cities col = Ok cities.
Proof. unfold check.load_column. by intros ->. Qed.

Lemma jsonCURR_load_column_absent df cities col :
  df !! col = None → jsonCURR.load_column df cities col = Ok cities.
Proof. unfold jsonCURR.load_column. by intros ->. Qed.

(** The three columns of check.py and jsonDEPRE.py, one after the other,
    when one of them holds no text. *)
Lemma check_columns_other df :
  other_column df ["name"; "country"; "subcountry"] →
  for_in ["name"; "country"; "subcountry"] (check.load_column df) ∅
  = Raise AttributeError.
Proof.
  unfold other_column. rewrite !Exists_cons, Exists_nil.
  intros [H1 | [H2 | [H3 | []]]]; rewrite for_in_cons.
  - by rewrite check_load_column_other.
  - destruct (check_load_column_cases df ∅ "name") as [[c1 ->] | ->];
      [|done].
    cbn [mbind result_bind]. rewrite for_in_cons.
    by rewrite check_load_column_other.
  - destruct (check_load_column_cases df ∅ "name") as [[c1 ->] | ->];
      [|done].
    cbn [mbind result_bind]. rewrite for_in_cons.
    destruct (check_load_column_cases df c1 "country") as [[c2 ->] | ->];
      [|done].
    cbn [mbind result_bind]. rewrite for_in_cons.
    by rewrite check_load_column_other.
Qed.

End MoreGazetteer.

(** X3: a gazetteer depends on the recognised columns only: two tables
    that agree on them give the same gazetteer, whatever their other
    columns, and a table with none of them gives the empty gazetteer
    (jsonCURR.py: City, State; app.py: name, subcountry; check.py and
    jsonDEPRE.py: name, country, subcountry). *)
Theorem X3_gazetteer_reads_recognised_columns_only (W : World)
    (p1 p2 : string) (df1 df2 : Pandas.DataFrame) :
  file_at p1 = Pandas.Csv df1 → file_at p2 = Pandas.Csv df2 →
  (same_columns df1 df2 ["City"; "State"] →
   jsonCURR._load_cities p1 = jsonCURR._load_cities p2) ∧
  (same_columns df1 df2 ["name"; "subcountry"] →
   (app._load_cities p1).1 = (app._load_cities p2).1) ∧
  (same_columns df1 df2 ["name"; "country"; "subcountry"] →
   check._load_cities p1 = check._load_cities p2 ∧
   (jsonDEPRE._load_cities p1).1 = (jsonDEPRE._load_cities p2).1) ∧
  (same_columns df1 ∅ ["City"; "State"] →
   jsonCURR._load_cities p1 = Ok ∅) ∧
  (same_columns df1 ∅ ["name"; "subcountry"] →
   (app._load_cities p1).1 = ∅) ∧
  (same_columns df1 ∅ ["name"; "country"; "subcountry"] →
   check._load_cities p1 = ∅ ∧ (jsonDEPRE._load_cities p1).1 = ∅).
Proof.
  intros Hf1 Hf2. split_and!.
  - intros [H1 H2]%same_columns_two. unfold jsonCURR._load_cities.
    rewrite Hf1, Hf2. cbn [Pandas.read_csv mbind result_bind].
    rewrite (jsonCURR_load_column_ext df1 df2 _ _ H1).
    destruct (jsonCURR.load_column df2 ∅ "City"); [|done].
    cbn [mbind result_bind].
    by rewrite (jsonCURR_load_column_ext df1 df2 _ _ H2).
  - intros [H1 H2]%same_columns_two. unfold app._load_cities.
    rewrite Hf1, Hf2. cbn [Pandas.read_csv mbind result_bind].
    change app.load_column with check.load_column.
    rewrite (check_load_column_ext df1 df2 _ _ H1).
    destruct (check.load_column df2 ∅ "name"); [|done].
    cbn [mbind result_bind].
    rewrite (check_load_column_ext df1 df2 _ _ H2).
    by destruct (check.load_column df2 _ "subcountry").
  - intros (H1 & H2 & H3)%same_columns_three.
    assert (for_in ["name"; "country"; "subcountry"]
              (check.load_column df1) ∅
            = for_in ["name"; "country"; "subcountry"]
                (check.load_column df2) ∅) as Hloop.
    { rewrite !(for_in_cons "name").
      rewrite (check_load_column_ext df1 df2 _ _ H1).
      destruct (check.load_column df2 ∅ "name"); [|done].
      cbn [mbind result_bind]. rewrite !(for_in_cons "country").
      rewrite (check_load_column_ext df1 df2 _ _ H2).
      destruct (check.load_column df2 _ "country"); [|done].
      cbn [mbind result_bind]. rewrite !(for_in_cons "subcountry").
      by rewrite (check_load_column_ext df1 df2 _ _ H3). }
    split.
    + unfold check._load_cities. rewrite Hf1, Hf2.
      cbn [Pandas.read_csv mbind result_bind]. by rewrite Hloop.
    + unfold jsonDEPRE._load_cities. rewrite Hf1, Hf2.
      cbn [Pandas.read_csv]. unfold jsonDEPRE.required_columns.
      change jsonDEPRE.load_column with check.load_column. rewrite Hloop.
      by destruct (for_in _ (check.load_column df2) ∅).
  - intros [H1 H2]%same_columns_two.
    rewrite lookup_no_table in H1, H2.
    unfold jsonCURR._load_cities. rewrite Hf1.
    cbn [Pandas.read_csv mbind result_bind].
    rewrite (jsonCURR_load_column_absent _ _ _ H1).
    cbn [mbind result_bind].
    by rewrite (jsonCURR_load_column_absent _ _ _ H2).
  - intros [H1 H2]%same_columns_two.
    rewrite lookup_no_table in H1, H2.
    unfold app._load_cities. rewrite Hf1.
    cbn [Pandas.read_csv mbind result_bind].
    change app.load_column with check.load_column.
    rewrite (check_load_column_absent _ _ _ H1). cbn [mbind result_bind].
    by rewrite (check_load_column_absent _ _ _ H2).
  - intros (H1 & H2 & H3)%same_columns_three.
    rewrite lookup_no_table in H1, H2, H3.
    assert (for_in ["name"; "country"; "subcountry"]
              (check.load_column df1) ∅ = Ok ∅) as Hloop.
    { rewrite for_in_cons.
      rewrite (check_load_column_absent _ _ _ H1). cbn [mbind result_bind].
      rewrite for_in_cons.
      rewrite (check_load_column_absent _ _ _ H2). cbn [mbind result_bind].
      rewrite for_in_cons.
      by rewrite (check_load_column_absent _ _ _ H3). }
    split.
    + unfold check._load_cities. rewrite Hf1.
      cbn [Pandas.read_csv mbind result_bind]. by rewrite Hloop.
    + unfold jsonDEPRE._load_cities. rewrite Hf1.
      cbn [Pandas.read_csv]. unfold jsonDEPRE.required_columns.
      change jsonDEPRE.load_column with check.load_column.
      by rewrite Hloop.
Qed.

Lemma X3_gazetteer_reads_recognised_columns_only_witness :
  let df1 : Pandas.DataFrame :=
    <["City" := Pandas.TextSeries [Some " Mumbai "; None]]> ∅ in
  let df2 : Pandas.DataFrame :=
    <["Population" := Pandas.OtherSeries]> df1 in
  let W : World :=
    {| file_at := fun p =>
         if String.eqb p "a.csv" then Pandas.Csv df1 else Pandas.Csv df2;
       requests_get := fun _ => Raise RequestException;
       spacy_load := fun _ => no_entities |} in
  same_columns df1 df2 ["City"; "State"] ∧
  @jsonCURR._load_cities W "a.csv" = @jsonCURR._load_cities W "b.csv".
Proof.
  intros df1 df2 W.
  assert (same_columns df1 df2 ["City"; "State"]) as Hsame
    by (repeat constructor).
  split; [exact Hsame|].
  exact (proj1 (X3_gazetteer_reads_recognised_columns_only W
                  "a.csv" "b.csv" df1 df2 eq_refl eq_refl) Hsame).
Defined.

(** X4: when a recognised column of the table is there but holds no
    text, [.str] raises: check.py, app.py and jsonDEPRE.py then return the
    empty gazetteer, dropping what the other columns gave (app.py and
    jsonDEPRE.py log an error), and jsonCURR.py lets the
    [AttributeError] reach the caller of [_load_cities] and of the
    constructor. *)
Theorem X4_column_without_text (W : World) (feeds : list string)
    (path : string) (df : Pandas.DataFrame) :
  file_at path = Pandas.Csv df →
  (other_column df ["name"; "country"; "subcountry"] →
   check._load_cities path = ∅ ∧
   (jsonDEPRE._load_cities path).1 = ∅ ∧
   Log ERROR "Error loading cities file" ∈ (jsonDEPRE._load_cities path).2) ∧
  (other_column df ["name"; "subcountry"] →
   app._load_cities path = (∅, [Log ERROR "Error loading cities file"])) ∧
  (other_column df ["City"; "State"] →
   jsonCURR._load_cities path = Raise AttributeError ∧
   jsonCURR.__init__ feeds path = Raise AttributeError).
Proof.
  intros Hf. split_and!.
  - intros Hloop%check_columns_other. split_and!.
    + unfold check._load_cities. rewrite Hf.
      cbn [Pandas.read_csv mbind result_bind]. by rewrite Hloop.
    + unfold jsonDEPRE._load_cities. rewrite Hf.
      cbn [Pandas.read_csv]. unfold jsonDEPRE.required_columns.
      change jsonDEPRE.load_column with check.load_column.
      by rewrite Hloop.
    + unfold jsonDEPRE._load_cities. rewrite Hf.
      cbn [Pandas.read_csv]. unfold jsonDEPRE.required_columns.
      change jsonDEPRE.load_column with check.load_column.
      rewrite Hloop. cbn [snd]. rewrite elem_of_app, list_elem_of_singleton.
      by right.
  - unfold other_column. rewrite !Exists_cons, Exists_nil.
    unfold app._load_cities. rewrite Hf.
    cbn [Pandas.read_csv mbind result_bind].
    change app.load_column with check.load_column.
    intros [H1 | [H2 | []]].
    + by rewrite check_load_column_other.
    + destruct (check_load_column_cases df ∅ "name") as [[c1 ->] | ->];
        [|done].
      cbn [mbind result_bind]. by rewrite check_load_column_other.
  - unfold other_column. rewrite !Exists_cons, Exists_nil.
    intros Hex.
    assert (jsonCURR._load_cities path = Raise AttributeError) as Hload.
    { unfold jsonCURR._load_cities. rewrite Hf.
      cbn [Pandas.read_csv mbind result_bind].
      destruct Hex as [H1 | [H2 | []]].
      - by rewrite jsonCURR_load_column_other.
      - destruct (jsonCURR_load_column_cases df ∅ "City")
          as [[c1 ->] | ->]; [|done].
        cbn [mbind result_bind]. by rewrite jsonCURR_load_column_other. }
    split; [done|]. unfold jsonCURR.__init__. by rewrite Hload.
Qed.

Lemma X4_column_without_text_witness :
  let df : Pandas.DataFrame :=
    <["name" := Pandas.TextSeries [Some "Paris"]]>
    (<["subcountry" := Pandas.OtherSeries]> ∅) in
  let W := world_with (Pandas.Csv df) (Raise RequestException) no_entities in
  other_column df ["name"; "subcountry"] ∧
  @app._load_cities W "world-cities.csv"
  = (∅, [Log ERROR "Error loading cities file"]).
Proof.
  intros df W.
  assert (other_column df ["name"; "subcountry"]) as Hother
    by (apply Exists_cons_tl, Exists_cons_hd; reflexivity).
  split; [exact Hother|].
  destruct (X4_column_without_text W [] "world-cities.csv" df eq_refl)
    as (_ & Happ & _).
  exact (Happ Hother).
Defined.

(** X5: jsonCURR.py has no [try] around its loader: when the reference
    file is missing, unreadable or empty, the exception of [read_csv]
    leaves [_load_cities] and the constructor, and no scraper is built. *)
Theorem X5_jsonCURR_loader_propagates (W : World) (feeds : list string)
    (path : string) :
  unusable (file_at path) →
  ∃ e, Pandas.read_csv (file_at path) = Raise e ∧
       jsonCURR._load_cities path = Raise e ∧
       jsonCURR.__init__ feeds path = Raise e ∧
       (file_at path = Pandas.NoFile → e = FileNotFoundError).
Proof.
  intros Hf. unfold jsonCURR.__init__, jsonCURR._load_cities.
  destruct Hf as [-> | [-> | ->]]; eexists; by split_and!.
Qed.

Lemma X5_jsonCURR_loader_propagates_witness :
  let W := world_with Pandas.NoFile (Raise RequestException) no_entities in
  unusable (@file_at W "states.csv") ∧
  @jsonCURR.__init__ W [] "states.csv" = Raise FileNotFoundError.
Proof.
  intros W.
  assert (unusable (@file_at W "states.csv")) as Hf by (by left).
  split; [exact Hf|].
  destruct (X5_jsonCURR_loader_propagates W [] "states.csv" Hf)
    as (e & _ & _ & Hinit & He).
  rewrite Hinit. f_equal. by apply He.
Defined.

(** ** More on the date normaliser *)

Section MoreDates.
Import PyStr PyDatetime.
Local Open Scope Z_scope.

Ltac next_directive L :=
  rewrite match_format_cons; rewrite L;
  [rewrite bind_Ok; cbv beta iota;
   cbn [tm_year tm_month tm_day tm_hour tm_minute tm_second tm_weekday
        tm_gmtoff]
  |..].

(** The directives read back every date that fits the widths of the
    format, whether or not it denotes a date. *)
Lemma match_format_printable wd d mo y h mi s west oh om :
  printable_fields wd d mo y h mi s oh om →
  match_format RSS_FORMAT (rfc822_date wd d mo y h mi s west oh om) tm_init
  = Ok (mk_tm (Some y) mo d h mi s (Some (Z.of_nat wd))
          (Some ((if west then -1 else 1)
                 * ((oh * 3600 + om * 60) * 1000000))), "").
Proof.
  intros (Hwd & Hy & Hmo & Hd & Hh & Hmi & Hs & Hoh & Hom).
  unfold RSS_FORMAT, rfc822_date.
  rewrite !append_cons, !append_nil.
  next_directive directive_a; [|done].
  next_directive directive_literal.
  next_directive directive_whitespace; [|apply starts_clean_fmt_02d; lia].
  next_directive directive_d; [|done].
  next_directive directive_whitespace; [|by apply starts_clean_month].
  next_directive directive_b; [|done].
  next_directive directive_whitespace; [|by apply starts_clean_fmt_04d].
  next_directive directive_Y; [|done].
  next_directive directive_whitespace; [|apply starts_clean_fmt_02d; lia].
  next_directive directive_H; [|done].
  next_directive directive_literal.
  next_directive directive_M; [|done].
  next_directive directive_literal.
  next_directive directive_S; [|done].
  next_directive directive_whitespace; [|by destruct west].
  next_directive directive_z; [|done|done].
  reflexivity.
Qed.

Lemma rfc822_clean wd d mo y h mi s west oh om :
  printable_fields wd d mo y h mi s oh om →
  starts_clean (rfc822_date wd d mo y h mi s west oh om) ∧
  ends_clean (rfc822_date wd d mo y h mi s west oh om).
Proof.
  intros (Hwd & Hy & Hmo & Hd & Hh & Hmi & Hs & Hoh & Hom). split.
  - by apply starts_clean_weekday.
  - unfold rfc822_date. do 16 apply ends_clean_app.
    apply ends_clean_fmt_02d. lia.
Qed.

Lemma strip_clean (s : string) :
  starts_clean s → ends_clean s → strip s = s.
Proof.
  intros Hs [He _]. unfold strip. by rewrite lstrip_clean.
Qed.

Lemma blank_cons c (ws : string) :
  blank (String c ws) ↔ isspace c = true ∧ blank ws.
Proof.
  unfold blank. simpl. destruct (isspace c); [tauto|].
  split; [done | by intros [? _]].
Qed.

Lemma lstrip_blank_app (ws t : string) :
  blank ws → lstrip (ws +:+ t) = lstrip t.
Proof.
  induction ws as [|c ws IH]; [done|].
  intros [Hc Hws]%blank_cons. rewrite append_cons. simpl. rewrite Hc. auto.
Qed.

Lemma rstrip_blank (ws : string) : blank ws → rstrip ws = "".
Proof.
  induction ws as [|c ws IH]; [done|].
  intros [Hc Hws]%blank_cons. simpl. by rewrite IH, Hc.
Qed.

Lemma rstrip_app_blank (s ws : string) :
  blank ws → rstrip (s +:+ ws) = rstrip s.
Proof.
  intros Hws. induction s as [|c s IH].
  - rewrite append_nil. by apply rstrip_blank.
  - rewrite append_cons. simpl. by rewrite IH.
Qed.

(** Blanks around a clean string are what [strip] takes away. *)
Lemma strip_blanks_around (ws1 s ws2 : string) :
  blank ws1 → blank ws2 → starts_clean s → ends_clean s →
  strip (ws1 +:+ s +:+ ws2) = s.
Proof.
  intros H1 H2 Hs [He Hne]. unfold strip.
  rewrite lstrip_blank_app by done.
  rewrite lstrip_clean.
  - by rewrite rstrip_app_blank.
  - destruct s as [|c s]; [done|]. by rewrite append_cons.
Qed.

Lemma new_datetime_inv y mo d h mi s tz dt :
  new_datetime y mo d h mi s tz = Ok dt →
  datetime_fields y mo d h mi s ∧ dt = mk_datetime y mo d h mi s tz.
Proof.
  unfold new_datetime, datetime_fields.
  destruct (_ && _) eqn:Hb; [|done]. intros [= <-].
  rewrite !andb_true_iff in Hb. split; [lia | done].
Qed.

Lemma new_datetime_raise y mo d h mi s tz e :
  new_datetime y mo d h mi s tz = Raise e → e = ValueError.
Proof.
  unfold new_datetime.
  destruct ((1 <=? y) && (y <=? 9999) && (1 <=? mo) && (mo <=? 12) &&
            (1 <=? d) && (d <=? days_in_month y mo) &&
            (0 <=? h) && (h <=? 23) && (0 <=? mi) && (mi <=? 59) &&
            (0 <=? s) && (s <=? 59)); [done|]. by intros [= <-].
Qed.

Lemma strptime_inv str fmt dt :
  strptime str fmt = Ok dt →
  datetime_fields (year dt) (month dt) (day dt)
    (hour dt) (minute dt) (second dt).
Proof.
  unfold strptime. destruct (match_format fmt str tm_init) as [[t r]|]; [|done].
  cbn [mbind result_bind]. destruct r; [|done].
  destruct (tm_gmtoff t) as [off|].
  - destruct (timezone off); [|done]. cbn [mbind result_bind].
    by intros [Hf ->]%new_datetime_inv.
  - cbn [mbind result_bind]. by intros [Hf ->]%new_datetime_inv.
Qed.

Lemma strftime_iso dt :
  strftime dt ISO_FORMAT
  = iso_date (year dt) (month dt) (day dt) (hour dt) (minute dt) (second dt).
Proof. reflexivity. Qed.

(** The normaliser fails, or yields the fields of a date in the ISO
    shape. *)
Lemma parse_rss_date_cases (date_str : string) :
  (∃ e, parse_rss_date date_str = Raise e) ∨
  (∃ y mo d h mi s, datetime_fields y mo d h mi s ∧
                    parse_rss_date date_str = Ok (iso_date y mo d h mi s)).
Proof.
  unfold parse_rss_date.
  destruct (strptime (strip date_str) RSS_FORMAT) as [dt|e] eqn:Hp.
  - right. apply strptime_inv in Hp.
    exists (year dt), (month dt), (day dt), (hour dt), (minute dt), (second dt).
    split; [done|]. cbn [mbind result_bind]. by rewrite strftime_iso.
  - left. by exists e.
Qed.

Lemma match_weekday_digit k r :
  0 ≤ k ≤ 9 → match_name a_weekday 0 (String (digit_char k) r) = None.
Proof.
  intros Hk. pattern k. apply (Z_range_cases _ 0 9); [|done].
  intros i Hi. do 10 (destruct i as [|i]; [reflexivity|]).
  exfalso. vm_compute in Hi. lia.
Qed.

Lemma rstrip_cons_clean c s :
  isspace c = false → ∃ r, rstrip (String c s) = String c r.
Proof.
  intros Hc. simpl. destruct (rstrip s); rewrite ?Hc; by eexists.
Qed.

(** A normalised date is no feed date: it starts with a digit, where the
    format wants the name of a weekday. *)
Lemma parse_rss_date_iso y mo d h mi s :
  datetime_fields y mo d h mi s →
  parse_rss_date (iso_date y mo d h mi s) = Raise ValueError.
Proof.
  intros (Hy & _). unfold parse_rss_date, iso_date, fmt_04d at 1.
  rewrite append_cons.
  assert (0 ≤ y `div` 1000 ≤ 9) as Hq by (Z.div_mod_to_equations; lia).
  unfold strip. rewrite lstrip_clean by (by apply isspace_digit_char).
  destruct (rstrip_cons_clean (digit_char (y `div` 1000))
              (String (digit_char ((y `div` 100) `mod` 10))
                 (String (digit_char ((y `div` 10) `mod` 10))
                    (String (digit_char (y `mod` 10)) "")) +:+
               "-" +:+ fmt_02d mo +:+ "-" +:+ fmt_02d d +:+ " " +:+
               fmt_02d h +:+ ":" +:+ fmt_02d mi +:+ ":" +:+ fmt_02d s))
    as [r ->]; [by apply isspace_digit_char|].
  unfold strptime, RSS_FORMAT. rewrite match_format_cons.
  unfold match_directive. by rewrite match_weekday_digit.
Qed.

Lemma strptime_printable_rejected wd d mo y h mi s west oh om :
  printable_fields wd d mo y h mi s oh om →
  y = 0 ∨ days_in_month y mo < d ∨ 24 ≤ oh →
  strptime (rfc822_date wd d mo y h mi s west oh om) RSS_FORMAT
  = Raise ValueError.
Proof.
  intros Hp Hbad. unfold strptime. rewrite match_format_printable by done.
  destruct Hp as (Hwd & Hy & Hmo & Hd & Hh & Hmi & Hs & Hoh & Hom).
  rewrite bind_Ok. cbv beta iota.
  cbn [tm_gmtoff tm_year tm_month tm_day tm_hour tm_minute tm_second
       default].
  unfold timezone.
  destruct ((-86400000000 <? (if west then -1 else 1)
                             * ((oh * 3600 + om * 60) * 1000000))
            && ((if west then -1 else 1)
                * ((oh * 3600 + om * 60) * 1000000) <? 86400000000))
    eqn:Htz; [|done].
  rewrite !bind_Ok. unfold id.
  destruct (new_datetime y mo d h mi s _) as [dt|e] eqn:Hnd.
  - exfalso. apply new_datetime_inv in Hnd as [Hf _].
    unfold datetime_fields in Hf. rewrite andb_true_iff in Htz.
    destruct west; lia.
  - by rewrite (new_datetime_raise _ _ _ _ _ _ _ _ Hnd).
Qed.

End MoreDates.

(** X6: normalising twice is normalising once: what [_parse_date]
    returns, normalised or raw, is returned unchanged by a second call, in
    the four variants (a normalised date starts with a digit and so is no
    feed date). *)
Theorem X6_parse_date_idempotent (date_str : string) :
  check._parse_date (check._parse_date date_str)
  = check._parse_date date_str ∧
  jsonCURR._parse_date (jsonCURR._parse_date date_str)
  = jsonCURR._parse_date date_str ∧
  (app._parse_date (app._parse_date date_str).1).1
  = (app._parse_date date_str).1 ∧
  (jsonDEPRE._parse_date (jsonDEPRE._parse_date date_str).1).1
  = (jsonDEPRE._parse_date date_str).1.
Proof.
  unfold check._parse_date, jsonCURR._parse_date, app._parse_date,
    jsonDEPRE._parse_date.
  destruct (parse_rss_date_cases date_str)
    as [[e He] | (y & mo & d & h & mi & s & Hf & Hp)].
  - rewrite He. cbn [fst]. by rewrite He.
  - rewrite Hp. cbn [fst]. by rewrite (parse_rss_date_iso _ _ _ _ _ _ Hf).
Qed.

(** X7: blanks before and after a feed date do not matter: with any run
    of blanks on either side, a date in the feed format with valid fields
    is normalised as without them. *)
Theorem X7_parse_date_ignores_surrounding_blanks (ws1 ws2 : string)
    (wd : nat) (d mo y h mi s : Z) (west : bool) (oh om : Z) :
  blank ws1 → blank ws2 →
  valid_fields wd d mo y h mi s oh om →
  let raw := ws1 +:+ rfc822_date wd d mo y h mi s west oh om +:+ ws2 in
  check._parse_date raw = iso_date y mo d h mi s ∧
  jsonCURR._parse_date raw = iso_date y mo d h mi s ∧
  app._parse_date raw = (iso_date y mo d h mi s, []) ∧
  jsonDEPRE._parse_date raw = (iso_date y mo d h mi s, []).
Proof.
  intros H1 H2 Hv raw.
  assert (printable_fields wd d mo y h mi s oh om) as Hp.
  { destruct Hv as (Hwd & Hy & Hmo & Hd & Hh & Hmi & Hs & Hoh & Hom).
    pose proof (days_in_month_le y mo).
    unfold printable_fields. lia. }
  destruct (rfc822_clean wd d mo y h mi s west oh om Hp) as [Hs He].
  assert (parse_rss_date raw = Ok (iso_date y mo d h mi s)) as Hparse.
  { unfold parse_rss_date, raw. rewrite strip_blanks_around by done.
    by rewrite strptime_rfc822. }
  unfold check._parse_date, jsonCURR._parse_date, app._parse_date,
    jsonDEPRE._parse_date.
  by rewrite Hparse.
Qed.

Lemma X7_parse_date_ignores_surrounding_blanks_witness :
  let tab := String (ascii_of_nat 9) "" in
  blank "  " ∧ blank tab ∧ valid_fields 1 10 10 2023 8 0 0 5 30 ∧
  check._parse_date ("  " +:+ "Tue, 10 Oct 2023 08:00:00 +0530" +:+ tab)
  = "2023-10-10 08:00:00".
Proof.
  intros tab.
  assert (valid_fields 1 10 10 2023 8 0 0 5 30) as Hv
    by (unfold valid_fields; vm_compute; intuition (lia || discriminate)).
  split; [reflexivity|]. split; [reflexivity|]. split; [exact Hv|].
  exact (proj1 (X7_parse_date_ignores_surrounding_blanks "  " tab
                  1 10 10 2023 8 0 0 false 5 30 eq_refl eq_refl Hv)).
Defined.

(** X8: a date written in the feed format that denotes no date is not
    repaired: with the year 0000, a day past the end of the month (30 Feb,
    31 Apr, 29 Feb of a common year) or an offset of 24 hours or more,
    the four variants return the raw string. *)
Theorem X8_impossible_date_returned_raw (wd : nat) (d mo y h mi s : Z)
    (west : bool) (oh om : Z) :
  printable_fields wd d mo y h mi s oh om →
  (y = 0 ∨ PyDatetime.days_in_month y mo < d ∨ 24 ≤ oh)%Z →
  let raw := rfc822_date wd d mo y h mi s west oh om in
  check._parse_date raw = raw ∧
  jsonCURR._parse_date raw = raw ∧
  (app._parse_date raw).1 = raw ∧
  (jsonDEPRE._parse_date raw).1 = raw.
Proof.
  intros Hp Hbad raw.
  destruct (rfc822_clean wd d mo y h mi s west oh om Hp) as [Hs He].
  assert (parse_rss_date raw = Raise ValueError) as Hparse.
  { unfold parse_rss_date, raw. rewrite strip_clean by done.
    by rewrite strptime_printable_rejected. }
  unfold check._parse_date, jsonCURR._parse_date, app._parse_date,
    jsonDEPRE._parse_date.
  by rewrite Hparse.
Qed.

Lemma X8_impossible_date_returned_raw_witness :
  printable_fields 3 29 2 2023 12 0 0 0 0 ∧
  (PyDatetime.days_in_month 2023 2 < 29)%Z ∧
  check._parse_date "Thu, 29 Feb 2023 12:00:00 +0000"
  = "Thu, 29 Feb 2023 12:00:00 +0000".
Proof.
  assert (printable_fields 3 29 2 2023 12 0 0 0 0) as Hp
    by (unfold printable_fields; lia).
  assert (PyDatetime.days_in_month 2023 2 < 29)%Z as Hd by reflexivity.
  split; [exact Hp|]. split; [exact Hd|].
  exact (proj1 (X8_impossible_date_returned_raw 3 29 2 2023 12 0 0 false 0 0
                  Hp (or_intror (or_introl Hd)))).
Defined.


(** ** More on the classifier *)

Section MoreClassifier.

Lemma string_app_assoc (a b c : string) :
  (a +:+ b) +:+ c = a +:+ (b +:+ c).
Proof.
  induction a as [|x a IH]; [done|]. by rewrite !append_cons, IH.
Qed.

Lemma string_app_empty_r (a : string) : a +:+ "" = a.
Proof. induction a as [|x a IH]; [done|]. by rewrite append_cons, IH. Qed.

Lemma occurs_in_trans (a b c : string) :
  occurs_in a b → occurs_in b c → occurs_in a c.
Proof.
  intros (p1 & q1 & ->) (p2 & q2 & ->).
  exists (p2 +:+ p1), (q1 +:+ q2). by rewrite !string_app_assoc.
Qed.

Lemma occurs_in_lower (a b : string) :
  occurs_in a b → occurs_in (PyStr.lower a) (PyStr.lower b).
Proof.
  intros (p & q & ->). exists (PyStr.lower p), (PyStr.lower q).
  by rewrite !lower_app.
Qed.

Lemma occurs_in_left (a b : string) : occurs_in a (a +:+ b).
Proof. by exists "", b. Qed.

Lemma occurs_in_right (a b : string) : occurs_in b (a +:+ b).
Proof. exists a, "". by rewrite string_app_empty_r. Qed.

Variable vocabulary : list string.

Lemma filter_keywords_elem (text k : string) :
  k ∈ List.filter (fun k => PyStr.contains k (PyStr.lower text)) vocabulary
  ↔ k ∈ vocabulary ∧ occurs_in k (PyStr.lower text).
Proof.
  by rewrite list_elem_of_In, filter_In, <- list_elem_of_In, contains_spec.
Qed.

Lemma filter_keywords_mono (part text : string) :
  occurs_in part text →
  List.filter (fun k => PyStr.contains k (PyStr.lower part)) vocabulary
  ⊆ List.filter (fun k => PyStr.contains k (PyStr.lower text)) vocabulary.
Proof.
  intros Hpart%occurs_in_lower k [Hk Hin]%filter_keywords_elem.
  apply filter_keywords_elem. split; [done|]. by eapply occurs_in_trans.
Qed.

Lemma existsb_keywords_mono (part text : string) :
  occurs_in part text →
  existsb (fun k => PyStr.contains k (PyStr.lower part)) vocabulary = true →
  existsb (fun k => PyStr.contains k (PyStr.lower text)) vocabulary = true.
Proof.
  intros Hpart. rewrite !existsb_filter_nonempty. intros Hne Hnil.
  pose proof (filter_keywords_mono part text Hpart) as Hsub.
  rewrite Hnil in Hsub.
  destruct (List.filter _ vocabulary) as [|k l]; [done|].
  specialize (Hsub k (list_elem_of_here _ _)). by apply elem_of_nil in Hsub.
Qed.

Lemma filter_keywords_implied (text k1 k2 : string) :
  k1 ∈ vocabulary → PyStr.contains k1 k2 = true →
  k2 ∈ List.filter (fun k => PyStr.contains k (PyStr.lower text)) vocabulary →
  k1 ∈ List.filter (fun k => PyStr.contains k (PyStr.lower text)) vocabulary.
Proof.
  intros H1 H12%contains_spec [_ H2]%filter_keywords_elem.
  apply filter_keywords_elem. split; [done|]. by eapply occurs_in_trans.
Qed.

End MoreClassifier.

(** X10: the keywords of a part of a text are keywords of the text: if
    [part] occurs in [text], every keyword matched in [part] is matched in
    [text], and [text] is disaster-related when [part] is.  So the keywords
    of a title, and those of a description, are among the keywords of the
    combined text, and a keyword in either makes the item relevant. *)
Theorem X10_keywords_of_a_part (part text title description : string) :
  (occurs_in part text →
   check.matched_keywords part ⊆ check.matched_keywords text ∧
   jsonCURR.matched_keywords part ⊆ jsonCURR.matched_keywords text ∧
   (check._is_disaster_related part = true →
    check._is_disaster_related text = true) ∧
   (jsonCURR._is_disaster_related part = true →
    jsonCURR._is_disaster_related text = true)) ∧
  (let combined_text := title +:+ " " +:+ description in
   check.matched_keywords title ⊆ check.matched_keywords combined_text ∧
   check.matched_keywords description
   ⊆ check.matched_keywords combined_text ∧
   jsonCURR.matched_keywords title
   ⊆ jsonCURR.matched_keywords combined_text ∧
   jsonCURR.matched_keywords description
   ⊆ jsonCURR.matched_keywords combined_text).
Proof.
  split.
  - intros Hpart. split_and!.
    + by apply filter_keywords_mono.
    + by apply filter_keywords_mono.
    + by apply existsb_keywords_mono.
    + by apply existsb_keywords_mono.
  - assert (occurs_in title (title +:+ " " +:+ description)) as Ht
      by apply occurs_in_left.
    assert (occurs_in description (title +:+ " " +:+ description)) as Hd.
    { rewrite <- string_app_assoc. apply occurs_in_right. }
    cbv zeta. split_and!; by apply filter_keywords_mono.
Qed.

(** A keyword may also match across the join of title and description,
    in neither alone. *)
Example keyword_across_the_join :
  check.matched_keywords "Volcanic" = [] ∧
  check.matched_keywords "eruption feared" = [] ∧
  check.matched_keywords ("Volcanic" +:+ " " +:+ "eruption feared")
  = ["volcanic eruption"].
Proof. by vm_compute. Qed.

(** X11: a keyword that is part of another keyword is reported whenever
    the longer one is: in jsonCURR.py "flood" whenever "flooding",
    "emergency" whenever "state of emergency", "rescue" whenever "search
    and rescue"; and so for any two entries of either vocabulary of which
    one contains the other. *)
Theorem X11_contained_keyword_reported (text : string) :
  (∀ k1 k2, k1 ∈ jsonCURR.DISASTER_KEYWORDS →
            PyStr.contains k1 k2 = true →
            k2 ∈ jsonCURR.matched_keywords text →
            k1 ∈ jsonCURR.matched_keywords text) ∧
  (∀ k1 k2, k1 ∈ check.DISASTER_KEYWORDS →
            PyStr.contains k1 k2 = true →
            k2 ∈ check.matched_keywords text →
            k1 ∈ check.matched_keywords text) ∧
  ("flooding" ∈ jsonCURR.matched_keywords text →
   "flood" ∈ jsonCURR.matched_keywords text) ∧
  ("state of emergency" ∈ jsonCURR.matched_keywords text →
   "emergency" ∈ jsonCURR.matched_keywords text) ∧
  ("search and rescue" ∈ jsonCURR.matched_keywords text →
   "rescue" ∈ jsonCURR.matched_keywords text).
Proof.
  split_and!.
  - intros k1 k2. apply filter_keywords_implied.
  - intros k1 k2. apply filter_keywords_implied.
  - apply filter_keywords_implied; [compute_done | reflexivity].
  - apply filter_keywords_implied; [compute_done | reflexivity].
  - apply filter_keywords_implied; [compute_done | reflexivity].
Qed.

(** ** More on the feed loops *)

Section MoreFeed.
Context `{O : PySetOrder} `{W : World}.

(** Whatever the request does, check.py returns the records of some list
    of items: those of the response, or none. *)
Lemma check_fetch_feed_shape self url :
  ∃ entries, check._fetch_feed self url
             = omap (check_record self url) entries.
Proof.
  unfold check._fetch_feed, Requests.raise_for_status.
  destruct (requests_get url) as [response|e]; [|by exists []].
  cbn [mbind result_bind].
  destruct (Requests.status_ok response); [|by exists []].
  cbn [mbind result_bind]. exists (Requests.items response).
  by rewrite check_loop.
Qed.

Lemma jsonCURR_fetch_feed_shape self url items :
  jsonCURR._fetch_feed self url = Ok items →
  ∃ entries, items = omap (jsonCURR_record self url) entries.
Proof.
  unfold jsonCURR._fetch_feed.
  destruct (requests_get url) as [response|e].
  - cbn [mbind result_bind]. rewrite jsonCURR_loop.
    intros [= <-]. by exists (Requests.items response).
  - cbn [mbind result_bind]. destruct e; try done.
    intros [= <-]. by exists [].
Qed.

Lemma strip_field_or_empty entry n :
  PyStr.strip (check.field_or_empty entry n) = check.field_or_empty entry n.
Proof.
  unfold check.field_or_empty.
  destruct (Bs4.find n entry); [apply strip_idemp | done].
Qed.

Lemma check_parse_date_idemp s :
  check._parse_date (check._parse_date s) = check._parse_date s.
Proof.
  unfold check._parse_date.
  destruct (parse_rss_date_cases s)
    as [[e He] | (y & mo & d & h & mi & sec & Hf & Hp)].
  - rewrite He. by rewrite He.
  - rewrite Hp. by rewrite (parse_rss_date_iso _ _ _ _ _ _ Hf).
Qed.

Lemma check_locations_sound (self : check.DisasterRSSNewsScraper) text :
  check._extract_locations self text ≠ [] ∧
  ∀ x, x ∈ check._extract_locations self text →
       x = "Unknown" ∨ (x ∈ check.cities self ∧ PyStr.lower x = x).
Proof.
  split.
  - unfold check._extract_locations. cbv zeta.
    destruct (decide (_ = ∅)) as [He|Hne]; [done|].
    by rewrite list_of_set_nil.
  - intros x [Hx | [-> _]]%check_resolver_elem; [right | by left].
    apply elem_of_intersection in Hx as [HG [s ->]%ner_locations_lower].
    split; [done | apply lower_idemp].
Qed.

Lemma jsonCURR_locations_sound (self : jsonCURR.DisasterRSSNewsScraper)
    text :
  jsonCURR._extract_locations self text ≠ [] ∧
  ∀ x, x ∈ jsonCURR._extract_locations self text →
       x = "Unknown" ∨ (x ∈ jsonCURR.cities self ∧ PyStr.lower x = x).
Proof.
  split.
  - unfold jsonCURR._extract_locations. cbv zeta.
    by destruct (list_of_set _).
  - intros x [Hx | [-> _]]%jsonCURR_resolver_elem; [right | by left].
    apply elem_of_intersection in Hx as [HG [s ->]%ner_locations_lower].
    split; [done | apply lower_idemp].
Qed.

(** What a record of check.py holds. *)
Lemma check_record_inv self url entry a :
  check_record self url entry = Some a →
  check._is_disaster_related (combined_text entry) = true ∧
  a = check.mk_article (check.field_or_empty entry "title")
        (check._parse_date (check.field_or_empty entry "pubDate"))
        (check.field_or_empty entry "description")
        (check.field_or_empty entry "link")
        (check._extract_locations self (combined_text entry)) url
        (check.matched_keywords (combined_text entry)).
Proof.
  unfold check_record, check.fetch_entry. fold (combined_text entry).
  destruct (check._is_disaster_related (combined_text entry)); [|done].
  by intros [= <-].
Qed.

(** What a record of jsonCURR.py holds. *)
Lemma jsonCURR_record_inv self url entry a :
  jsonCURR_record self url entry = Some a →
  jsonCURR._is_disaster_related (combined_text entry) = true ∧
  ∃ pub, Bs4.find "pubDate" entry = Some pub ∧
  a = jsonCURR.mk_article (check.field_or_empty entry "title")
        (jsonCURR._parse_date (Bs4.text pub))
        (check.field_or_empty entry "description")
        (check.field_or_empty entry "link")
        (jsonCURR._extract_locations self (combined_text entry)) url
        (jsonCURR.matched_keywords (combined_text entry)).
Proof.
  unfold jsonCURR_record, jsonCURR.parse_entry, combined_text.
  destruct (stripped_text_found entry "title") as [(t & Ht & ->)|[Ht ->]];
    [|done].
  destruct (stripped_text_found entry "description")
    as [(de & Hde & ->)|[Hde ->]]; [|done].
  cbn [mbind result_bind].
  destruct (jsonCURR._is_disaster_related _) eqn:Hrel; [|done].
  destruct (text_of_found entry "pubDate") as [(p & Hp & ->)|[Hp ->]];
    [|done].
  destruct (stripped_text_found entry "link") as [(l & Hl & ->)|[Hl ->]];
    [|done].
  cbn [mbind result_bind]. intros [= <-]. split; [done|]. by exists p.
Qed.

End MoreFeed.

(** X12: when the request for a feed raises, no item comes out: check.py
    returns the empty list whatever was raised; jsonCURR.py, app.py and
    jsonDEPRE.py return the empty list when a [RequestException] was
    raised (app.py and jsonDEPRE.py log an error), and let any other
    exception reach the caller. *)
Theorem X12_failed_request_gives_no_items (O : PySetOrder) (W : World)
    (url : string) (e : exn)
    (sc : check.DisasterRSSNewsScraper)
    (sj : jsonCURR.DisasterRSSNewsScraper)
    (sa : app.RSSNewsScraper) (sd : jsonDEPRE.RSSNewsScraper) :
  requests_get url = Raise e →
  let error := Log ERROR ("Error fetching feed " +:+ url) in
  check._fetch_feed sc url = [] ∧
  (e = RequestException →
   jsonCURR._fetch_feed sj url = Ok [] ∧
   app._fetch_feed sa url = (Ok [], [error]) ∧
   jsonDEPRE._fetch_feed sd url = (Ok [], [error])) ∧
  (e ≠ RequestException →
   jsonCURR._fetch_feed sj url = Raise e ∧
   app._fetch_feed sa url = (Raise e, []) ∧
   jsonDEPRE._fetch_feed sd url = (Raise e, [])).
Proof.
  intros Hget error.
  unfold check._fetch_feed, jsonCURR._fetch_feed, app._fetch_feed,
    jsonDEPRE._fetch_feed.
  rewrite Hget. cbn [mbind result_bind]. split; [done|]. split.
  - by intros ->.
  - intros He. by destruct e.
Qed.

Lemma X12_failed_request_gives_no_items_witness :
  @requests_get sample_world "feed" = Raise RequestException ∧
  @app._fetch_feed elements_order sample_world
    (app.mk_scraper [] no_entities ∅) "feed"
  = (Ok [], [Log ERROR "Error fetching feed feed"]).
Proof.
  split; [reflexivity|].
  destruct (X12_failed_request_gives_no_items elements_order sample_world
              "feed" RequestException (check.mk_scraper [] no_entities ∅)
              (jsonCURR.mk_scraper [] no_entities ∅)
              (app.mk_scraper [] no_entities ∅)
              (jsonDEPRE.mk_scraper [] no_entities ∅) eq_refl)
    as (_ & Hreq & _).
  exact (proj1 (proj2 (Hreq eq_refl))).
Defined.

(** X13: a response with an error status: check.py, app.py and
    jsonDEPRE.py call [raise_for_status] and return no item (app.py and
    jsonDEPRE.py log an error); jsonCURR.py does not look at the status
    and processes the items of the body as those of any response. *)
Theorem X13_error_status (O : PySetOrder) (W : World)
    (url : string) (response : Requests.Response)
    (sc : check.DisasterRSSNewsScraper)
    (sj : jsonCURR.DisasterRSSNewsScraper)
    (sa : app.RSSNewsScraper) (sd : jsonDEPRE.RSSNewsScraper) :
  requests_get url = Ok response →
  Requests.status_ok response = false →
  let error := Log ERROR ("Error fetching feed " +:+ url) in
  check._fetch_feed sc url = [] ∧
  app._fetch_feed sa url = (Ok [], [error]) ∧
  jsonDEPRE._fetch_feed sd url = (Ok [], [error]) ∧
  jsonCURR._fetch_feed sj url
  = Ok (omap (jsonCURR_record sj url) (Requests.items response)).
Proof.
  intros Hget Hst error. split_and!.
  - unfold check._fetch_feed, Requests.raise_for_status.
    rewrite Hget. cbn [mbind result_bind]. by rewrite Hst.
  - unfold app._fetch_feed, Requests.raise_for_status.
    rewrite Hget. cbn [mbind result_bind]. by rewrite Hst.
  - unfold jsonDEPRE._fetch_feed, Requests.raise_for_status.
    rewrite Hget. cbn [mbind result_bind]. by rewrite Hst.
  - by apply jsonCURR_fetch_feed.
Qed.

Lemma X13_error_status_witness :
  let response := Requests.mk_response false [cyclone_entry] in
  let W := world_with Pandas.NoFile (Ok response) odisha_nlp in
  @requests_get W "feed" = Ok response ∧
  @check._fetch_feed elements_order W
    (check.mk_scraper [] odisha_nlp {["odisha"]}) "feed" = [] ∧
  (∃ a, @jsonCURR._fetch_feed elements_order W
          (jsonCURR.mk_scraper [] odisha_nlp {["odisha"]}) "feed" = Ok [a]).
Proof.
  intros response W. split; [reflexivity|].
  destruct (X13_error_status elements_order W "feed" response
              (check.mk_scraper [] odisha_nlp {["odisha"]})
              (jsonCURR.mk_scraper [] odisha_nlp {["odisha"]})
              (app.mk_scraper [] odisha_nlp ∅)
              (jsonDEPRE.mk_scraper [] odisha_nlp ∅) eq_refl eq_refl)
    as (Hc & _ & _ & Hj).
  split; [exact Hc|]. rewrite Hj. eexists. vm_compute. reflexivity.
Defined.

Section RecordFacts.
Context `{O : PySetOrder} `{W : World}.

Lemma check_feed_record_wf (sc : check.DisasterRSSNewsScraper) url a :
  a ∈ check._fetch_feed sc url →
  check.source a = url ∧
  check.disaster_keywords a ≠ [] ∧
  check.locations a ≠ [] ∧
  (∀ x, x ∈ check.locations a →
        x = "Unknown" ∨ (x ∈ check.cities sc ∧ PyStr.lower x = x)) ∧
  PyStr.strip (check.title a) = check.title a ∧
  PyStr.strip (check.description a) = check.description a ∧
  PyStr.strip (check.link a) = check.link a ∧
  check._parse_date (check.date a) = check.date a.
Proof.
  intros Ha. destruct (check_fetch_feed_shape sc url) as [entries He].
  rewrite He in Ha. apply list_elem_of_omap in Ha as (entry & _ & Hr).
  apply check_record_inv in Hr as [Hrel ->].
  cbn [check.source check.disaster_keywords check.locations check.title
       check.description check.link check.date].
  destruct (check_locations_sound sc (combined_text entry)) as [Hne Hin].
  split_and!; try done.
  - by apply existsb_filter_nonempty.
  - apply strip_field_or_empty.
  - apply strip_field_or_empty.
  - apply strip_field_or_empty.
  - apply check_parse_date_idemp.
Qed.

Lemma jsonCURR_feed_record_wf (sj : jsonCURR.DisasterRSSNewsScraper)
    url items a :
  jsonCURR._fetch_feed sj url = Ok items → a ∈ items →
  jsonCURR.source a = url ∧
  jsonCURR.disaster_keywords a ≠ [] ∧
  jsonCURR.locations a ≠ [] ∧
  (∀ x, x ∈ jsonCURR.locations a →
        x = "Unknown" ∨ (x ∈ jsonCURR.cities sj ∧ PyStr.lower x = x)) ∧
  PyStr.strip (jsonCURR.title a) = jsonCURR.title a ∧
  PyStr.strip (jsonCURR.description a) = jsonCURR.description a ∧
  PyStr.strip (jsonCURR.link a) = jsonCURR.link a ∧
  jsonCURR._parse_date (jsonCURR.date a) = jsonCURR.date a.
Proof.
  intros Hfeed Ha.
  destruct (jsonCURR_fetch_feed_shape sj url items Hfeed) as [entries ->].
  apply list_elem_of_omap in Ha as (entry & _ & Hr).
  apply jsonCURR_record_inv in Hr as (Hrel & pub & Hpub & ->).
  cbn [jsonCURR.source jsonCURR.disaster_keywords jsonCURR.locations
       jsonCURR.title jsonCURR.description jsonCURR.link jsonCURR.date].
  destruct (jsonCURR_locations_sound sj (combined_text entry))
    as [Hne Hin].
  split_and!; try done.
  - by apply existsb_filter_nonempty.
  - apply strip_field_or_empty.
  - apply strip_field_or_empty.
  - apply strip_field_or_empty.
  - apply check_parse_date_idemp.
Qed.

Lemma jsonCURR_record_iff (sj : jsonCURR.DisasterRSSNewsScraper) url entry :
  is_Some (jsonCURR_record sj url entry)
  ↔ has_fields entry entry_fields ∧
    jsonCURR._is_disaster_related (combined_text entry) = true.
Proof.
  unfold jsonCURR_record.
  destruct (jsonCURR_parse_entry_cases sj url entry)
    as [(a & -> & Hall & Hr & _)|[(-> & _ & Hr)|(-> & Hno)]].
  - split; [done | by eexists].
  - split; [by intros [? ?] | intros [_ ?]; congruence].
  - split; [by intros [? ?] | by intros [? _]].
Qed.

End RecordFacts.

(** X14: every record that [_fetch_feed] of check.py returns, and every
    record of a list that [_fetch_feed] of jsonCURR.py returns, has the
    feed url as its source, a non-empty list of keywords, a non-empty list
    of locations each of which is "Unknown" or a lower-case name of the
    gazetteer, a trimmed title, description and link, and a date that
    [_parse_date] leaves unchanged. *)
Theorem X14_records_are_well_formed (O : PySetOrder) (W : World)
    (url : string) (sc : check.DisasterRSSNewsScraper)
    (sj : jsonCURR.DisasterRSSNewsScraper) :
  (∀ a, a ∈ check._fetch_feed sc url →
     check.source a = url ∧
     check.disaster_keywords a ≠ [] ∧
     check.locations a ≠ [] ∧
     (∀ x, x ∈ check.locations a →
           x = "Unknown" ∨ (x ∈ check.cities sc ∧ PyStr.lower x = x)) ∧
     PyStr.strip (check.title a) = check.title a ∧
     PyStr.strip (check.description a) = check.description a ∧
     PyStr.strip (check.link a) = check.link a ∧
     check._parse_date (check.date a) = check.date a) ∧
  (∀ items a, jsonCURR._fetch_feed sj url = Ok items → a ∈ items →
     jsonCURR.source a = url ∧
     jsonCURR.disaster_keywords a ≠ [] ∧
     jsonCURR.locations a ≠ [] ∧
     (∀ x, x ∈ jsonCURR.locations a →
           x = "Unknown" ∨ (x ∈ jsonCURR.cities sj ∧ PyStr.lower x = x)) ∧
     PyStr.strip (jsonCURR.title a) = jsonCURR.title a ∧
     PyStr.strip (jsonCURR.description a) = jsonCURR.description a ∧
     PyStr.strip (jsonCURR.link a) = jsonCURR.link a ∧
     jsonCURR._parse_date (jsonCURR.date a) = jsonCURR.date a).
Proof.
  split.
  - intros a. apply check_feed_record_wf.
  - intros items a. apply jsonCURR_feed_record_wf.
Qed.

(** X15: jsonCURR.py records an item exactly when it has a title, a
    description, a link and a pubDate and its text is disaster-related; a
    disaster-related item that lacks a link or a pubDate is dropped like an
    item without a title, and nothing tells of it. *)
Theorem X15_jsonCURR_record_iff (O : PySetOrder)
    (sj : jsonCURR.DisasterRSSNewsScraper) (url : string)
    (entry : Bs4.Item) :
  (is_Some (jsonCURR_record sj url entry)
   ↔ has_fields entry entry_fields ∧
     jsonCURR._is_disaster_related (combined_text entry) = true) ∧
  (jsonCURR._is_disaster_related (combined_text entry) = true →
   Bs4.find "link" entry = None ∨ Bs4.find "pubDate" entry = None →
   jsonCURR_record sj url entry = None ∧
   ∀ items, jsonCURR.fetch_entry sj url items entry = Ok items).
Proof.
  pose proof (jsonCURR_record_iff sj url entry) as Hiff.
  split; [done|]. intros Hrel Hmiss.
  assert (jsonCURR_record sj url entry = None) as Hnone.
  { apply eq_None_not_Some. rewrite Hiff, has_fields_all.
    intros [(_ & _ & [l Hl] & [p Hp]) _]. destruct Hmiss; congruence. }
  split; [done|]. intros items.
  by rewrite jsonCURR_fetch_entry, Hnone, app_nil_r.
Qed.

(** X16: a date that cannot be parsed does not cost the item: a complete
    item is recorded with its raw date.  app.py and jsonDEPRE.py keep the
    text of pubDate as it is and log a warning; jsonCURR.py keeps it as it
    is (for a disaster-related item); check.py keeps it trimmed. *)
Theorem X16_unparsable_date_keeps_item (O : PySetOrder) (url : string)
    (entry : Bs4.Item) (pub : Bs4.Tag) (e : exn)
    (sa : app.RSSNewsScraper) (sd : jsonDEPRE.RSSNewsScraper)
    (sj : jsonCURR.DisasterRSSNewsScraper)
    (sc : check.DisasterRSSNewsScraper) :
  has_fields entry entry_fields →
  Bs4.find "pubDate" entry = Some pub →
  parse_rss_date (Bs4.text pub) = Raise e →
  let warning := Log WARNING ("Error parsing date " +:+ Bs4.text pub) in
  (∃ a, app_record sa url entry = Some a ∧ app.Date a = Bs4.text pub ∧
        app_entry_log sa url entry = [warning]) ∧
  (∃ a, jsonDEPRE_record sd url entry = Some a ∧
        jsonDEPRE.date a = Bs4.text pub ∧
        jsonDEPRE_entry_log sd url entry = [warning]) ∧
  (jsonCURR._is_disaster_related (combined_text entry) = true →
   ∃ a, jsonCURR_record sj url entry = Some a ∧
        jsonCURR.date a = Bs4.text pub) ∧
  (check._is_disaster_related (combined_text entry) = true →
   ∃ a, check_record sc url entry = Some a ∧
        check.date a = PyStr.strip (Bs4.text pub)).
Proof.
  intros Hall Hpub Hparse warning.
  pose proof Hall as (Ht & Hd & Hl & _)%has_fields_all.
  destruct Ht as [t Ht], Hd as [d Hd], Hl as [l Hl].
  split_and!.
  - unfold app_record, app_entry_log, app.parse_entry, app.stripped_text,
      app._parse_date.
    rewrite Ht, Hd, Hl, Hpub. cbn [Bs4.text_of mbind result_bind].
    rewrite Hparse. by eexists.
  - unfold jsonDEPRE_record, jsonDEPRE_entry_log, jsonDEPRE.parse_entry,
      jsonDEPRE.stripped_text, jsonDEPRE._parse_date.
    rewrite Ht, Hd, Hl, Hpub. cbn [Bs4.text_of mbind result_bind].
    rewrite Hparse. by eexists.
  - intros Hrel.
    destruct (proj2 (jsonCURR_record_iff sj url entry) (conj Hall Hrel))
      as [a Ha].
    exists a. split; [done|].
    apply jsonCURR_record_inv in Ha as (_ & pub' & Hpub' & ->).
    assert (pub' = pub) as -> by congruence.
    cbn [jsonCURR.date]. unfold jsonCURR._parse_date. by rewrite Hparse.
  - intros Hrel.
    destruct (proj2 (check_record_relevant sc url entry) Hrel) as [a Ha].
    exists a. split; [done|].
    apply check_record_inv in Ha as (_ & ->). cbn [check.date].
    unfold check.field_or_empty. rewrite Hpub.
    unfold check._parse_date, parse_rss_date. rewrite strip_idemp.
    unfold parse_rss_date in Hparse.
    by destruct (PyDatetime.strptime _ _).
Qed.

Lemma X16_unparsable_date_keeps_item_witness :
  let entry : Bs4.Item :=
    [Bs4.mk_tag "title" "Storm"; Bs4.mk_tag "description" "rain";
     Bs4.mk_tag "link" "l"; Bs4.mk_tag "pubDate" " yesterday "] in
  let sa := app.mk_scraper [] no_entities ∅ in
  has_fields entry entry_fields ∧
  parse_rss_date " yesterday " = Raise ValueError ∧
  ∃ a, @app_record elements_order sa "feed" entry = Some a ∧
       app.Date a = " yesterday ".
Proof.
  intros entry sa.
  assert (has_fields entry entry_fields) as Hall
    by (repeat constructor; by eexists).
  split; [exact Hall|]. split; [reflexivity|].
  destruct (X16_unparsable_date_keeps_item elements_order "feed" entry
              (Bs4.mk_tag "pubDate" " yesterday ") ValueError sa
              (jsonDEPRE.mk_scraper [] no_entities ∅)
              (jsonCURR.mk_scraper [] no_entities ∅)
              (check.mk_scraper [] no_entities ∅) Hall eq_refl eq_refl)
    as ((a & Ha & Hdate & _) & _).
  exists a. split; [exact Ha | exact Hdate].
Defined.

(** ** The runs over several feeds *)

Section Runs.
Context `{O : PySetOrder} `{W : World} `{C : Clock}.

Lemma fold_left_extend {A B} (f : A → list B) (l : list A) (acc : list B) :
  fold_left (fun acc x => (acc ++ f x)%list) l acc
  = (acc ++ concat (map f l))%list.
Proof.
  revert acc. induction l as [|x l IH]; intros acc; simpl.
  - by rewrite app_nil_r.
  - by rewrite IH, app_assoc.
Qed.

Lemma elem_of_concat {A} (x : A) (ls : list (list A)) :
  x ∈ concat ls ↔ ∃ l, x ∈ l ∧ l ∈ ls.
Proof.
  induction ls as [|l ls IH]; simpl.
  - split; [by intros ?%elem_of_nil | by intros (l & _ & ?%elem_of_nil)].
  - rewrite elem_of_app, IH. split.
    + intros [Hx | (l' & Hx & Hl')].
      * exists l. split; [done | apply list_elem_of_here].
      * exists l'. split; [done | by apply list_elem_of_further].
    + intros (l' & Hx & [-> | Hl']%elem_of_cons); [by left|].
      right. by exists l'.
Qed.

Lemma check_scrape_articles self :
  check.disaster_articles (check.scrape_disasters self)
  = concat (map (check._fetch_feed self) (check.feeds self)).
Proof.
  unfold check.scrape_disasters. cbn [check.disaster_articles].
  by rewrite fold_left_extend.
Qed.

(** The loop of jsonCURR.py over the feeds returns when every feed does,
    with the lists of the feeds one after the other. *)
Lemma jsonCURR_scrape_loop self feeds acc res :
  for_in feeds
    (fun articles feed =>
       items ← jsonCURR._fetch_feed self feed; Ok (articles ++ items)%list)
    acc = Ok res →
  ∃ per_feed,
    Forall2 (fun feed items => jsonCURR._fetch_feed self feed = Ok items)
      feeds per_feed ∧
    res = (acc ++ concat per_feed)%list.
Proof.
  revert acc. induction feeds as [|feed feeds IH]; intros acc.
  - intros [= <-]. exists []. split; [constructor|]. by rewrite app_nil_r.
  - rewrite for_in_cons.
    destruct (jsonCURR._fetch_feed self feed) as [items|e] eqn:Hfeed; [|done].
    cbn [mbind result_bind]. intros (per & Hper & ->)%IH.
    exists (items :: per). split; [by constructor|].
    simpl. by rewrite app_assoc.
Qed.

Lemma jsonCURR_scrape_loop_raise self feeds acc feed e :
  feed ∈ feeds → jsonCURR._fetch_feed self feed = Raise e →
  ∃ e', for_in feeds
          (fun articles feed =>
             items ← jsonCURR._fetch_feed self feed;
             Ok (articles ++ items)%list)
          acc = Raise e'.
Proof.
  intros Hin Hfeed. revert acc.
  induction feeds as [|f feeds IH]; intros acc.
  - by apply elem_of_nil in Hin.
  - rewrite for_in_cons.
    destruct (jsonCURR._fetch_feed self f) as [items|e0] eqn:Hf;
      [|by exists e0].
    cbn [mbind result_bind].
    apply elem_of_cons in Hin as [-> | Hin]; [congruence|]. by apply IH.
Qed.

(** The loop of app.py over the feeds, when it returns. *)
Lemma app_scrape_loop self feeds acc log rows log' :
  app.scrape_loop self feeds acc log = (Ok rows, log') →
  ∃ per_feed extra,
    Forall2 (fun feed items => (app._fetch_feed self feed).1 = Ok items)
      feeds per_feed ∧
    rows = (acc ++ concat per_feed)%list ∧
    log' = (log ++ extra)%list ∧
    ∀ feed, feed ∈ feeds → Log INFO ("Scraping feed: " +:+ feed) ∈ extra.
Proof.
  revert acc log. induction feeds as [|feed feeds IH]; intros acc log.
  - intros [= <- <-]. exists [], []. rewrite !app_nil_r.
    split; [constructor|]. split; [done|]. split; [done|].
    by intros feed Hin%elem_of_nil.
  - cbn [app.scrape_loop].
    destruct (app._fetch_feed self feed) as [[items|e] l] eqn:Hfeed; [|done].
    intros (per & extra & Hper & -> & -> & Hinfo)%IH.
    exists (items :: per),
      ([Log INFO ("Scraping feed: " +:+ feed)] ++ l ++ extra)%list.
    split; [constructor; [by rewrite Hfeed | done]|].
    split; [simpl; by rewrite app_assoc|].
    split; [by rewrite <- !app_assoc|].
    intros f [-> | Hin]%elem_of_cons.
    + apply elem_of_app. left. apply list_elem_of_here.
    + rewrite !elem_of_app. right. right. by apply Hinfo.
Qed.

End Runs.

(** X17: [scrape_disasters] of check.py returns the records of the
    feeds one feed after the other, in the order of [self.feeds]; the
    count in its metadata is the number of those records, the number of
    locations is the size of the gazetteer, and the timestamp is the clock
    of the run in the shape YYYY-MM-DD HH:MM:SS; every record has one of
    the feeds as its source and at least one keyword. *)
Theorem X17_check_scrape_disasters (O : PySetOrder) (W : World) (C : Clock)
    (self : check.DisasterRSSNewsScraper) :
  let out := check.scrape_disasters self in
  check.disaster_articles out
  = concat (map (check._fetch_feed self) (check.feeds self)) ∧
  check.total_disaster_articles (check.metadata out)
  = length (check.disaster_articles out) ∧
  check.total_locations (check.metadata out) = size (check.cities self) ∧
  check.metadata_feeds (check.metadata out) = check.feeds self ∧
  check.timestamp (check.metadata out)
  = iso_date (PyDatetime.year now) (PyDatetime.month now)
      (PyDatetime.day now) (PyDatetime.hour now) (PyDatetime.minute now)
      (PyDatetime.second now) ∧
  (∀ a, a ∈ check.disaster_articles out →
        check.source a ∈ check.feeds self ∧ check.disaster_keywords a ≠ []).
Proof.
  intros out. split_and!; try done.
  - apply check_scrape_articles.
  - intros a Ha. unfold out in Ha. rewrite check_scrape_articles in Ha.
    apply elem_of_concat in Ha as (items & Ha & Hitems).
    apply list_elem_of_In, in_map_iff in Hitems as (feed & <- & Hfeed).
    destruct (check_feed_record_wf self feed a Ha) as (Hsrc & Hkw & _).
    split; [|done]. rewrite Hsrc. by apply list_elem_of_In.
Qed.

(** X18: [scrape_disasters] of jsonCURR.py, when it returns, returns the
    records of the feeds one feed after the other, their count, the size
    of the gazetteer, and records that each have one of the feeds as source
    and at least one keyword; when [_fetch_feed] raises on one of the
    feeds, the run raises and returns nothing of what the feeds before
    gave. *)
Theorem X18_jsonCURR_scrape_disasters (O : PySetOrder) (W : World)
    (C : Clock) (self : jsonCURR.DisasterRSSNewsScraper) :
  (∀ out, jsonCURR.scrape_disasters self = Ok out →
     (∃ per_feed,
        Forall2 (fun feed items => jsonCURR._fetch_feed self feed = Ok items)
          (jsonCURR.feeds self) per_feed ∧
        jsonCURR.disaster_articles out = concat per_feed) ∧
     jsonCURR.total_disaster_articles (jsonCURR.metadata out)
     = length (jsonCURR.disaster_articles out) ∧
     jsonCURR.total_locations (jsonCURR.metadata out)
     = size (jsonCURR.cities self) ∧
     (∀ a, a ∈ jsonCURR.disaster_articles out →
           jsonCURR.source a ∈ jsonCURR.feeds self ∧
           jsonCURR.disaster_keywords a ≠ [])) ∧
  (∀ feed e, feed ∈ jsonCURR.feeds self →
             jsonCURR._fetch_feed self feed = Raise e →
             ∃ e', jsonCURR.scrape_disasters self = Raise e').
Proof.
  split.
  - intros out. unfold jsonCURR.scrape_disasters. cbv zeta.
    destruct (for_in _ _ _) as [articles|e] eqn:Hloop; [|done].
    cbn [mbind result_bind]. intros [= <-].
    apply jsonCURR_scrape_loop in Hloop as (per & Hper & ->).
    cbn [jsonCURR.disaster_articles jsonCURR.metadata
         jsonCURR.total_disaster_articles jsonCURR.total_locations].
    rewrite app_nil_l. split_and!; try done.
    + by exists per.
    + intros a (items & Ha & Hitems)%elem_of_concat.
      apply list_elem_of_lookup in Hitems as [i Hi].
      destruct (Forall2_lookup_r _ _ _ _ _ Hper Hi) as (feed & Hfeed & Hok).
      destruct (jsonCURR_feed_record_wf self feed items a Hok Ha)
        as (Hsrc & Hkw & _).
      split; [|done]. rewrite Hsrc. by eapply list_elem_of_lookup_2.
  - intros feed e Hin Hfeed. unfold jsonCURR.scrape_disasters. cbv zeta.
    destruct (jsonCURR_scrape_loop_raise self (jsonCURR.feeds self) []
                feed e Hin Hfeed) as [e' ->].
    by exists e'.
Qed.

(** X19: [scrape] of app.py, when it returns, returns the rows of the
    feeds one feed after the other, in the order of [self.feeds], and its
    log names every feed it went through. *)
Theorem X19_app_scrape (O : PySetOrder) (W : World)
    (self : app.RSSNewsScraper) (rows : list app.Article)
    (log : list LogRecord) :
  app.scrape self = (Ok rows, log) →
  (∃ per_feed,
     Forall2 (fun feed items => (app._fetch_feed self feed).1 = Ok items)
       (app.feeds self) per_feed ∧
     rows = concat per_feed) ∧
  (∀ feed, feed ∈ app.feeds self →
           Log INFO ("Scraping feed: " +:+ feed) ∈ log).
Proof.
  unfold app.scrape.
  intros (per & extra & Hper & -> & -> & Hinfo)%app_scrape_loop.
  split; [by exists per | done].
Qed.

Lemma X19_app_scrape_witness :
  let self := app.mk_scraper ["feed"] odisha_nlp {["odisha"]} in
  (∃ rows log, @app.scrape elements_order feed_world self = (Ok rows, log) ∧
               length rows = 2%nat ∧ Log INFO "Scraping feed: feed" ∈ log).
Proof.
  intros self.
  destruct (@app.scrape elements_order feed_world self) as [r log] eqn:Hs.
  assert (∃ rows, r = Ok rows ∧ length rows = 2%nat) as (rows & -> & Hlen).
  { vm_compute in Hs. injection Hs as <- _. eexists. split; reflexivity. }
  exists rows, log. split; [reflexivity|]. split; [exact Hlen|].
  apply (proj2 (X19_app_scrape elements_order feed_world self rows log Hs)).
  apply list_elem_of_here.
Defined.

(** X20: [main] of jsonDEPRE.py never writes its output file: the class
    has no method [scrape], so the call raises inside the [try], and
    whatever the world the run ends by logging "Scraping failed"; when the
    cities file is missing that is the only record of the log. *)
Theorem X20_jsonDEPRE_main_always_fails (W : World) :
  (jsonDEPRE.main).1 = None ∧
  (∃ log, (jsonDEPRE.main).2 = (log ++ [Log ERROR "Scraping failed"])%list) ∧
  (file_at "world-cities.csv" = Pandas.NoFile →
   (jsonDEPRE.main).2 = [Log ERROR "Scraping failed"]).
Proof.
  unfold jsonDEPRE.main. cbv zeta.
  destruct (jsonDEPRE.__init__ _ "world-cities.csv") as [[scraper log]|e]
    eqn:Hinit.
  - split; [done|]. split; [by exists log|].
    intros Hno. unfold jsonDEPRE.__init__ in Hinit. by rewrite Hno in Hinit.
  - split; [done|]. split; [by exists []|done].
Qed.
